(** * Video-Transcripter: the upload-to-transcript pipeline of [server.js]

    A shallow embedding of the Express back end ([src/server.js]): the
    multer upload filter, the three helpers that shell out to the decoder
    and to the two speech-to-text engines, and the [/api/transcribe]
    handler with its try / catch / finally structure.

    Modelling choices:
    - JavaScript strings are [string]s of code units below 256;
      [toLowerCase] and [trim] are the JavaScript functions on those
      code units (the letters and the white space of Latin-1).
    - [path.extname] and [path.basename] follow Node's POSIX
      implementation, loop variable by loop variable.
    - The file system is a finite map from paths to contents.
    - Everything the server cannot decide by itself is an explicit
      environment: what a child process does to the file system and how
      it ends, and which file-system calls raise.
    - An asynchronous function is a computation over the world that
      returns, throws, or never comes back from an [await] (a child
      process that does not exit); every observable step (console
      output, commands, file-system calls, responses) is appended to a
      trace. *)

From Stdlib Require Import ZArith Ascii String List.
From stdpp Require Import gmap strings list.

Import ListNotations.
Local Open Scope string_scope.
Local Open Scope list_scope.
Local Open Scope Z_scope.

(** ** JavaScript string primitives *)

Module JsString.

Definition length (s : string) : Z := Z.of_nat (String.length s).

(** The code unit at index [i], as [String.prototype.charCodeAt] reads it. *)
Definition charAt (s : string) (i : Z) : option ascii :=
  if i <? 0 then None else String.get (Z.to_nat i) s.

(** [s.slice(a, b)] for [0 <= a]; an empty range gives the empty string. *)
Definition slice (s : string) (a b : Z) : string :=
  if b <=? a then EmptyString
  else String.substring (Z.to_nat a) (Z.to_nat (b - a)) s.

(** [s.slice(a)]: from index [a] to the end. *)
Definition slice_from (s : string) (a : Z) : string :=
  slice s a (length s).

(** The capital letters among the code units below 256: [A]-[Z] and
    the accented capitals 192-222, without the multiplication sign
    (215). *)
Definition is_upper (c : ascii) : bool :=
  let n := nat_of_ascii c in
  ((65 <=? n)%nat && (n <=? 90)%nat)
  || ((192 <=? n)%nat && (n <=? 222)%nat && negb (n =? 215)%nat).

Definition lower_char (c : ascii) : ascii :=
  if is_upper c then ascii_of_nat (nat_of_ascii c + 32) else c.

Fixpoint toLowerCase (s : string) : string :=
  match s with
  | EmptyString => EmptyString
  | String c r => String (lower_char c) (toLowerCase r)
  end.

(** What [trim] removes, among the code units below 256: TAB, LF, VT,
    FF, CR, SPACE and the no-break space (160). *)
Definition is_space (c : ascii) : bool :=
  let n := nat_of_ascii c in
  ((9 <=? n)%nat && (n <=? 13)%nat) || (n =? 32)%nat || (n =? 160)%nat.

Fixpoint trimStart (s : string) : string :=
  match s with
  | EmptyString => EmptyString
  | String c r => if is_space c then trimStart r else s
  end.

(** [trimEnd] keeps a character when it is not white space or when
    something survives behind it. *)
Fixpoint trimEnd (s : string) : string :=
  match s with
  | EmptyString => EmptyString
  | String c r =>
      match trimEnd r with
      | EmptyString => if is_space c then EmptyString else String c EmptyString
      | String d r' => String c (String d r')
      end
  end.

Definition trim (s : string) : string := trimEnd (trimStart s).

(** [s] occurs in [t] at some offset. *)
Fixpoint includes (t s : string) : bool :=
  String.prefix s t ||
  match t with
  | EmptyString => false
  | String _ r => includes r s
  end.

(** JavaScript truthiness of a string: only the empty string is falsy. *)
Definition truthy (s : string) : bool :=
  match s with EmptyString => false | String _ _ => true end.

Definition first (s : string) : option ascii :=
  match s with EmptyString => None | String c _ => Some c end.

Fixpoint last (s : string) : option ascii :=
  match s with
  | EmptyString => None
  | String c EmptyString => Some c
  | String _ r => last r
  end.

End JsString.

(** ** Node's [path] module (POSIX flavour) *)

Module NodePath.

Definition SLASH : ascii := "/"%char.
Definition DOT : ascii := "."%char.

(** The loop variables of [path.extname]; [-1] is the source's own
    not-yet-seen marker. *)
Record ExtScan := mkExtScan {
  startDot : Z;
  startPart : Z;
  endIdx : Z;
  matchedSlash : bool;
  preDotState : Z;
  stopped : bool
}.

Definition ext_init : ExtScan :=
  mkExtScan (-1) 0 (-1) true 0 false.

(** One iteration of the right-to-left scan at index [i]. *)
Definition ext_step (st : ExtScan) (i : Z) (code : ascii) : ExtScan :=
  if stopped st then st
  else if Ascii.eqb code SLASH then
    if negb (matchedSlash st)
    then mkExtScan (startDot st) (i + 1) (endIdx st) (matchedSlash st)
                   (preDotState st) true
    else st
  else
    let st1 :=
      if endIdx st =? -1
      then mkExtScan (startDot st) (startPart st) (i + 1) false
                     (preDotState st) false
      else st in
    if Ascii.eqb code DOT then
      if startDot st1 =? -1
      then mkExtScan i (startPart st1) (endIdx st1) (matchedSlash st1)
                     (preDotState st1) false
      else if negb (preDotState st1 =? 1)
      then mkExtScan (startDot st1) (startPart st1) (endIdx st1)
                     (matchedSlash st1) 1 false
      else st1
    else if negb (startDot st1 =? -1)
    then mkExtScan (startDot st1) (startPart st1) (endIdx st1)
                   (matchedSlash st1) (-1) false
    else st1.

(** [for (i = n - 1; i >= 0; --i)] over the code units of [path]. *)
Fixpoint scan_down {S : Type} (step : S -> Z -> ascii -> S)
         (path : string) (n : nat) (st : S) : S :=
  match n with
  | O => st
  | S k =>
      match String.get k path with
      | Some c => scan_down step path k (step st (Z.of_nat k) c)
      | None => scan_down step path k st
      end
  end.

Definition extname (path : string) : string :=
  let st := scan_down ext_step path (String.length path) ext_init in
  if (startDot st =? -1)
     || (endIdx st =? -1)
     || (preDotState st =? 0)
     || ((preDotState st =? 1)
         && (startDot st =? endIdx st - 1)
         && (startDot st =? startPart st + 1))
  then EmptyString
  else JsString.slice path (startDot st) (endIdx st).


(** The loop variables of [path.basename] when a suffix is given. *)
Record BaseScan := mkBaseScan {
  bstart : Z;
  bend : Z;
  bmatchedSlash : bool;
  extIdx : Z;
  firstNonSlashEnd : Z;
  bstopped : bool
}.

Definition base_step (suffix : string) (st : BaseScan) (i : Z) (code : ascii)
  : BaseScan :=
  if bstopped st then st
  else if Ascii.eqb code SLASH then
    if negb (bmatchedSlash st)
    then mkBaseScan (i + 1) (bend st) (bmatchedSlash st) (extIdx st)
                    (firstNonSlashEnd st) true
    else st
  else
    let st1 :=
      if firstNonSlashEnd st =? -1
      then mkBaseScan (bstart st) (bend st) false (extIdx st) (i + 1) false
      else st in
    if 0 <=? extIdx st1 then
      if bool_decide (JsString.charAt suffix (extIdx st1) = Some code) then
        let e := extIdx st1 - 1 in
        if e =? -1
        then mkBaseScan (bstart st1) i (bmatchedSlash st1) e
                        (firstNonSlashEnd st1) false
        else mkBaseScan (bstart st1) (bend st1) (bmatchedSlash st1) e
                        (firstNonSlashEnd st1) false
      else mkBaseScan (bstart st1) (firstNonSlashEnd st1) (bmatchedSlash st1)
                      (-1) (firstNonSlashEnd st1) false
    else st1.

(** The scan of [path.basename] without a usable suffix. *)
Definition plain_step (st : BaseScan) (i : Z) (code : ascii) : BaseScan :=
  if bstopped st then st
  else if Ascii.eqb code SLASH then
    if negb (bmatchedSlash st)
    then mkBaseScan (i + 1) (bend st) (bmatchedSlash st) (extIdx st)
                    (firstNonSlashEnd st) true
    else st
  else if bend st =? -1
  then mkBaseScan (bstart st) (i + 1) false (extIdx st)
                  (firstNonSlashEnd st) false
  else st.

Definition basename (path suffix : string) : string :=
  if (0 <? JsString.length suffix)
     && (JsString.length suffix <=? JsString.length path)
  then
    if String.eqb suffix path then EmptyString
    else
      let st := scan_down (base_step suffix) path (String.length path)
                  (mkBaseScan 0 (-1) true (JsString.length suffix - 1) (-1) false) in
      let e :=
        if bstart st =? bend st then firstNonSlashEnd st
        else if bend st =? -1 then JsString.length path
        else bend st in
      JsString.slice path (bstart st) e
  else
    let st := scan_down plain_step path (String.length path)
                (mkBaseScan 0 (-1) true (-1) (-1) false) in
    if bend st =? -1 then EmptyString
    else JsString.slice path (bstart st) (bend st).

End NodePath.

(** ** Errors, events and the world the server runs in *)

(** A JavaScript [Error]: its message and, for the errors that
    [child_process.exec] rejects with, the captured standard error. *)
Record JsError := mkError {
  message : string;
  stderr : option string
}.

(** [new Error(msg)] *)
Definition new_Error (msg : string) : JsError := mkError msg None.

(** Why a computation hands over no value: an error was thrown, or the
    promise it awaits never settles. An error is read as a [Halt]
    through [Thrown]: [inl e], for an error [e], stands for
    [inl (Thrown e)]. *)
Inductive Halt :=
| Thrown (e : JsError)
| Never.

Coercion Thrown : JsError >-> Halt.

(** The type expected of a sum or of a pair is used when its components
    are read, so that the coercion applies inside them. *)
Arguments inl {A B} & _.
Arguments pair {A B} & _ _.

(** What a finished child process hands back to [execPromise]. *)
Record ProcOutput := mkProcOutput {
  stdout : string;
  stderr_out : string
}.

Inductive FsOp := OpWrite | OpRead | OpUnlink.

(** The second argument of a [console.error] call. *)
Inductive LogArg :=
| ArgError (e : JsError)
| ArgString (s : string)
| ArgUndefined.

(** The body of an HTTP response: the two JSON shapes the handler sends and
    the page of the framework's own error handler. *)
Inductive Body :=
| JsonTranscript (transcript : string)
| JsonError (error : string)
| ErrorPage (msg : string).

Inductive Event :=
| ConsoleLog (msg : string)
| ConsoleError (label : string) (arg : LogArg)
| Exec (command : string)
| FsWrite (path content : string)
| FsRead (path : string)
| FsUnlink (path : string)
| Respond (status : Z) (body : Body).

(** The file system (path to contents) and everything observable the
    server did so far, oldest event first. *)
Record World := mkWorld {
  files : gmap string string;
  trace : list Event
}.

(** What the server cannot decide: the effect of a shell command on the
    file system and how it ends (it exits with its output, it fails, or
    it never exits), and which file-system calls raise (with the message
    of the error they raise). *)
Record Env := mkEnv {
  run_process : string -> gmap string string ->
                gmap string string * (Halt + ProcOutput);
  fs_fault : FsOp -> string -> option string
}.

(** ** A monad for asynchronous functions

    [await] of a promise that rejects throws, and [await] of a promise
    that never settles leaves the function suspended for good: nothing
    after it runs, no [catch] and no [finally] either. A computation
    therefore yields a new state and a value, a thrown error or
    [Never]. *)

Definition M (S A : Type) : Type := S -> S * (Halt + A).

Definition ret {S A} (a : A) : M S A := fun s => (s, inr a).

Definition throw {S A} (e : JsError) : M S A := fun s => (s, inl (Thrown e)).

Definition bind {S A B} (m : M S A) (k : A -> M S B) : M S B :=
  fun s =>
    match m s with
    | (s1, inl e) => (s1, inl e)
    | (s1, inr a) => k a s1
    end.

(** [try { body } catch (error) { handler error }] *)
Definition try_catch {S A} (body : M S A) (handler : JsError -> M S A) : M S A :=
  fun s =>
    match body s with
    | (s1, inl (Thrown e)) => handler e s1
    | (s1, inl Never) => (s1, inl Never)
    | (s1, inr a) => (s1, inr a)
    end.

(** [try { body } finally { fin }]: [fin] runs on both exits of [body],
    and an error thrown by [fin] replaces the outcome of [body]. *)
Definition try_finally {S A} (body : M S A) (fin : M S unit) : M S A :=
  fun s =>
    match body s with
    | (s1, inl Never) => (s1, inl Never)
    | (s1, r) =>
        match fin s1 with
        | (s2, inl e) => (s2, inl e)
        | (s2, inr _) => (s2, r)
        end
    end.

Definition when {S} (c : bool) (m : M S unit) : M S unit :=
  if c then m else ret tt.

Declare Scope js_scope.
Delimit Scope js_scope with js.
Notation "x <- m ;; k" := (bind m (fun x => k))
  (at level 100, m at next level, right associativity) : js_scope.
Notation "m ;; k" := (bind m (fun _ => k))
  (at level 100, right associativity) : js_scope.
Local Open Scope js_scope.

(** ** Primitive effects *)

Section Primitives.
Variable env : Env.

Definition emit (e : Event) : M World unit :=
  fun w => (mkWorld (files w) (trace w ++ [e]), inr tt).

Definition console_log (msg : string) : M World unit :=
  emit (ConsoleLog msg).

Definition console_error (label : string) (arg : LogArg) : M World unit :=
  emit (ConsoleError label arg).

(** [await execPromise(command)]: the promise settles when the child
    process exits, and not before. *)
Definition execPromise (command : string) : M World ProcOutput :=
  emit (Exec command) ;;
  fun w =>
    match run_process env command (files w) with
    | (fs, r) => (mkWorld fs (trace w), r)
    end.

(** [fs.existsSync(p)] *)
Definition existsSync (p : string) : M World bool :=
  fun w => (w, inr (bool_decide (is_Some (files w !! p)))).

(** [fs.writeFileSync(p, content)] *)
Definition writeFileSync (p content : string) : M World unit :=
  emit (FsWrite p content) ;;
  match fs_fault env OpWrite p with
  | Some msg => throw (new_Error msg)
  | None => fun w => (mkWorld (<[p := content]> (files w)) (trace w), inr tt)
  end.

(** [fs.readFileSync(p, 'utf8')] *)
Definition readFileSync (p : string) : M World string :=
  emit (FsRead p) ;;
  match fs_fault env OpRead p with
  | Some msg => throw (new_Error msg)
  | None =>
      fun w =>
        match files w !! p with
        | Some c => (w, inr c)
        | None =>
            (w, inl (new_Error ("ENOENT: no such file or directory, open '"
                                +:+ p +:+ "'")))
        end
  end.

(** [fs.unlinkSync(p)] *)
Definition unlinkSync (p : string) : M World unit :=
  emit (FsUnlink p) ;;
  match fs_fault env OpUnlink p with
  | Some msg => throw (new_Error msg)
  | None =>
      fun w =>
        match files w !! p with
        | Some _ => (mkWorld (delete p (files w)) (trace w), inr tt)
        | None =>
            (w, inl (new_Error ("ENOENT: no such file or directory, unlink '"
                                +:+ p +:+ "'")))
        end
  end.

End Primitives.

(** ** The server ([server.js]) *)

(** The double quote and the line feed, for the command lines and the
    inline script the server assembles. *)
Definition DQ : string := String (ascii_of_nat 34) EmptyString.
Definition NL : string := String (ascii_of_nat 10) EmptyString.

Definition quoted (s : string) : string := DQ +:+ s +:+ DQ.

(** *** Upload configuration (lines 14-28) *)

(** The alternatives of the literal [/mp4|mov|avi|webm|mkv|flv|wmv/]. *)
Definition allowedTypes : list string :=
  ["mp4"; "mov"; "avi"; "webm"; "mkv"; "flv"; "wmv"].

(** [re.test(s)] for a pattern that is an alternation of literals and
    carries no anchor: some alternative occurs somewhere in [s]. *)
Definition RegExp_test (alternatives : list string) (s : string) : bool :=
  existsb (JsString.includes s) alternatives.

(** [path.extname(file.originalname).toLowerCase().slice(1)] *)
Definition upload_ext (originalname : string) : string :=
  JsString.slice_from (JsString.toLowerCase (NodePath.extname originalname)) 1.

(** The [fileFilter] callback: [inr true] is [cb(null, true)], [inl e] is
    [cb(e)]. *)
Definition fileFilter (originalname : string) : JsError + bool :=
  let ext := upload_ext originalname in
  if RegExp_test allowedTypes ext
  then inr true
  else inl (new_Error "Invalid file type. Only video files are allowed.").

Definition upload_dest : string := "uploads/".
Definition fileSize_limit : Z := 500 * 1024 * 1024.

(** [req.file] as the upload middleware fills it in. *)
Record File := mkFile {
  originalname : string;
  path : string;
  size : Z
}.

Record Request := mkRequest { file : option File }.

(** A file part arriving at the endpoint, with the random name the
    middleware generates for it. *)
Record Incoming := mkIncoming {
  in_originalname : string;
  in_generated_name : string;
  in_content : string;
  in_size : Z
}.

(** [upload.single('video')]: the filter is asked first; a file over the
    size limit is refused and leaves nothing behind; an accepted file is
    stored under [uploads/] with its generated name. A request without a
    file part passes with [req.file] undefined. *)
Definition upload_single (inc : option Incoming) : M World Request :=
  match inc with
  | None => ret (mkRequest None)
  | Some u =>
      match fileFilter (in_originalname u) with
      | inl e => throw e
      | inr false => ret (mkRequest None)
      | inr true =>
          if fileSize_limit <? in_size u
          then throw (new_Error "File too large")
          else
            let p := upload_dest +:+ in_generated_name u in
            fun w =>
              (mkWorld (<[p := in_content u]> (files w)) (trace w),
               inr (mkRequest (Some (mkFile (in_originalname u) p (in_size u)))))
      end
  end.

Section Server.
Variable env : Env.

(** *** [extractAudio] (lines 34-43) *)

Definition ffmpeg_command (videoPath audioPath : string) : string :=
  "ffmpeg -i " +:+ quoted videoPath
    +:+ " -vn -acodec pcm_s16le -ar 16000 -ac 1 " +:+ quoted audioPath.

Definition extractAudio (videoPath audioPath : string) : M World unit :=
  try_catch
    (execPromise env (ffmpeg_command videoPath audioPath) ;;
     console_log "Audio extracted successfully")
    (fun error =>
       console_error "FFmpeg error:"
         (match stderr error with
          | Some s => ArgString s
          | None => ArgUndefined
          end) ;;
       throw (new_Error "Failed to extract audio from video")).

(** *** [transcribeWithWhisper] (lines 46-72) *)

Definition whisper_command (audioPath : string) : string :=
  "whisper " +:+ quoted audioPath
    +:+ " --model base --language en --output_format txt --output_dir /tmp".

Definition transcriptPath (audioPath : string) : string :=
  let baseName := NodePath.basename audioPath (NodePath.extname audioPath) in
  "/tmp/" +:+ baseName +:+ ".txt".

Definition transcribeWithWhisper (audioPath : string) : M World string :=
  try_catch
    (console_log "Running Whisper transcription..." ;;
     execPromise env (whisper_command audioPath) ;;
     present <- existsSync (transcriptPath audioPath) ;;
     if (present : bool) then
       transcript <- readFileSync env (transcriptPath audioPath) ;;
       unlinkSync env (transcriptPath audioPath) ;;
       ret (JsString.trim transcript)
     else
       throw (new_Error "Transcript file not generated"))
    (fun error =>
       console_error "Whisper error:" (ArgError error) ;;
       throw (new_Error ("Transcription failed: " +:+ message error))).

(** *** [transcribeWithFasterWhisper] (lines 75-103) *)

Definition pythonScript (audioPath : string) : string :=
  NL +:+ "import sys" +:+ NL
  +:+ "from faster_whisper import WhisperModel" +:+ NL
  +:+ NL
  +:+ "model = WhisperModel(" +:+ quoted "base" +:+ ", device=" +:+ quoted "cpu"
  +:+ ", compute_type=" +:+ quoted "int8" +:+ ")" +:+ NL
  +:+ "segments, info = model.transcribe(" +:+ quoted audioPath
  +:+ ", language=" +:+ quoted "en" +:+ ", beam_size=5)" +:+ NL
  +:+ NL
  +:+ "transcript = " +:+ quoted " "
  +:+ ".join([segment.text for segment in segments])" +:+ NL
  +:+ "print(transcript)" +:+ NL.

Definition scriptPath : string := "/tmp/transcribe.py".

Definition transcribeWithFasterWhisper (audioPath : string) : M World string :=
  try_catch
    (writeFileSync env scriptPath (pythonScript audioPath) ;;
     console_log "Running Faster-Whisper transcription..." ;;
     out <- execPromise env ("python3 " +:+ scriptPath) ;;
     unlinkSync env scriptPath ;;
     ret (JsString.trim (stdout out)))
    (fun error =>
       console_error "Faster-Whisper error:" (ArgError error) ;;
       throw (new_Error ("Transcription failed: " +:+ message error))).

(** *** The [/api/transcribe] handler (lines 106-155) *)

(** The handler's state: the world and its two local variables, which
    the [finally] block reads whatever happened before. *)
Record HState := mkHState {
  world : World;
  videoPath : option string;
  audioPath : option string
}.

Definition lift {A} (m : M World A) : M HState A :=
  fun h =>
    match m (world h) with
    | (w, r) => (mkHState w (videoPath h) (audioPath h), r)
    end.

Definition set_videoPath (p : string) : M HState unit :=
  fun h => (mkHState (world h) (Some p) (audioPath h), inr tt).

Definition set_audioPath (p : string) : M HState unit :=
  fun h => (mkHState (world h) (videoPath h) (Some p), inr tt).

Definition get_videoPath : M HState (option string) :=
  fun h => (h, inr (videoPath h)).

Definition get_audioPath : M HState (option string) :=
  fun h => (h, inr (audioPath h)).

(** [res.status(code).json(body)] *)
Definition respond (code : Z) (body : Body) : M HState unit :=
  lift (emit (Respond code body)).

(** [if (v && fs.existsSync(v)) { fs.unlinkSync(v); }] *)
Definition remove_if_present (v : option string) : M World unit :=
  match v with
  | None => ret tt
  | Some p =>
      if JsString.truthy p then
        present <- existsSync p ;;
        when present (unlinkSync env p)
      else ret tt
  end.

(** The [finally] block. *)
Definition cleanup : M HState unit :=
  v <- get_videoPath ;;
  lift (remove_if_present v) ;;
  a <- get_audioPath ;;
  lift (remove_if_present a).

(** [error.message || 'Transcription failed'] *)
Definition message_or_default (error : JsError) : string :=
  if JsString.truthy (message error) then message error
  else "Transcription failed".

Definition handler_try (req : Request) : M HState unit :=
  match file req with
  | None => respond 400 (JsonError "No video file uploaded")
  | Some f =>
      set_videoPath (path f) ;;
      set_audioPath (path f +:+ ".wav") ;;
      lift (console_log ("Processing video: " +:+ originalname f)) ;;
      lift (console_log "Extracting audio...") ;;
      lift (extractAudio (path f) (path f +:+ ".wav")) ;;
      lift (console_log "Transcribing...") ;;
      transcript <-
        try_catch
          (lift (transcribeWithFasterWhisper (path f +:+ ".wav")))
          (fun _ =>
             lift (console_log
               "Faster-whisper not available, falling back to standard whisper") ;;
             lift (transcribeWithWhisper (path f +:+ ".wav"))) ;;
      lift (console_log "Transcription complete") ;;
      respond 200 (JsonTranscript transcript)
  end.

Definition handler_catch (error : JsError) : M HState unit :=
  lift (console_error "Transcription error:" (ArgError error)) ;;
  respond 500 (JsonError (message_or_default error)).

Definition transcribe_handler (req : Request) : M HState unit :=
  try_finally (try_catch (handler_try req) handler_catch) cleanup.

(** The route [POST /api/transcribe]: the upload middleware, then the
    handler. An error passed on by the middleware never reaches the
    handler; the server registers no error middleware, so the
    framework's own one answers with status 500. An error that leaves
    the handler is the rejection of its promise. *)
Definition post_transcribe (inc : option Incoming) : M World unit :=
  fun w =>
    match upload_single inc w with
    | (w1, inl (Thrown e)) => emit (Respond 500 (ErrorPage (message e))) w1
    | (w1, inl Never) => (w1, inl Never)
    | (w1, inr req) =>
        match transcribe_handler req (mkHState w1 None None) with
        | (h, r) => (world h, r)
        end
    end.

End Server.

(** The responses a trace contains, oldest first. *)
Fixpoint responses (t : list Event) : list (Z * Body) :=
  match t with
  | [] => []
  | Respond code body :: r => (code, body) :: responses r
  | _ :: r => responses r
  end.

(** The shell commands a trace contains, oldest first. *)
Fixpoint commands (t : list Event) : list string :=
  match t with
  | [] => []
  | Exec c :: r => c :: commands r
  | _ :: r => commands r
  end.

(** ** The command line, as the shell and the decoder read it *)

Module Shell.

Definition is_alnum (c : ascii) : bool :=
  let n := nat_of_ascii c in
  ((48 <=? n)%nat && (n <=? 57)%nat)
  || ((65 <=? n)%nat && (n <=? 90)%nat)
  || ((97 <=? n)%nat && (n <=? 122)%nat).

(** Characters that stand for themselves outside quotes. *)
Definition is_bare (c : ascii) : bool :=
  is_alnum c || Ascii.eqb c "-" || Ascii.eqb c "_" || Ascii.eqb c "/"
  || Ascii.eqb c ".".

(** Characters the shell still interprets between double quotes. *)
Definition is_active (c : ascii) : bool :=
  Ascii.eqb c (ascii_of_nat 34) || Ascii.eqb c "$" || Ascii.eqb c "`"
  || Ascii.eqb c (ascii_of_nat 92).

Definition snoc (w : string) (c : ascii) : string :=
  w +:+ String c EmptyString.

(** Word splitting of a command line made of bare words and
    double-quoted parts, separated by spaces. [cur] is the word being
    read, [inq] tells whether a double quote is open. Anything that
    would need expansion or escaping yields [None]. *)
Fixpoint split (s : string) (cur : option string) (inq : bool)
  : option (list string) :=
  match s with
  | EmptyString =>
      if inq then None
      else Some (match cur with Some w => [w] | None => [] end)
  | String c r =>
      if inq then
        if Ascii.eqb c (ascii_of_nat 34) then split r cur false
        else if is_active c then None
        else split r (Some (snoc (default EmptyString cur) c)) true
      else if Ascii.eqb c " " then
        match cur with
        | Some w => cons w <$> split r None false
        | None => split r None false
        end
      else if Ascii.eqb c (ascii_of_nat 34) then
        split r (Some (default EmptyString cur)) true
      else if is_bare c then
        split r (Some (snoc (default EmptyString cur) c)) false
      else None
  end.

Definition words (command : string) : option (list string) :=
  split command None false.



End Shell.

(** What a decoder invocation asks for. *)
Record DecoderRequest := mkDecoderRequest {
  dr_input : option string;
  dr_output : option string;
  dr_video_disabled : bool;
  dr_acodec : option string;
  dr_rate : option string;
  dr_channels : option string;
  dr_overwrite : bool
}.

Definition no_request : DecoderRequest :=
  mkDecoderRequest None None false None None None false.

(** The decoder's reading of its arguments, for the options the server
    passes and for [-y], the option that lets it replace an existing
    output file. A word that is no option names the output. *)
Fixpoint ffmpeg_options (args : list string) (r : DecoderRequest)
  : option DecoderRequest :=
  match args with
  | [] => Some r
  | o :: rest =>
      if negb (String.prefix "-" o) then
        ffmpeg_options rest
          (mkDecoderRequest (dr_input r) (Some o) (dr_video_disabled r)
             (dr_acodec r) (dr_rate r) (dr_channels r) (dr_overwrite r))
      else if String.eqb o "-vn" then
        ffmpeg_options rest
          (mkDecoderRequest (dr_input r) (dr_output r) true (dr_acodec r)
             (dr_rate r) (dr_channels r) (dr_overwrite r))
      else if String.eqb o "-y" then
        ffmpeg_options rest
          (mkDecoderRequest (dr_input r) (dr_output r) (dr_video_disabled r)
             (dr_acodec r) (dr_rate r) (dr_channels r) true)
      else
        match rest with
        | [] => None
        | v :: rest' =>
            if String.eqb o "-i" then
              ffmpeg_options rest'
                (mkDecoderRequest (Some v) (dr_output r) (dr_video_disabled r)
                   (dr_acodec r) (dr_rate r) (dr_channels r) (dr_overwrite r))
            else if String.eqb o "-acodec" then
              ffmpeg_options rest'
                (mkDecoderRequest (dr_input r) (dr_output r) (dr_video_disabled r)
                   (Some v) (dr_rate r) (dr_channels r) (dr_overwrite r))
            else if String.eqb o "-ar" then
              ffmpeg_options rest'
                (mkDecoderRequest (dr_input r) (dr_output r) (dr_video_disabled r)
                   (dr_acodec r) (Some v) (dr_channels r) (dr_overwrite r))
            else if String.eqb o "-ac" then
              ffmpeg_options rest'
                (mkDecoderRequest (dr_input r) (dr_output r) (dr_video_disabled r)
                   (dr_acodec r) (dr_rate r) (Some v) (dr_overwrite r))
            else None
        end
  end.

Definition decoder_request (command : string) : option DecoderRequest :=
  match Shell.words command with
  | Some (prog :: args) =>
      if String.eqb prog "ffmpeg" then ffmpeg_options args no_request else None
  | _ => None
  end.

(** ** A reference environment

    A small, executable stand-in for the machine the server runs on: a
    decoder that follows its command line, the two engines (each may be
    missing), and a list of paths whose removal the system refuses. It
    gives the scenarios below something to run in. *)

Record Setup := mkSetup {
  has_faster_whisper : bool;
  has_whisper : bool;
  locked : list string
}.

Definition command_failed (command diagnostic : string) : JsError :=
  mkError ("Command failed: " +:+ command +:+ NL +:+ diagnostic) (Some diagnostic).

(** The codec, sample rate and channel count a request asks for. *)
Definition AudioFormat : Type := option string * option string * option string.

Definition requested_format (r : DecoderRequest) : AudioFormat :=
  (dr_acodec r, dr_rate r, dr_channels r).

(** 16-bit linear PCM, 16 kHz, one channel. *)
Definition mono_pcm16_16k : AudioFormat :=
  (Some "pcm_s16le", Some "16000", Some "1").

Definition AudioFormat_eqb (f g : AudioFormat) : bool :=
  bool_decide (f = g).

(** The decoder reads its input and refuses data that is no video; this
    small build encodes to [mono_pcm16_16k] only. Where the output file
    exists and [-y] was not given it asks whether to overwrite, on a
    standard input that nobody answers: it never exits, and the file
    stays. Otherwise it writes the audio. *)
Definition run_decoder (command : string) (fs : gmap string string)
  : gmap string string * (Halt + ProcOutput) :=
  match decoder_request command with
  | Some r =>
      match dr_input r, dr_output r with
      | Some i, Some o =>
          match fs !! i with
          | None =>
              (fs, inl (command_failed command
                          (i +:+ ": No such file or directory")))
          | Some data =>
              if negb (String.prefix "VIDEO" data) then
                (fs, inl (command_failed command
                            (i +:+ ": Invalid data found when processing input")))
              else if negb (AudioFormat_eqb (requested_format r) mono_pcm16_16k) then
                (fs, inl (command_failed command
                            "Requested output format is not available"))
              else if bool_decide (is_Some (fs !! o)) && negb (dr_overwrite r) then
                (fs, inl Never)
              else
                (<[o := "PCM"]> fs, inr (mkProcOutput EmptyString "video:0kB audio:1kB"))
          end
      | _, _ =>
          (fs, inl (command_failed command
                      "At least one output file must be specified"))
      end
  | None => (fs, inl (command_failed command "Unrecognized option"))
  end.

Definition run_reference (cfg : Setup) (command : string) (fs : gmap string string)
  : gmap string string * (Halt + ProcOutput) :=
  match Shell.words command with
  | Some (prog :: args) =>
      if String.eqb prog "ffmpeg" then run_decoder command fs
      else if String.eqb prog "python3" then
        if has_faster_whisper cfg
        then (fs, inr (mkProcOutput (" hello world" +:+ NL) EmptyString))
        else (fs, inl (command_failed command
                         "ModuleNotFoundError: No module named faster_whisper"))
      else if String.eqb prog "whisper" then
        match args with
        | a :: _ =>
            if has_whisper cfg
            then (<[transcriptPath a := "fallback text" +:+ NL]> fs,
                  inr (mkProcOutput EmptyString EmptyString))
            else (fs, inl (command_failed command "/bin/sh: 1: whisper: not found"))
        | [] => (fs, inl (command_failed command "the following arguments are required: audio"))
        end
      else (fs, inl (command_failed command "/bin/sh: 1: not found"))
  | _ => (fs, inl (command_failed command "/bin/sh: 1: Syntax error"))
  end.




Definition unlink_refused : string := "EPERM: operation not permitted, unlink".

Definition reference_fault (cfg : Setup) (op : FsOp) (p : string) : option string :=
  match op with
  | OpUnlink =>
      if existsb (String.eqb p) (locked cfg) then Some unlink_refused else None
  | _ => None
  end.

Definition reference_env (cfg : Setup) : Env :=
  mkEnv (run_reference cfg) (reference_fault cfg).

(** Both engines installed, nothing locked. *)
Definition healthy : Setup := mkSetup true true [].

(** Only the command-line engine installed. *)
Definition fallback_only : Setup := mkSetup false true [].

(** The stored upload cannot be removed. *)
Definition upload_locked : Setup := mkSetup true true ["uploads/3f9a"].

(** A world with no files and nothing observed yet. *)
Definition fresh : World := mkWorld ∅ [].

Definition sample_mp4 : Incoming :=
  mkIncoming "sample.mp4" "3f9a" "VIDEO: two seconds of speech" (2 * 1024 * 1024).

(** A text file renamed to [.mp4]. *)
Definition renamed_txt : Incoming :=
  mkIncoming "sample.mp4" "3f9a" "just some text" 14.

Definition clip_mov : Incoming :=
  mkIncoming "clip.mov" "77c1" "VIDEO: a clip" 13.

(** ** Properties of a finished request *)

(** Neither the stored upload [p] nor the audio derived from it exists. *)
Definition artifacts_removed (w : World) (p : string) : Prop :=
  files w !! p = None /\ files w !! (p +:+ ".wav") = None.

(** The paths a trace wrote to with [fs.writeFileSync]. *)
Fixpoint written_paths (t : list Event) : list string :=
  match t with
  | [] => []
  | FsWrite p _ :: r => p :: written_paths r
  | _ :: r => written_paths r
  end.

(** The paths a trace tried to remove. *)
Fixpoint unlinked_paths (t : list Event) : list string :=
  match t with
  | [] => []
  | FsUnlink p :: r => p :: unlinked_paths r
  | _ :: r => unlinked_paths r
  end.

(** The [console.error] calls of a trace. *)
Fixpoint error_logs (t : list Event) : list (string * LogArg) :=
  match t with
  | [] => []
  | ConsoleError l a :: r => (l, a) :: error_logs r
  | _ :: r => error_logs r
  end.

(** The code units below 256 that ECMAScript lists as white space or as
    line terminator: TAB, LF, VT, FF, CR, SPACE and NO-BREAK SPACE. *)
Definition WhiteSpace : list nat := [9; 10; 11; 12; 13; 32; 160]%nat.

Definition is_white (c : ascii) : bool :=
  existsb (Nat.eqb (nat_of_ascii c)) WhiteSpace.

(** No white space at either end. *)
Definition is_trimmed (s : string) : bool :=
  match JsString.first s with
  | Some c => negb (is_white c)
  | None => true
  end
  &&
  match JsString.last s with
  | Some c => negb (is_white c)
  | None => true
  end.

(** [w] with the events [evs] observed after it. *)
Definition push (w : World) (evs : list Event) : World :=
  mkWorld (files w) (trace w ++ evs).

(** An upload the middleware lets through: the filter says yes and the
    size is within the limit. *)
Definition accepted (inc : Incoming) : Prop :=
  fileFilter (in_originalname inc) = inr true /\ in_size inc <= fileSize_limit.

(** Where the middleware stores an accepted upload. *)
Definition stored_path (inc : Incoming) : string :=
  upload_dest +:+ in_generated_name inc.

(** [req.file] for an accepted upload. *)
Definition stored_file (inc : Incoming) : File :=
  mkFile (in_originalname inc) (stored_path inc) (in_size inc).

(** An upload whose extension contains a listed one without being one. *)
Definition notes_xmp4 : Incoming :=
  mkIncoming "notes.xmp4" "9b2e" "VIDEO: lecture" 14.

(** The audio file cannot be removed. *)
Definition audio_locked : Setup := mkSetup true true ["uploads/3f9a.wav"].

(** A file-system event stays within bounds: a write goes to one of
    [writable], a removal to one of [removable]; other events are free. *)
Definition within (writable removable : list string) (ev : Event) : Prop :=
  match ev with
  | FsWrite q _ => In q writable
  | FsUnlink q => In q removable
  | _ => True
  end.

(** An environment in which every command ends normally without printing
    or writing anything, and no file-system call raises. *)
Definition silent_env : Env :=
  mkEnv (fun _ fs => (fs, inr (mkProcOutput EmptyString EmptyString)))
        (fun _ _ => None).

(** A name without dots and slashes, as the upload middleware generates
    them. *)
Fixpoint plain_name (s : string) : bool :=
  match s with
  | EmptyString => true
  | String c r =>
      negb (Ascii.eqb c ".") && negb (Ascii.eqb c "/") && plain_name r
  end.

(** * The page script (the browser-side companion of the server)

    The script keeps one speech-recognition model for the whole page,
    loads it on first use, and drives two buttons: one transcribes the
    audio of the selected video file, the other asks a back end for the
    audio of a YouTube link. The model download, the media element and
    the audio contexts, the model itself, [fetch] and the typed arrays
    belong to the browser: they are an explicit environment here. Each
    promise the script awaits resolves, rejects or never settles; in the
    last case the handler stays suspended at that [await]. A handler is
    run from start to end, or up to the [await] it never comes back
    from, as one computation over the state of the page. *)

Module Frontend.

(** A JavaScript error on the page: its message, and whether it is an
  instance of [TypeError] (what a failed [fetch] rejects with). *)
Record PageError := mkPageError {
pe_message : string;
pe_is_TypeError : bool
}.

(** [new Error(msg)] *)
Definition new_Error (msg : string) : PageError := mkPageError msg false.

(** Why a computation hands over no value: an error was thrown, or the
  promise it awaits never settles. An error is read as a [Halt]
  through [Thrown]. *)
Inductive Halt :=
| Thrown (e : PageError)
| Never.

Coercion Thrown : PageError >-> Halt.

(** A loaded model and a [Float32Array] of samples, as opaque tokens;
  a value parsed from JSON, identified by its text. *)
Definition Model := nat.
Definition Audio := list Z.
Record Json := mkJson { json_text : string }.

(** Truthiness of the variable [transcriber]: [null] or a model. *)
Definition loaded (t : option Model) : bool :=
match t with Some _ => true | None => false end.

(** What the model returns: an object with a [text] field. *)
Record Output := mkOutput { text : string }.

(** A [fetch] response: its [ok] flag, its status text and what
  [await response.json()] comes to. *)
Record FetchResponse := mkFetchResponse {
ok : bool;
statusText : string;
json : Halt + Json
}.

Inductive PageEvent :=
| PConsoleError (label : string) (e : PageError)
| Alert (msg : string)
| CallPipeline
| CallRender
| AwaitMetadata
| BuildGraph
| CallPlay
| StartRendering
| PauseAndClose
| CallModel (m : Model) (a : Audio)
| CallFetch (endpoint url : string)
| ReadJson
| NewFloat32Array (data : Json).

(** The browser, as the script meets it:
  - [pipeline]: the model download (line 40);
  - [has_duration]: whether [videoElement.duration] is truthy when the
    audio extraction starts (line 193);
  - [metadata]: the promise of lines 194-197, which resolves when the
    element fires [loadedmetadata] after the two handlers were set,
    rejects when it fires [error], and stays pending when neither
    happens (so also when the element had fired [error] before the
    click);
  - [audio_graph]: lines 200-212, all synchronous: the two audio
    contexts, the source node and its connection, the rewind; [Some e]
    when one of them throws [e];
  - [play] and [startRendering]: the promises of lines 213 and 214; the
    second yields channel 0 of the rendered buffer (line 219);
  - [run_model]: a call of the loaded model (line 179);
  - [fetch]: the request to a back end (line 119);
  - [Float32Array_of]: line 132, reading [audioData] from the parsed
    body and building a [Float32Array] from it; it may throw. *)
Record Browser := mkBrowser {
pipeline : Halt + Model;
has_duration : bool;
metadata : Halt + unit;
audio_graph : option PageError;
play : Halt + unit;
startRendering : Halt + Audio;
run_model : Model -> Audio -> Halt + Output;
fetch : string -> string -> Halt + FetchResponse;
Float32Array_of : Json -> PageError + Audio
}.

(** What the [try] block of the audio extraction (lines 193-219) comes
  to in a given browser. *)
Definition render (b : Browser) : Halt + Audio :=
match (if has_duration b then inr tt else metadata b) with
| inl h => inl h
| inr _ =>
    match audio_graph b with
    | Some e => inl (Thrown e)
    | None =>
        match play b with
        | inl h => inl h
        | inr _ => startRendering b
        end
    end
end.

(** The two module-level variables, the parts of the document the script
  reads and writes, and what the script did so far. *)
Record Page := mkPage {
transcriber : option Model;
isModelLoading : bool;
status_message : string;
status_processing : bool;
transcribeBtn_disabled : bool;
transcribeBtn_ready : bool;
youtubeBtn_disabled : bool;
transcriptOutput_value : string;
youtubeLinkInput_value : string;
log : list PageEvent
}.

Definition PM (A : Type) : Type := Page -> Page * (Halt + A).

Definition ret {A} (a : A) : PM A := fun s => (s, inr a).

Definition throw {A} (e : PageError) : PM A := fun s => (s, inl (Thrown e)).

Definition bind {A B} (m : PM A) (k : A -> PM B) : PM B :=
fun s =>
  match m s with
  | (s1, inl e) => (s1, inl e)
  | (s1, inr a) => k a s1
  end.

Definition try_catch {A} (body : PM A) (handler : PageError -> PM A) : PM A :=
fun s =>
  match body s with
  | (s1, inl (Thrown e)) => handler e s1
  | (s1, inl Never) => (s1, inl Never)
  | (s1, inr a) => (s1, inr a)
  end.

Definition try_finally {A} (body : PM A) (fin : PM unit) : PM A :=
fun s =>
  match body s with
  | (s1, inl Never) => (s1, inl Never)
  | (s1, r) =>
      match fin s1 with
      | (s2, inl e) => (s2, inl e)
      | (s2, inr _) => (s2, r)
      end
  end.

Definition when (c : bool) (m : PM unit) : PM unit :=
if c then m else ret tt.

Declare Scope page_scope.
Delimit Scope page_scope with page.
Notation "x <- m ;; k" := (bind m (fun x => k))
(at level 100, m at next level, right associativity) : page_scope.
Notation "m ;; k" := (bind m (fun _ => k))
(at level 100, right associativity) : page_scope.
Local Open Scope page_scope.

(** Assignments to the state of the page. *)

Definition set_transcriber (t : option Model) : PM unit :=
fun s =>
  (mkPage t (isModelLoading s) (status_message s) (status_processing s)
     (transcribeBtn_disabled s) (transcribeBtn_ready s) (youtubeBtn_disabled s)
     (transcriptOutput_value s) (youtubeLinkInput_value s) (log s),
   inr tt).

Definition set_isModelLoading (b : bool) : PM unit :=
fun s =>
  (mkPage (transcriber s) b (status_message s) (status_processing s)
     (transcribeBtn_disabled s) (transcribeBtn_ready s) (youtubeBtn_disabled s)
     (transcriptOutput_value s) (youtubeLinkInput_value s) (log s),
   inr tt).

Definition set_transcribeBtn_disabled (b : bool) : PM unit :=
fun s =>
  (mkPage (transcriber s) (isModelLoading s) (status_message s)
     (status_processing s) b (transcribeBtn_ready s) (youtubeBtn_disabled s)
     (transcriptOutput_value s) (youtubeLinkInput_value s) (log s),
   inr tt).

Definition set_transcribeBtn_ready (b : bool) : PM unit :=
fun s =>
  (mkPage (transcriber s) (isModelLoading s) (status_message s)
     (status_processing s) (transcribeBtn_disabled s) b (youtubeBtn_disabled s)
     (transcriptOutput_value s) (youtubeLinkInput_value s) (log s),
   inr tt).

Definition set_youtubeBtn_disabled (b : bool) : PM unit :=
fun s =>
  (mkPage (transcriber s) (isModelLoading s) (status_message s)
     (status_processing s) (transcribeBtn_disabled s) (transcribeBtn_ready s) b
     (transcriptOutput_value s) (youtubeLinkInput_value s) (log s),
   inr tt).

Definition set_transcriptOutput_value (v : string) : PM unit :=
fun s =>
  (mkPage (transcriber s) (isModelLoading s) (status_message s)
     (status_processing s) (transcribeBtn_disabled s) (transcribeBtn_ready s)
     (youtubeBtn_disabled s) v (youtubeLinkInput_value s) (log s),
   inr tt).

Definition emit (e : PageEvent) : PM unit :=
fun s =>
  (mkPage (transcriber s) (isModelLoading s) (status_message s)
     (status_processing s) (transcribeBtn_disabled s) (transcribeBtn_ready s)
     (youtubeBtn_disabled s) (transcriptOutput_value s)
     (youtubeLinkInput_value s) (log s ++ [e]),
   inr tt).

Definition get {A} (field : Page -> A) : PM A := fun s => (s, inr (field s)).

Definition console_error (label : string) (e : PageError) : PM unit :=
emit (PConsoleError label e).

Definition alert (msg : string) : PM unit := emit (Alert msg).

(** [await p], for a promise [p] of the browser that comes to [r]; the
  call that made the promise is logged as [call]. *)
Definition await {A} (call : PageEvent) (r : Halt + A) : PM A :=
emit call ;; fun s => (s, r).

(** [updateStatus(message, showSpinner = false)] (lines 163-170): the
  text is replaced, and the class [processing] is added or removed. *)
Definition updateStatus (message : string) (showSpinner : bool) : PM unit :=
fun s =>
  (mkPage (transcriber s) (isModelLoading s) message showSpinner
     (transcribeBtn_disabled s) (transcribeBtn_ready s) (youtubeBtn_disabled s)
     (transcriptOutput_value s) (youtubeLinkInput_value s) (log s),
   inr tt).

Section Script.
Variable browser : Browser.

(** [await pipeline('automatic-speech-recognition', ...)] *)
Definition await_pipeline : PM Model :=
await CallPipeline (pipeline browser).

(** [loadTranscriber] (lines 31-48) *)
Definition loadTranscriber : PM unit :=
t <- get transcriber ;;
loading <- get isModelLoading ;;
if loaded t || (loading : bool) then ret tt
else
  set_isModelLoading true ;;
  updateStatus "Loading transcription model... (this may take a moment)" true ;;
  try_finally
    (try_catch
       (m <- await_pipeline ;;
        set_transcriber (Some m) ;;
        updateStatus "Model loaded. Ready to transcribe." false)
       (fun error =>
          console_error "Model loading failed:" error ;;
          updateStatus "Error: Could not load model. Please refresh the page."
            false))
    (set_isModelLoading false).

(** [runTranscription] (lines 175-183) *)
Definition runTranscription (audioData : Audio) : PM Output :=
t <- get transcriber ;;
match (t : option Model) with
| None => throw (new_Error "Transcription model is not loaded.")
| Some m => await (CallModel m audioData) (run_model browser m audioData)
end.

(** [extractAndResampleAudio] (lines 191-225); [CallRender] marks the
  entry. Without a duration the function waits for the metadata; then
  it builds the audio graph, plays the element and renders. Whatever
  is thrown on the way is logged and turned into [null]; an [await]
  that never settles is not an error and leaves the function, and its
  caller, suspended. *)
Definition extractAndResampleAudio : PM (option Audio) :=
try_catch
  (emit CallRender ;;
   when (negb (has_duration browser))
     (await AwaitMetadata (metadata browser)) ;;
   emit BuildGraph ;;
   match audio_graph browser with
   | Some e => throw e
   | None => ret tt
   end ;;
   await CallPlay (play browser) ;;
   renderedBuffer <- await StartRendering (startRendering browser) ;;
   emit PauseAndClose ;;
   ret (Some renderedBuffer))
  (fun error =>
     console_error "Audio extraction failed:" error ;;
     ret None).

(** [if (!transcriber) await loadTranscriber();
   if (!transcriber) throw new Error("Model not available.");] *)
Definition ensure_model : PM unit :=
t <- get transcriber ;;
when (negb (loaded t)) loadTranscriber ;;
t' <- get transcriber ;;
if loaded t' then ret tt
else throw (new_Error "Model not available.").

(** The click handler of the transcribe button (lines 66-94). *)
Definition onTranscribeClick : PM unit :=
set_transcribeBtn_disabled true ;;
set_transcribeBtn_ready false ;;
try_finally
  (try_catch
     (ensure_model ;;
      updateStatus "Processing audio from video file..." true ;;
      audioData <- extractAndResampleAudio ;;
      match (audioData : option Audio) with
      | None =>
          throw (new_Error "Could not extract audio. Please try a different file.")
      | Some a =>
          updateStatus "Transcribing audio... This can take a while." true ;;
          output <- runTranscription a ;;
          updateStatus "File transcription complete!" false ;;
          set_transcriptOutput_value (text output)
      end)
     (fun error =>
        console_error "File transcription failed:" error ;;
        updateStatus ("Error: " +:+ pe_message error) false))
  (set_transcribeBtn_disabled false).

(** [await fetch('/api/transcribe-youtube', { ... body: { url } })] *)
Definition await_fetch (url : string) : PM FetchResponse :=
await (CallFetch "/api/transcribe-youtube" url)
  (fetch browser "/api/transcribe-youtube" url).

(** [new Float32Array(data.audioData)] (line 132) *)
Definition new_Float32Array (data : Json) : PM Audio :=
emit (NewFloat32Array data) ;;
match Float32Array_of browser data with
| inl e => throw e
| inr a => ret a
end.

(** The click handler of the YouTube button (lines 100-154). *)
Definition onYoutubeClick : PM unit :=
url <- get youtubeLinkInput_value ;;
if negb (JsString.truthy url) then
  alert "Please paste a YouTube link first."
else
  set_youtubeBtn_disabled true ;;
  updateStatus "Connecting to backend for YouTube audio..." true ;;
  try_finally
    (try_catch
       (ensure_model ;;
        response <- await_fetch url ;;
        if negb (ok response) then
          throw (new_Error ("Backend error: " +:+ statusText response))
        else
          data <- await ReadJson (json response) ;;
          audioData <- new_Float32Array data ;;
          updateStatus "Transcribing YouTube audio... This can take a while."
            true ;;
          output <- runTranscription audioData ;;
          updateStatus "YouTube transcription complete!" false ;;
          set_transcriptOutput_value (text output))
       (fun error =>
          console_error "YouTube transcription failed:" error ;;
          if pe_is_TypeError error then
            alert
              "YouTube transcription requires a backend setup. This feature is not yet live. Please use file upload instead." ;;
            updateStatus
              "YouTube support is not yet enabled. Please use file upload." false
          else updateStatus ("Error: " +:+ pe_message error) false))
    (set_youtubeBtn_disabled false).

End Script.

(** How often the model download was started. *)
Fixpoint downloads (l : list PageEvent) : nat :=
match l with
| [] => O
| CallPipeline :: r => S (downloads r)
| _ :: r => downloads r
end.

(** How often an extraction of the audio of the video element was
  started. *)
Fixpoint renders (l : list PageEvent) : nat :=
match l with
| [] => O
| CallRender :: r => S (renders r)
| _ :: r => renders r
end.

(** The requests sent to a back end. *)
Fixpoint fetches (l : list PageEvent) : list (string * string) :=
match l with
| [] => []
| CallFetch e u :: r => (e, u) :: fetches r
| _ :: r => fetches r
end.

(** The runs of the model. *)
Fixpoint model_runs (l : list PageEvent) : list (Model * Audio) :=
match l with
| [] => []
| CallModel m a :: r => (m, a) :: model_runs r
| _ :: r => model_runs r
end.

(** The alerts shown. *)
Fixpoint alerts (l : list PageEvent) : list string :=
match l with
| [] => []
| Alert m :: r => m :: alerts r
| _ :: r => alerts r
end.

(** The calls made on a response body: [response.json()]. *)
Fixpoint body_reads (l : list PageEvent) : nat :=
match l with
| [] => O
| ReadJson :: r => S (body_reads r)
| _ :: r => body_reads r
end.

(** The [console.error] calls. *)
Fixpoint page_errors (l : list PageEvent) : list (string * PageError) :=
match l with
| [] => []
| PConsoleError label e :: r => (label, e) :: page_errors r
| _ :: r => page_errors r
end.

Definition sample_body : Json := mkJson "{ audioData: [0, 1, 0] }".

(** A browser in which everything works, and a page that was just
  opened. *)
Definition working_browser : Browser :=
mkBrowser (inr 1%nat) true (inr tt) None (inr tt) (inr [0; 1; 0])
  (fun _ _ => inr (mkOutput "hello world"))
  (fun _ _ => inr (mkFetchResponse true "OK" (inr sample_body)))
  (fun _ => inr [0; 1; 0]).

(** A browser without network: the model cannot be downloaded and
  [fetch] rejects with a [TypeError]. *)
Definition offline_browser : Browser :=
mkBrowser (inl (mkPageError "Failed to fetch" true)) true (inr tt) None
  (inr tt) (inr [0; 1; 0])
  (fun _ _ => inr (mkOutput "hello world"))
  (fun _ _ => inl (mkPageError "Failed to fetch" true))
  (fun _ => inr [0; 1; 0]).

(** A browser whose back end answers, but whose model fails with a
  [TypeError] of its own. *)
Definition faulty_model_browser : Browser :=
mkBrowser (inr 1%nat) true (inr tt) None (inr tt) (inr [0; 1; 0])
  (fun _ _ => inl (mkPageError "Cannot read properties of undefined" true))
  (fun _ _ => inr (mkFetchResponse true "OK" (inr sample_body)))
  (fun _ => inr [0; 1; 0]).

(** A browser whose back end answers with an error status, and whose
  audio graph cannot be built. *)
Definition missing_backend_browser : Browser :=
mkBrowser (inr 1%nat) true (inr tt) (Some (new_Error "NotSupportedError"))
  (inr tt) (inr [0; 1; 0])
  (fun _ _ => inr (mkOutput "hello world"))
  (fun _ _ => inr (mkFetchResponse false "Not Found" (inr (mkJson "{}"))))
  (fun _ => inr []).

(** A browser whose video element gave up on the file before the
  click: it has no duration, and the events the script waits for do
  not come again. *)
Definition stale_video_browser : Browser :=
mkBrowser (inr 1%nat) false (inl Never) None (inr tt) (inr [0; 1; 0])
  (fun _ _ => inr (mkOutput "hello world"))
  (fun _ _ => inr (mkFetchResponse true "OK" (inr sample_body)))
  (fun _ => inr [0; 1; 0]).

(** A browser whose network stalls: neither the model download nor
  [fetch] ever settles. *)
Definition stalled_download_browser : Browser :=
mkBrowser (inl Never) true (inr tt) None (inr tt) (inr [0; 1; 0])
  (fun _ _ => inr (mkOutput "hello world"))
  (fun _ _ => inl Never)
  (fun _ => inr [0; 1; 0]).

(** The page with a loaded model and a link typed in. *)
Definition ready_with_link : Page :=
mkPage (Some 1%nat) false "Model loaded. Ready to transcribe." false true false
  false "earlier text" "https://youtu.be/abc" [].

Definition opened : Page :=
mkPage None false EmptyString false true false false EmptyString EmptyString [].

End Frontend.

(** * Properties *)

(** ** Strings and paths *)

Example extname_plain : NodePath.extname "clip.mp4" = ".mp4".
Proof. reflexivity. Qed.

Example extname_two_dots : NodePath.extname "index.coffee.md" = ".md".
Proof. reflexivity. Qed.

Example extname_hidden : NodePath.extname ".bashrc" = EmptyString.
Proof. reflexivity. Qed.

Example extname_trailing_dot : NodePath.extname "index." = ".".
Proof. reflexivity. Qed.

Example extname_dir : NodePath.extname "a.b/c" = EmptyString.
Proof. reflexivity. Qed.

Example extname_dotdot : NodePath.extname ".." = EmptyString.
Proof. reflexivity. Qed.

Example basename_wav :
  NodePath.basename "uploads/3f9a.wav" (NodePath.extname "uploads/3f9a.wav")
  = "3f9a".
Proof. reflexivity. Qed.

Example basename_plain : NodePath.basename "/tmp/a/b.txt" EmptyString = "b.txt".
Proof. reflexivity. Qed.

Example basename_suffix_mismatch :
  NodePath.basename "dir/movie.wav" ".mp3" = "movie.wav".
Proof. reflexivity. Qed.

Example transcriptPath_of_upload : transcriptPath "uploads/77c1.wav" = "/tmp/77c1.txt".
Proof. reflexivity. Qed.

Example trim_both_ends : JsString.trim ("  a b " +:+ NL) = "a b".
Proof. reflexivity. Qed.

(** The no-break space (code unit 160) is white space too. *)
Example trim_no_break_space :
  JsString.trim (String (ascii_of_nat 160) ("hi" +:+ String (ascii_of_nat 160) NL))
  = "hi".
Proof. reflexivity. Qed.

Example toLowerCase_accented :
  JsString.toLowerCase (String (ascii_of_nat 201) "T" +:+ String (ascii_of_nat 215) "x")
  = String (ascii_of_nat 233) "t" +:+ String (ascii_of_nat 215) "x".
Proof. reflexivity. Qed.

Section Trim.
Import JsString.

(** [trim] removes exactly the listed white space. *)
Lemma is_space_white c : is_space c = is_white c.
Proof. destruct c as [[] [] [] [] [] [] [] []]; reflexivity. Qed.

Lemma trimStart_first s c :
  first (trimStart s) = Some c -> is_space c = false.
Proof.
  induction s as [|d r IH]; simpl; [discriminate|].
  destruct (is_space d) eqn:Hd; [exact IH|].
  simpl. intros [= <-]. exact Hd.
Qed.

(** [trimEnd] never touches the first character it keeps. *)
Lemma trimEnd_first s c :
  first (trimEnd s) = Some c -> first s = Some c.
Proof.
  destruct s as [|d r]; simpl; [discriminate|].
  destruct (trimEnd r); [destruct (is_space d)|]; simpl; congruence.
Qed.

Lemma trimEnd_last s c :
  last (trimEnd s) = Some c -> is_space c = false.
Proof.
  revert c. induction s as [|d r IH]; intros c; simpl; [discriminate|].
  destruct (trimEnd r) as [|e r'] eqn:Hr.
  - destruct (is_space d) eqn:Hd; simpl; [discriminate|].
    intros [= <-]. exact Hd.
  - intros H. apply IH. exact H.
Qed.

Lemma trim_is_trimmed s : is_trimmed (trim s) = true.
Proof.
  unfold is_trimmed, trim. apply andb_true_intro. split.
  - destruct (first (trimEnd (trimStart s))) as [c|] eqn:Hc; [|reflexivity].
    apply trimEnd_first, trimStart_first in Hc.
    now rewrite <- is_space_white, Hc.
  - destruct (last (trimEnd (trimStart s))) as [c|] eqn:Hc; [|reflexivity].
    apply trimEnd_last in Hc. now rewrite <- is_space_white, Hc.
Qed.

End Trim.

(** ** The upload filter *)

Lemma fileFilter_accept_iff name :
  fileFilter name = inr true <->
  exists w, In w allowedTypes /\ JsString.includes (upload_ext name) w = true.
Proof.
  unfold fileFilter, RegExp_test.
  destruct (existsb _ allowedTypes) eqn:E.
  - apply existsb_exists in E. split; [intros _; exact E | reflexivity].
  - split; [discriminate|].
    intros H. apply existsb_exists in H. congruence.
Qed.

Lemma prefix_refl t : String.prefix t t = true.
Proof.
  induction t as [|d t IH]; simpl; [reflexivity|].
  destruct (ascii_dec d d); [exact IH | congruence].
Qed.

Lemma includes_self s : JsString.includes s s = true.
Proof.
  destruct s as [|c r]; cbn [JsString.includes];
    now rewrite prefix_refl.
Qed.

(** Every extension of the list is accepted, in any letter case. *)
Lemma fileFilter_accepts_listed name :
  In (upload_ext name) allowedTypes -> fileFilter name = inr true.
Proof.
  intros H. apply fileFilter_accept_iff.
  exists (upload_ext name). split; [exact H | apply includes_self].
Qed.

(** A name without an extension is refused. *)
Lemma fileFilter_rejects_missing_extension name :
  upload_ext name = EmptyString ->
  fileFilter name =
  inl (new_Error "Invalid file type. Only video files are allowed.").
Proof. unfold fileFilter. intros ->. reflexivity. Qed.

Example fileFilter_upper_case : fileFilter "Holiday.MOV" = inr true.
Proof. reflexivity. Qed.

Example fileFilter_text :
  fileFilter "notes.txt" =
  inl (new_Error "Invalid file type. Only video files are allowed.").
Proof. reflexivity. Qed.

Example fileFilter_no_extension :
  fileFilter "README" =
  inl (new_Error "Invalid file type. Only video files are allowed.").
Proof. reflexivity. Qed.

(** ** Views of a trace *)

Section TraceViews.

Lemma responses_app t u : responses (t ++ u) = responses t ++ responses u.
Proof.
  induction t as [|e t IH]; simpl; [reflexivity|].
  destruct e; simpl; congruence.
Qed.

Lemma commands_app t u : commands (t ++ u) = commands t ++ commands u.
Proof.
  induction t as [|e t IH]; simpl; [reflexivity|].
  destruct e; simpl; congruence.
Qed.

Lemma written_paths_app t u :
  written_paths (t ++ u) = written_paths t ++ written_paths u.
Proof.
  induction t as [|e t IH]; simpl; [reflexivity|].
  destruct e; simpl; congruence.
Qed.

Lemma unlinked_paths_app t u :
  unlinked_paths (t ++ u) = unlinked_paths t ++ unlinked_paths u.
Proof.
  induction t as [|e t IH]; simpl; [reflexivity|].
  destruct e; simpl; congruence.
Qed.

Lemma error_logs_app t u : error_logs (t ++ u) = error_logs t ++ error_logs u.
Proof.
  induction t as [|e t IH]; simpl; [reflexivity|].
  destruct e; simpl; congruence.
Qed.

End TraceViews.

(** ** Running the helpers *)

(** Unfold the monad and the primitive effects. *)
Ltac unfold_effects :=
  unfold writeFileSync, readFileSync, unlinkSync, existsSync, execPromise,
    console_log, console_error, emit, try_catch, try_finally, bind, ret,
    throw, when in *.

(** Split on what the environment answers. *)
Ltac case_env :=
  repeat
    (simpl in *;
     match goal with
     | |- context [run_process ?e ?c ?f] =>
         let fs := fresh "fs" in
         let err := fresh "err" in
         let out := fresh "out" in
         let E := fresh "Eproc" in
         destruct (run_process e c f) as [fs [[err|]|out]] eqn:E
     | |- context [fs_fault ?e ?o ?p] =>
         let E := fresh "Efault" in
         destruct (fs_fault e o p) eqn:E
     | |- context [bool_decide ?P] =>
         let E := fresh "Edec" in
         destruct (bool_decide P) eqn:E
     | |- context [@lookup _ _ (gmap string string) _ ?k ?m] =>
         let E := fresh "Elook" in
         destruct (m !! k) eqn:E
     end).

Section Helpers.
Variable env : Env.

Lemma extractAudio_run v a w :
  extractAudio env v a w =
  match run_process env (ffmpeg_command v a) (files w) with
  | (fs, inr _) =>
      (mkWorld fs (trace w ++ [Exec (ffmpeg_command v a);
                               ConsoleLog "Audio extracted successfully"]),
       inr tt)
  | (fs, inl (Thrown e)) =>
      (mkWorld fs (trace w ++ [Exec (ffmpeg_command v a);
                               ConsoleError "FFmpeg error:"
                                 (match stderr e with
                                  | Some s => ArgString s
                                  | None => ArgUndefined
                                  end)]),
       inl (new_Error "Failed to extract audio from video"))
  | (fs, inl Never) =>
      (mkWorld fs (trace w ++ [Exec (ffmpeg_command v a)]), inl Never)
  end.
Proof.
  unfold extractAudio. unfold_effects. simpl.
  destruct (run_process env (ffmpeg_command v a) (files w)) as [fs [[e|]|o]];
    simpl; rewrite <- ?app_assoc; reflexivity.
Qed.

(** The optimised engine writes its script first, runs at most the one
    interpreter command, answers nothing to the client by itself, and
    what it returns is trimmed. *)
Lemma primary_run a w w' r :
  transcribeWithFasterWhisper env a w = (w', r) ->
  exists evs,
    trace w' = trace w ++ FsWrite scriptPath (pythonScript a) :: evs
    /\ responses evs = []
    /\ written_paths evs = []
    /\ (commands evs = [] \/ commands evs = ["python3 " +:+ scriptPath])
    /\ match r with
       | inr t => is_trimmed t = true
       | inl (Thrown e) => exists m, e = new_Error ("Transcription failed: " +:+ m)
       | inl Never => True
       end.
Proof.
  unfold transcribeWithFasterWhisper. unfold_effects.
  case_env; intros [= <- <-]; simpl; rewrite <- ?app_assoc; simpl;
    eexists; (split; [reflexivity|]); simpl;
    (split; [reflexivity|]); (split; [reflexivity|]);
    (split; [first [left; reflexivity | right; reflexivity]|]);
    first [apply trim_is_trimmed | eexists; reflexivity | exact I].
Qed.

(** The command-line engine runs exactly its one command, answers
    nothing to the client by itself, and what it returns is trimmed. *)
Lemma fallback_run a w w' r :
  transcribeWithWhisper env a w = (w', r) ->
  exists evs,
    trace w' = trace w ++ evs
    /\ responses evs = []
    /\ written_paths evs = []
    /\ commands evs = [whisper_command a]
    /\ match r with
       | inr t => is_trimmed t = true
       | inl (Thrown e) => exists m, e = new_Error ("Transcription failed: " +:+ m)
       | inl Never => True
       end.
Proof.
  unfold transcribeWithWhisper. unfold_effects.
  case_env; intros [= <- <-]; simpl; rewrite <- ?app_assoc; simpl;
    eexists; (split; [reflexivity|]); simpl;
    (split; [reflexivity|]); (split; [reflexivity|]);
    (split; [reflexivity|]);
    first [apply trim_is_trimmed | eexists; reflexivity | exact I].
Qed.

(** The extractor runs exactly the decoder command, writes no file by
    itself, and throws nothing but its one fixed error. *)
Lemma extractAudio_trace v a w w' r :
  extractAudio env v a w = (w', r) ->
  exists evs,
    trace w' = trace w ++ evs
    /\ responses evs = []
    /\ written_paths evs = []
    /\ commands evs = [ffmpeg_command v a]
    /\ match r with
       | inr _ => True
       | inl (Thrown e) => e = new_Error "Failed to extract audio from video"
       | inl Never => True
       end.
Proof.
  rewrite extractAudio_run.
  destruct (run_process env (ffmpeg_command v a) (files w)) as [fs [[e|]|o]];
    intros [= <- <-]; simpl; eexists; (split; [reflexivity|]);
    now repeat split.
Qed.

End Helpers.

(** ** Running the handler *)

Section Handler.
Variable env : Env.

Lemma remove_if_present_run p w :
  JsString.truthy p = true ->
  remove_if_present env (Some p) w =
  match files w !! p with
  | None => (w, inr tt)
  | Some _ =>
      match fs_fault env OpUnlink p with
      | Some m => (push w [FsUnlink p], inl (new_Error m))
      | None => (mkWorld (delete p (files w)) (trace w ++ [FsUnlink p]), inr tt)
      end
  end.
Proof.
  intros Hp. unfold remove_if_present. rewrite Hp.
  unfold_effects. unfold push.
  destruct (files w !! p) as [c|] eqn:Hl; simpl; [|reflexivity].
  destruct (fs_fault env OpUnlink p); simpl; [reflexivity|].
  now rewrite Hl.
Qed.

(** The [try] / [catch] part of the handler, step by step. It never
    ends by an exception: whatever one of the helpers throws is
    answered with status 500. It does not end at all when one of the
    commands never exits. *)
Lemma handler_try_catch_run f h :
  try_catch (handler_try env (mkRequest (Some f))) handler_catch h =
  match extractAudio env (path f) (path f +:+ ".wav")
          (push (world h)
             [ConsoleLog ("Processing video: " +:+ originalname f);
              ConsoleLog "Extracting audio..."]) with
  | (w1, inl (Thrown e)) =>
      (mkHState
         (push w1 [ConsoleError "Transcription error:" (ArgError e);
                   Respond 500 (JsonError (message_or_default e))])
         (Some (path f)) (Some (path f +:+ ".wav")),
       inr tt)
  | (w1, inl Never) =>
      (mkHState w1 (Some (path f)) (Some (path f +:+ ".wav")), inl Never)
  | (w1, inr _) =>
      match transcribeWithFasterWhisper env (path f +:+ ".wav")
              (push w1 [ConsoleLog "Transcribing..."]) with
      | (w2, inr t) =>
          (mkHState
             (push w2 [ConsoleLog "Transcription complete";
                       Respond 200 (JsonTranscript t)])
             (Some (path f)) (Some (path f +:+ ".wav")),
           inr tt)
      | (w2, inl Never) =>
          (mkHState w2 (Some (path f)) (Some (path f +:+ ".wav")), inl Never)
      | (w2, inl (Thrown _)) =>
          match transcribeWithWhisper env (path f +:+ ".wav")
                  (push w2
                     [ConsoleLog
                        "Faster-whisper not available, falling back to standard whisper"])
          with
          | (w3, inr t) =>
              (mkHState
                 (push w3 [ConsoleLog "Transcription complete";
                           Respond 200 (JsonTranscript t)])
                 (Some (path f)) (Some (path f +:+ ".wav")),
               inr tt)
          | (w3, inl (Thrown e)) =>
              (mkHState
                 (push w3 [ConsoleError "Transcription error:" (ArgError e);
                           Respond 500 (JsonError (message_or_default e))])
                 (Some (path f)) (Some (path f +:+ ".wav")),
               inr tt)
          | (w3, inl Never) =>
              (mkHState w3 (Some (path f)) (Some (path f +:+ ".wav")), inl Never)
          end
      end
  end.
Proof.
  unfold handler_try, handler_catch, respond.
  unfold try_catch, bind, lift, set_videoPath, set_audioPath, console_log,
    console_error, emit, push.
  cbn [file world videoPath audioPath files trace].
  rewrite <- !app_assoc. cbn [app].
  destruct (extractAudio _ _ _ _) as [w1 [[e|]|[]]];
    cbn [world videoPath audioPath files trace].
  - (rewrite <- ?app_assoc; reflexivity).
  - reflexivity.
  - destruct (transcribeWithFasterWhisper _ _ _) as [w2 [[e|]|t]];
      cbn [world videoPath audioPath files trace].
    + destruct (transcribeWithWhisper _ _ _) as [w3 [[e'|]|t]];
        cbn [world videoPath audioPath files trace];
        (rewrite <- ?app_assoc; reflexivity).
    + reflexivity.
    + (rewrite <- ?app_assoc; reflexivity).
Qed.

(** The [try] / [catch] part ends normally or not at all, and keeps the
    two paths in the handler's variables. *)
Lemma handler_try_catch_outcome f h :
  let body := try_catch (handler_try env (mkRequest (Some f))) handler_catch h in
  (snd body = inr tt \/ snd body = inl Never)
  /\ videoPath (fst body) = Some (path f)
  /\ audioPath (fst body) = Some (path f +:+ ".wav").
Proof.
  cbv zeta. rewrite handler_try_catch_run.
  destruct (extractAudio _ _ _ _) as [w1 [[e|]|[]]]; cbn [fst snd videoPath audioPath];
    [tauto | tauto |].
  destruct (transcribeWithFasterWhisper _ _ _) as [w2 [[e|]|t]];
    cbn [fst snd videoPath audioPath]; [| tauto | tauto].
  destruct (transcribeWithWhisper _ _ _) as [w3 [[e'|]|t]];
    cbn [fst snd videoPath audioPath]; tauto.
Qed.

End Handler.

Lemma truthy_wav s : JsString.truthy (s +:+ ".wav") = true.
Proof. destruct s; reflexivity. Qed.

Lemma length_append s t :
  String.length (s +:+ t) = (String.length s + String.length t)%nat.
Proof. induction s as [|c s IH]; simpl; [reflexivity | now rewrite IH]. Qed.

Lemma wav_differs s : s +:+ ".wav" <> s.
Proof.
  intros H. apply (f_equal String.length) in H.
  rewrite length_append in H. simpl in H. lia.
Qed.

Section Cleanup.
Variable env : Env.

(** One guarded removal adds nothing to a trace but, at most, the
    attempt itself. *)
Lemma remove_if_present_trace v w :
  exists evs,
    trace (fst (remove_if_present env v w)) = trace w ++ evs
    /\ responses evs = [] /\ commands evs = []
    /\ error_logs evs = [] /\ written_paths evs = [].
Proof.
  destruct v as [p|]; [|exists []; simpl; now rewrite app_nil_r].
  destruct (JsString.truthy p) eqn:Hp.
  - rewrite remove_if_present_run by exact Hp.
    destruct (files w !! p); [destruct (fs_fault env OpUnlink p)|]; simpl.
    + exists [FsUnlink p]. now repeat split.
    + exists [FsUnlink p]. now repeat split.
    + exists []. now rewrite app_nil_r.
  - unfold remove_if_present. rewrite Hp. exists []. simpl.
    now rewrite app_nil_r.
Qed.

(** The [finally] block, step by step. *)
Lemma cleanup_run h :
  cleanup env h =
  match remove_if_present env (videoPath h) (world h) with
  | (w1, inl e) => (mkHState w1 (videoPath h) (audioPath h), inl e)
  | (w1, inr _) =>
      match remove_if_present env (audioPath h) w1 with
      | (w2, r) => (mkHState w2 (videoPath h) (audioPath h), r)
      end
  end.
Proof.
  unfold cleanup, get_videoPath, get_audioPath, lift, bind.
  destruct (remove_if_present env (videoPath h) (world h)) as [w1 [e|[]]];
    cbn [world videoPath audioPath]; reflexivity.
Qed.

Lemma cleanup_keeps_locals h :
  videoPath (fst (cleanup env h)) = videoPath h
  /\ audioPath (fst (cleanup env h)) = audioPath h.
Proof.
  rewrite cleanup_run.
  destruct (remove_if_present env (videoPath h) (world h)) as [w1 [e|[]]];
    [now split|].
  destruct (remove_if_present env (audioPath h) w1) as [w2 r]. now split.
Qed.

(** The [finally] block answers nothing, runs no command and logs
    nothing, whether it succeeds or not. *)
Lemma cleanup_trace h :
  exists evs,
    trace (world (fst (cleanup env h))) = trace (world h) ++ evs
    /\ responses evs = [] /\ commands evs = []
    /\ error_logs evs = [] /\ written_paths evs = [].
Proof.
  rewrite cleanup_run.
  destruct (remove_if_present_trace (videoPath h) (world h))
    as (e1 & Ht1 & Hr1 & Hc1 & Hl1 & Hw1).
  destruct (remove_if_present env (videoPath h) (world h)) as [w1 [e|[]]];
    cbn [fst world] in *.
  - exists e1. now repeat split.
  - destruct (remove_if_present_trace (audioPath h) w1)
      as (e2 & Ht2 & Hr2 & Hc2 & Hl2 & Hw2).
    destruct (remove_if_present env (audioPath h) w1) as [w2 r];
      cbn [fst world] in *.
    exists (e1 ++ e2). rewrite Ht2, Ht1, <- app_assoc.
    rewrite responses_app, commands_app, error_logs_app, written_paths_app,
      Hr1, Hr2, Hc1, Hc2, Hl1, Hl2, Hw1, Hw2.
    now repeat split.
Qed.

(** When neither removal is refused, both paths are gone afterwards and
    the block ends normally. *)
Lemma cleanup_removes h p a :
  videoPath h = Some p -> audioPath h = Some a ->
  JsString.truthy p = true -> JsString.truthy a = true ->
  fs_fault env OpUnlink p = None -> fs_fault env OpUnlink a = None ->
  snd (cleanup env h) = inr tt
  /\ files (world (fst (cleanup env h))) = delete a (delete p (files (world h))).
Proof.
  intros Hv Ha Tp Ta Fp Fa. rewrite cleanup_run, Hv, Ha.
  rewrite remove_if_present_run by assumption. rewrite Fp.
  destruct (files (world h) !! p) as [c|] eqn:Lp;
    rewrite remove_if_present_run by assumption; rewrite Fa; cbn [files trace].
  - destruct (delete p (files (world h)) !! a) as [d|] eqn:La;
      cbn [fst snd world files]; split; try reflexivity.
    now rewrite (delete_id _ a) by exact La.
  - destruct (files (world h) !! a) as [d|] eqn:La;
      cbn [fst snd world files]; split; try reflexivity.
    + now rewrite (delete_id _ p) by exact Lp.
    + rewrite (delete_id _ p) by exact Lp. now rewrite delete_id by exact La.
Qed.

(** With nothing to remove the block is silent. *)
Lemma cleanup_nothing_to_do h p a :
  videoPath h = Some p -> audioPath h = Some a ->
  JsString.truthy p = true -> JsString.truthy a = true ->
  files (world h) !! p = None -> files (world h) !! a = None ->
  cleanup env h = (h, inr tt).
Proof.
  intros Hv Ha Tp Ta Lp La. rewrite cleanup_run, Hv, Ha.
  rewrite remove_if_present_run by assumption. rewrite Lp.
  rewrite remove_if_present_run by assumption. rewrite La.
  destruct h; simpl in *; congruence.
Qed.

(** After the block ended normally neither path exists. *)
Lemma cleanup_success_absent h p a :
  videoPath h = Some p -> audioPath h = Some a ->
  JsString.truthy p = true -> JsString.truthy a = true ->
  snd (cleanup env h) = inr tt ->
  files (world (fst (cleanup env h))) !! p = None
  /\ files (world (fst (cleanup env h))) !! a = None.
Proof.
  intros Hv Ha Tp Ta. rewrite cleanup_run, Hv, Ha.
  rewrite remove_if_present_run by assumption.
  destruct (files (world h) !! p) as [c|] eqn:Lp.
  - destruct (fs_fault env OpUnlink p) as [m|]; [discriminate|].
    rewrite remove_if_present_run by assumption. cbn [files].
    destruct (delete p (files (world h)) !! a) as [d|] eqn:La.
    + destruct (fs_fault env OpUnlink a) as [m|]; [discriminate|].
      cbn [fst snd world files]. intros _. split.
      * destruct (decide (a = p)) as [->|Hne]; [apply lookup_delete_eq|].
        rewrite lookup_delete_ne by exact Hne. apply lookup_delete_eq.
      * apply lookup_delete_eq.
    + cbn [fst snd world files]. intros _. split;
        [apply lookup_delete_eq | exact La].
  - rewrite remove_if_present_run by assumption.
    destruct (files (world h) !! a) as [d|] eqn:La.
    + destruct (fs_fault env OpUnlink a) as [m|]; [discriminate|].
      cbn [fst snd world files]. intros _. split.
      * destruct (decide (a = p)) as [->|Hne]; [apply lookup_delete_eq|].
        now rewrite lookup_delete_ne by exact Hne.
      * apply lookup_delete_eq.
    + cbn [fst snd world files]. intros _. now split.
Qed.

(** Running the block again after it succeeded does nothing at all. *)
Lemma cleanup_idempotent h p a :
  videoPath h = Some p -> audioPath h = Some a ->
  JsString.truthy p = true -> JsString.truthy a = true ->
  snd (cleanup env h) = inr tt ->
  cleanup env (fst (cleanup env h)) = (fst (cleanup env h), inr tt).
Proof.
  intros Hv Ha Tp Ta Hok.
  destruct (cleanup_success_absent h p a Hv Ha Tp Ta Hok) as [Lp La].
  destruct (cleanup_keeps_locals h) as [Kv Ka].
  apply (cleanup_nothing_to_do _ p a); try assumption; congruence.
Qed.

(** The [finally] block waits for nothing: it returns or throws. *)
Lemma remove_if_present_settles v w :
  snd (remove_if_present env v w) <> inl Never.
Proof.
  destruct v as [p|]; [|discriminate].
  unfold remove_if_present. destruct (JsString.truthy p); [|discriminate].
  unfold_effects. cbn.
  destruct (bool_decide _); cbn; [|discriminate].
  destruct (fs_fault env OpUnlink p); cbn; [discriminate|].
  destruct (files w !! p); discriminate.
Qed.

Lemma cleanup_settles h : snd (cleanup env h) <> inl Never.
Proof.
  rewrite cleanup_run.
  pose proof (remove_if_present_settles (videoPath h) (world h)) as H1.
  destruct (remove_if_present env (videoPath h) (world h)) as [w1 [[e|]|[]]];
    cbn [snd] in *; [discriminate | congruence |].
  pose proof (remove_if_present_settles (audioPath h) w1) as H2.
  destruct (remove_if_present env (audioPath h) w1) as [w2 r]. exact H2.
Qed.

(** The handler is the [try] / [catch] part followed by the [finally]
    block, and its outcome is the outcome of that block; when the first
    part never ends, the block is not run. *)
Lemma handler_run f h :
  transcribe_handler env (mkRequest (Some f)) h =
  match try_catch (handler_try env (mkRequest (Some f))) handler_catch h with
  | (h1, inl Never) => (h1, inl Never)
  | (h1, _) => cleanup env h1
  end.
Proof.
  unfold transcribe_handler, try_finally.
  destruct (handler_try_catch_outcome env f h) as [[H|H] _]; revert H;
    destruct (try_catch _ _ h) as [h1 r]; cbn [snd]; intros ->;
    [|reflexivity].
  destruct (cleanup env h1) as [h2 [e|[]]]; reflexivity.
Qed.

Lemma handler_run_settled f h :
  snd (try_catch (handler_try env (mkRequest (Some f))) handler_catch h)
  <> inl Never ->
  transcribe_handler env (mkRequest (Some f)) h =
  cleanup env (fst (try_catch (handler_try env (mkRequest (Some f)))
                      handler_catch h)).
Proof.
  rewrite handler_run.
  destruct (try_catch _ _ h) as [h1 [[e|]|[]]]; cbn [fst snd]; congruence.
Qed.

Lemma handler_run_never f h :
  snd (try_catch (handler_try env (mkRequest (Some f))) handler_catch h)
  = inl Never ->
  transcribe_handler env (mkRequest (Some f)) h =
  try_catch (handler_try env (mkRequest (Some f))) handler_catch h.
Proof.
  rewrite handler_run.
  destruct (try_catch _ _ h) as [h1 [[e|]|[]]]; cbn [fst snd]; congruence.
Qed.

End Cleanup.

(** ** The three ways through the handler *)

Create Rewrite HintDb views.
#[local] Hint Rewrite responses_app commands_app written_paths_app
  error_logs_app unlinked_paths_app : views.

Lemma commands_single_inv t c :
  commands t = [c] ->
  exists pre post, t = pre ++ Exec c :: post /\ commands pre = [] /\ commands post = [].
Proof.
  induction t as [|e t IH]; simpl; [discriminate|].
  destruct e; simpl;
    try (intros H; destruct (IH H) as (pre & post & -> & Hp & Hq);
         eexists (_ :: pre), post; now repeat split).
  intros [= -> Ht]. exists [], t. now repeat split.
Qed.

(** Name what the [finally] block adds to the trace. *)
Ltac with_cleanup_trace ec Rc Cc Wc :=
  match goal with
  | |- context [cleanup ?env ?h1] =>
      destruct (cleanup_trace env h1) as (ec & -> & Rc & Cc & _ & Wc)
  end.

Section Paths.
Variable env : Env.
Variable f : File.
Variable h : HState.

Let p := path f.
Let a := path f +:+ ".wav".
Let w0 := push (world h)
            [ConsoleLog ("Processing video: " +:+ originalname f);
             ConsoleLog "Extracting audio..."].
Let final := fst (transcribe_handler env (mkRequest (Some f)) h).

(** Extraction fails: one command was run, nothing was written, and the
    answer is status 500 with the extractor's message. *)
Lemma handler_extraction_fails w1 (e : JsError) :
  extractAudio env p a w0 = (w1, inl e) ->
  exists evs,
    trace (world final) = trace (world h) ++ evs
    /\ responses evs = [(500, JsonError "Failed to extract audio from video")]
    /\ commands evs = [ffmpeg_command p a]
    /\ written_paths evs = [].
Proof.
  intros E. subst final. rewrite handler_run, handler_try_catch_run.
  unfold p, a, w0 in *. rewrite E. cbv iota beta.
  with_cleanup_trace ec Rc Cc Wc. cbn [fst world].
  destruct (extractAudio_trace _ _ _ _ _ _ E) as (e1 & T1 & R1 & W1 & C1 & ->).
  unfold push. cbn [trace]. rewrite T1. unfold push. cbn [trace].
  rewrite <- !app_assoc. eexists. split; [reflexivity|].
  autorewrite with views. rewrite R1, C1, W1, Rc, Cc, Wc. simpl.
  now repeat split.
Qed.

(** The optimised engine succeeds: its text is the answer, and the
    command-line engine is never started. *)
Lemma handler_primary_succeeds w1 w2 t :
  extractAudio env p a w0 = (w1, inr tt) ->
  transcribeWithFasterWhisper env a (push w1 [ConsoleLog "Transcribing..."])
    = (w2, inr t) ->
  exists evs,
    trace (world final) = trace (world h) ++ evs
    /\ responses evs = [(200, JsonTranscript t)]
    /\ is_trimmed t = true
    /\ written_paths evs = [scriptPath]
    /\ (commands evs = [ffmpeg_command p a]
        \/ commands evs = [ffmpeg_command p a; "python3 " +:+ scriptPath]).
Proof.
  intros E1 E2. subst final. rewrite handler_run, handler_try_catch_run.
  unfold p, a, w0 in *. rewrite E1, E2. cbv iota beta.
  with_cleanup_trace ec Rc Cc Wc. cbn [fst world].
  destruct (extractAudio_trace _ _ _ _ _ _ E1) as (e1 & T1 & R1 & W1 & C1 & _).
  destruct (primary_run _ _ _ _ _ E2) as (e2 & T2 & R2 & W2 & C2 & Ht).
  unfold push in *. cbn [trace] in *. rewrite T2, T1. unfold push. cbn [trace].
  rewrite <- !app_assoc. eexists. split; [reflexivity|].
  autorewrite with views. simpl. autorewrite with views.
  rewrite R1, C1, W1, R2, W2, Rc, Cc, Wc. simpl.
  repeat split; try assumption.
  destruct C2 as [-> | ->]; [left | right]; reflexivity.
Qed.

(** The optimised engine fails: the command-line engine is started
    exactly once, after the optimised one was tried, and it alone
    decides the answer. *)
Lemma handler_primary_fails w1 w2 (e : JsError) w3 r :
  extractAudio env p a w0 = (w1, inr tt) ->
  transcribeWithFasterWhisper env a (push w1 [ConsoleLog "Transcribing..."])
    = (w2, inl e) ->
  transcribeWithWhisper env a
    (push w2 [ConsoleLog
                "Faster-whisper not available, falling back to standard whisper"])
    = (w3, r) ->
  exists evs,
    trace (world final) = trace (world h) ++ evs
    /\ responses evs =
       match r with
       | inr t => [(200, JsonTranscript t)]
       | inl (Thrown e') => [(500, JsonError (message_or_default e'))]
       | inl Never => []
       end
    /\ match r with inr t => is_trimmed t = true | inl _ => True end
    /\ (exists cs, commands evs = ffmpeg_command p a :: cs ++ [whisper_command a]
                   /\ (cs = [] \/ cs = ["python3 " +:+ scriptPath]))
    /\ (exists pre post,
          evs = pre ++ Exec (whisper_command a) :: post
          /\ In (FsWrite scriptPath (pythonScript a)) pre).
Proof.
  intros E1 E2 E3. subst final. rewrite handler_run, handler_try_catch_run.
  unfold p, a, w0 in *. rewrite E1, E2, E3. cbv iota beta.
  destruct (extractAudio_trace _ _ _ _ _ _ E1) as (e1 & T1 & R1 & W1 & C1 & _).
  destruct (primary_run _ _ _ _ _ E2) as (e2 & T2 & R2 & W2 & C2 & _).
  destruct (fallback_run _ _ _ _ _ E3) as (e3 & T3 & R3 & W3 & C3 & Ht).
  destruct (commands_single_inv _ _ C3) as (l3 & r3 & Hdec & _ & _).
  unfold push in *. cbn [trace] in *.
  destruct r as [[e'|]|t]; try with_cleanup_trace ec Rc Cc Wc;
    cbn [fst world trace]; rewrite T3, T2, T1; cbn [trace];
    rewrite <- !app_assoc; cbn [app];
    (eexists; split; [reflexivity|]);
    repeat (progress (simpl; rewrite ?responses_app, ?commands_app));
    rewrite R1, C1, R2, R3, C3, ?Rc, ?Cc; simpl;
    (split; [reflexivity|]); (split; [first [exact I | exact Ht]|]); split.
  1,3,5: exists (commands e2); split; [rewrite ?app_nil_r; reflexivity | exact C2].
  all: rewrite Hdec;
    eexists (_ :: _ :: e1 ++ _ :: _ :: e2 ++ _ :: l3), _; split;
    [ cbn [app]; rewrite <- !app_assoc; cbn [app]; rewrite <- !app_assoc;
      reflexivity
    | right; right; apply in_or_app; right; right; now left ].
Qed.

(** The decoder never exits: the handler stops there. Nothing is
    answered, and the [finally] block is not reached. *)
Lemma handler_extraction_never w1 :
  extractAudio env p a w0 = (w1, inl Never) ->
  snd (transcribe_handler env (mkRequest (Some f)) h) = inl Never
  /\ exists evs,
       trace (world final) = trace (world h) ++ evs
       /\ responses evs = []
       /\ commands evs = [ffmpeg_command p a]
       /\ written_paths evs = []
       /\ files (world final) = files w1.
Proof.
  intros E. subst final. rewrite handler_run, handler_try_catch_run.
  unfold p, a, w0 in *. rewrite E. cbv iota beta. cbn [fst snd world].
  split; [reflexivity|].
  destruct (extractAudio_trace _ _ _ _ _ _ E) as (e1 & T1 & R1 & W1 & C1 & _).
  unfold push in *. cbn [trace] in *. rewrite T1, <- !app_assoc.
  eexists. split; [reflexivity|].
  autorewrite with views. rewrite R1, C1, W1. now repeat split.
Qed.

(** The interpreter of the optimised engine never exits: nothing is
    answered and the command-line engine is not tried. *)
Lemma handler_primary_never w1 w2 :
  extractAudio env p a w0 = (w1, inr tt) ->
  transcribeWithFasterWhisper env a (push w1 [ConsoleLog "Transcribing..."])
    = (w2, inl Never) ->
  snd (transcribe_handler env (mkRequest (Some f)) h) = inl Never
  /\ exists evs,
       trace (world final) = trace (world h) ++ evs
       /\ responses evs = []
       /\ written_paths evs = [scriptPath]
       /\ (commands evs = [ffmpeg_command p a]
           \/ commands evs = [ffmpeg_command p a; "python3 " +:+ scriptPath]).
Proof.
  intros E1 E2. subst final. rewrite handler_run, handler_try_catch_run.
  unfold p, a, w0 in *. rewrite E1, E2. cbv iota beta. cbn [fst snd world].
  split; [reflexivity|].
  destruct (extractAudio_trace _ _ _ _ _ _ E1) as (e1 & T1 & R1 & W1 & C1 & _).
  destruct (primary_run _ _ _ _ _ E2) as (e2 & T2 & R2 & W2 & C2 & _).
  unfold push in *. cbn [trace] in *. rewrite T2, T1. cbn [trace].
  rewrite <- !app_assoc. eexists. split; [reflexivity|].
  autorewrite with views. simpl. autorewrite with views.
  rewrite R1, C1, W1, R2, W2. simpl.
  repeat split.
  destruct C2 as [-> | ->]; [left | right]; reflexivity.
Qed.

End Paths.

(** ** The route *)

Section Route.
Variable env : Env.

(** An accepted upload is stored and handed to the handler. *)
Lemma post_transcribe_accepted inc w :
  accepted inc ->
  post_transcribe env (Some inc) w =
  (world (fst (transcribe_handler env (mkRequest (Some (stored_file inc)))
                 (mkHState
                    (mkWorld (<[stored_path inc := in_content inc]> (files w))
                             (trace w))
                    None None))),
   snd (transcribe_handler env (mkRequest (Some (stored_file inc)))
          (mkHState
             (mkWorld (<[stored_path inc := in_content inc]> (files w))
                      (trace w))
             None None))).
Proof.
  intros [Hf Hs]. unfold post_transcribe, upload_single. rewrite Hf.
  destruct (fileSize_limit <? in_size inc) eqn:Hlt; [lia|].
  fold (stored_path inc). fold (stored_file inc).
  now destruct (transcribe_handler _ _ _).
Qed.

(** An upload the filter refuses is answered by the framework; the
    handler does not run, so no command is started and no file is
    touched. *)
Lemma rejected_upload_never_processed inc w e :
  fileFilter (in_originalname inc) = inl e ->
  post_transcribe env (Some inc) w =
  (push w [Respond 500 (ErrorPage (message e))], inr tt).
Proof.
  intros Hf. unfold post_transcribe, upload_single. now rewrite Hf.
Qed.

(** A request without a file part is answered with status 400. *)
Lemma missing_upload_answered w :
  post_transcribe env None w =
  (push w [Respond 400 (JsonError "No video file uploaded")], inr tt).
Proof. reflexivity. Qed.

End Route.

(** The scenarios of the specification, run in the reference environment. *)

Example scenario_primary_answers :
  responses
    (trace (fst (post_transcribe (reference_env healthy) (Some sample_mp4) fresh)))
  = [(200, JsonTranscript "hello world")]
  /\ files (fst (post_transcribe (reference_env healthy) (Some sample_mp4) fresh))
     = ∅.
Proof. split; vm_compute; reflexivity. Qed.

Example scenario_fallback_answers :
  responses
    (trace (fst (post_transcribe (reference_env fallback_only) (Some clip_mov) fresh)))
  = [(200, JsonTranscript "fallback text")].
Proof. vm_compute. reflexivity. Qed.

Example scenario_invalid_contents :
  responses
    (trace (fst (post_transcribe (reference_env healthy) (Some renamed_txt) fresh)))
  = [(500, JsonError "Failed to extract audio from video")]
  /\ files (fst (post_transcribe (reference_env healthy) (Some renamed_txt) fresh))
     = ∅.
Proof. split; vm_compute; reflexivity. Qed.

Example scenario_both_engines_missing :
  responses
    (trace (fst (post_transcribe (reference_env (mkSetup false false []))
                   (Some clip_mov) fresh)))
  = [(500,
      JsonError
        ("Transcription failed: Command failed: "
         +:+ whisper_command "uploads/77c1.wav" +:+ NL
         +:+ "/bin/sh: 1: whisper: not found"))].
Proof. vm_compute. reflexivity. Qed.

Lemma stored_path_truthy inc : JsString.truthy (stored_path inc) = true.
Proof. reflexivity. Qed.

(** ** The upload filter against the list of extensions *)

(** C3. The claim is that the filter accepts a file exactly when its
    lowercased extension is one of mp4, mov, avi, webm, mkv, flv, wmv. The
    pattern of the filter is not anchored, so it is searched for inside
    the extension: [clip.mp4x] has the extension [mp4x], which is not in
    the list, and the filter accepts it all the same. *)
Theorem fileFilter_accepts_unlisted_extension :
  upload_ext "clip.mp4x" = "mp4x"
  /\ ~ In "mp4x" allowedTypes
  /\ fileFilter "clip.mp4x" = inr true.
Proof.
  split; [reflexivity|]. split; [|reflexivity].
  simpl. intros [H|[H|[H|[H|[H|[H|[H|[]]]]]]]]; discriminate H.
Qed.

(** C4. The claim is that an upload with a disallowed or missing extension
    gets a validation failure and that neither the extractor nor an engine
    is started for it. [notes.xmp4] has the extension [xmp4], which is not
    in the list; the unanchored pattern lets it through, the decoder and
    the engine are run and the request is answered with a transcript. *)
Theorem unlisted_extension_reaches_decoder :
  ~ In (upload_ext (in_originalname notes_xmp4)) allowedTypes
  /\ commands
       (trace (fst (post_transcribe (reference_env healthy) (Some notes_xmp4) fresh)))
     = [ffmpeg_command "uploads/9b2e" "uploads/9b2e.wav";
        "python3 /tmp/transcribe.py"]
  /\ responses
       (trace (fst (post_transcribe (reference_env healthy) (Some notes_xmp4) fresh)))
     = [(200, JsonTranscript "hello world")].
Proof.
  split; [|split; vm_compute; reflexivity].
  change (upload_ext (in_originalname notes_xmp4)) with "xmp4".
  simpl. intros [H|[H|[H|[H|[H|[H|[H|[]]]]]]]]; discriminate H.
Qed.

(** ** Removal of the temporary files *)

(** With both removals allowed, an accepted upload leaves neither the
    stored file nor the audio behind, on any path through the handler
    that comes to an end. *)
Lemma artifacts_removed_after_request_aux env inc w :
  accepted inc ->
  snd (post_transcribe env (Some inc) w) <> inl Never ->
  fs_fault env OpUnlink (stored_path inc) = None ->
  fs_fault env OpUnlink (stored_path inc +:+ ".wav") = None ->
  artifacts_removed (fst (post_transcribe env (Some inc) w)) (stored_path inc)
  /\ snd (post_transcribe env (Some inc) w) = inr tt.
Proof.
  intros Hacc. rewrite (post_transcribe_accepted env inc w Hacc).
  cbn [fst snd]. intros Hfin Fp Fa.
  assert (Hbody : snd (try_catch
                         (handler_try env (mkRequest (Some (stored_file inc))))
                         handler_catch
                         (mkHState
                            (mkWorld (<[stored_path inc := in_content inc]> (files w))
                               (trace w)) None None)) <> inl Never).
  { intros Hn. apply Hfin. rewrite handler_run_never by exact Hn. exact Hn. }
  rewrite handler_run_settled by exact Hbody. clear Hfin Hbody.
  set (h1 := fst (try_catch _ _ _)).
  destruct (handler_try_catch_outcome env (stored_file inc)
              (mkHState
                 (mkWorld (<[stored_path inc := in_content inc]> (files w))
                    (trace w)) None None)) as (_ & Hv & Ha).
  fold h1 in Hv, Ha. cbn [path stored_file] in Hv, Ha.
  destruct (cleanup_removes env h1 _ _ Hv Ha (stored_path_truthy inc)
              (truthy_wav _) Fp Fa) as [Hok Hfiles].
  split; [|exact Hok]. unfold artifacts_removed. rewrite Hfiles. split.
  - rewrite lookup_delete_ne by apply wav_differs. apply lookup_delete_eq.
  - apply lookup_delete_eq.
Qed.

(** C1 (amended). For every accepted upload, whichever way the request
    goes (transcript, failed extraction, failed transcription), the stored
    upload and the audio derived from it are gone when the handler has
    finished, provided neither of the two removals is refused by the file
    system; the handler then ends without an error. (A handler that
    waits for a command that never exits does not finish.) *)
Theorem artifacts_removed_after_request env inc w :
  accepted inc ->
  snd (post_transcribe env (Some inc) w) <> inl Never ->
  fs_fault env OpUnlink (stored_path inc) = None ->
  fs_fault env OpUnlink (stored_path inc +:+ ".wav") = None ->
  artifacts_removed (fst (post_transcribe env (Some inc) w)) (stored_path inc)
  /\ snd (post_transcribe env (Some inc) w) = inr tt.
Proof. exact (artifacts_removed_after_request_aux env inc w). Qed.

Lemma sample_mp4_accepted : accepted sample_mp4.
Proof. split; [reflexivity|]. vm_compute. intros H. discriminate H. Defined.

Lemma artifacts_removed_after_request_witness :
  accepted sample_mp4
  /\ snd (post_transcribe (reference_env healthy) (Some sample_mp4) fresh)
     <> inl Never
  /\ fs_fault (reference_env healthy) OpUnlink (stored_path sample_mp4) = None
  /\ fs_fault (reference_env healthy) OpUnlink (stored_path sample_mp4 +:+ ".wav")
     = None
  /\ artifacts_removed
       (fst (post_transcribe (reference_env healthy) (Some sample_mp4) fresh))
       (stored_path sample_mp4)
  /\ snd (post_transcribe (reference_env healthy) (Some sample_mp4) fresh) = inr tt.
Proof.
  split; [exact sample_mp4_accepted|].
  split; [vm_compute; discriminate|].
  split; [reflexivity|]. split; [reflexivity|].
  exact (artifacts_removed_after_request (reference_env healthy) sample_mp4 fresh
           sample_mp4_accepted ltac:(vm_compute; discriminate) eq_refl eq_refl).
Defined.

(** C1 as stated fails: when the file system refuses to remove the stored
    upload, the [finally] block stops at that call; the upload and the
    audio both remain although the request was answered. *)
Lemma upload_survives_refused_unlink :
  accepted sample_mp4
  /\ responses
       (trace (fst (post_transcribe (reference_env upload_locked)
                      (Some sample_mp4) fresh)))
     = [(200, JsonTranscript "hello world")]
  /\ files (fst (post_transcribe (reference_env upload_locked)
                   (Some sample_mp4) fresh)) !! "uploads/3f9a"
     = Some "VIDEO: two seconds of speech"
  /\ files (fst (post_transcribe (reference_env upload_locked)
                   (Some sample_mp4) fresh)) !! "uploads/3f9a.wav"
     = Some "PCM"
  /\ ~ artifacts_removed
         (fst (post_transcribe (reference_env upload_locked)
                 (Some sample_mp4) fresh))
         (stored_path sample_mp4).
Proof.
  split; [exact sample_mp4_accepted|].
  split; [vm_compute; reflexivity|].
  split; [vm_compute; reflexivity|].
  split; [vm_compute; reflexivity|].
  intros [H _]. vm_compute in H. discriminate H.
Qed.

(** C6 (amended). The [finally] block runs after every request that
    carries a file once the [try] / [catch] part has concluded, whatever
    that part did, and that part always concludes normally. The block
    removes the stored upload and the
    audio when they exist and skips what does not exist, so running it
    again after it succeeded changes nothing. It never writes to the
    error log. An error raised by a removal is not caught: it becomes the
    outcome of the handler, and a refused removal of the upload leaves the
    audio untouched. *)
Theorem cleanup_unconditional_idempotent_unguarded env f h :
  JsString.truthy (path f) = true ->
  let p := path f in
  let a := path f +:+ ".wav" in
  let body := try_catch (handler_try env (mkRequest (Some f))) handler_catch h in
  let out := transcribe_handler env (mkRequest (Some f)) h in
  snd body <> inl Never ->
  snd body = inr tt
  /\ out = cleanup env (fst body)
  /\ error_logs (trace (world (fst out))) = error_logs (trace (world (fst body)))
  /\ (fs_fault env OpUnlink p = None -> fs_fault env OpUnlink a = None ->
      snd out = inr tt
      /\ files (world (fst out)) = delete a (delete p (files (world (fst body)))))
  /\ (snd out = inr tt -> cleanup env (fst out) = (fst out, inr tt))
  /\ (forall m, fs_fault env OpUnlink p = Some m ->
      is_Some (files (world (fst body)) !! p) ->
      snd out = inl (new_Error m)
      /\ files (world (fst out)) = files (world (fst body))
      /\ unlinked_paths (trace (world (fst out)))
         = unlinked_paths (trace (world (fst body))) ++ [p])
  /\ (forall m, fs_fault env OpUnlink p = None ->
      fs_fault env OpUnlink a = Some m ->
      is_Some (files (world (fst body)) !! a) ->
      snd out = inl (new_Error m)
      /\ files (world (fst out)) !! a = files (world (fst body)) !! a).
Proof.
  intros Tp p a body out Hends.
  destruct (handler_try_catch_outcome env f h) as ([Hb|Hb] & Hv & Ha);
    fold body in Hb, Hv, Ha; fold p in Hv; fold a in Ha; [|contradiction].
  assert (Hout : out = cleanup env (fst body))
    by (apply handler_run_settled; exact Hends).
  assert (Ta : JsString.truthy a = true) by apply truthy_wav.
  split; [exact Hb|]. split; [exact Hout|]. rewrite Hout. split.
  { destruct (cleanup_trace env (fst body)) as (ec & -> & _ & _ & Hl & _).
    now rewrite error_logs_app, Hl, app_nil_r. }
  split.
  { intros Fp Fa. exact (cleanup_removes env _ p a Hv Ha Tp Ta Fp Fa). }
  split.
  { intros Hok. exact (cleanup_idempotent env _ p a Hv Ha Tp Ta Hok). }
  split.
  - intros m Fp [c Lp]. rewrite cleanup_run, Hv, Ha.
    rewrite remove_if_present_run by exact Tp. rewrite Lp, Fp.
    cbn [fst snd world push files trace].
    rewrite unlinked_paths_app. now repeat split.
  - intros m Fp Fa [c La]. rewrite cleanup_run, Hv, Ha.
    rewrite remove_if_present_run by exact Tp. rewrite Fp.
    assert (Hne : p <> a) by (intros E; symmetry in E; exact (wav_differs _ E)).
    destruct (files (world (fst body)) !! p) as [d|] eqn:Lp.
    + rewrite remove_if_present_run by exact Ta. cbn [files].
      rewrite lookup_delete_ne by exact Hne. rewrite La, Fa.
      cbn [fst snd world push files]. split; [reflexivity|].
      now rewrite lookup_delete_ne by exact Hne.
    + rewrite remove_if_present_run by exact Ta. rewrite La, Fa.
      cbn [fst snd world push files]. now split.
Qed.

Lemma cleanup_unconditional_idempotent_unguarded_witness :
  JsString.truthy (path (stored_file sample_mp4)) = true
  /\ snd (try_catch
            (handler_try (reference_env healthy)
               (mkRequest (Some (stored_file sample_mp4))))
            handler_catch
            (mkHState (mkWorld {[ "uploads/3f9a" := in_content sample_mp4 ]} [])
               None None))
     <> inl Never
  /\ snd (transcribe_handler (reference_env healthy)
            (mkRequest (Some (stored_file sample_mp4)))
            (mkHState (mkWorld {[ "uploads/3f9a" := in_content sample_mp4 ]} [])
               None None))
     = inr tt
  /\ files (world (fst (transcribe_handler (reference_env healthy)
                          (mkRequest (Some (stored_file sample_mp4)))
                          (mkHState
                             (mkWorld {[ "uploads/3f9a" := in_content sample_mp4 ]} [])
                             None None))))
     = delete "uploads/3f9a.wav"
         (delete "uploads/3f9a"
            (files (world (fst (try_catch
                                  (handler_try (reference_env healthy)
                                     (mkRequest (Some (stored_file sample_mp4))))
                                  handler_catch
                                  (mkHState
                                     (mkWorld
                                        {[ "uploads/3f9a" := in_content sample_mp4 ]} [])
                                     None None)))))).
Proof.
  split; [reflexivity|].
  assert (Hends : snd (try_catch
                         (handler_try (reference_env healthy)
                            (mkRequest (Some (stored_file sample_mp4))))
                         handler_catch
                         (mkHState
                            (mkWorld {[ "uploads/3f9a" := in_content sample_mp4 ]} [])
                            None None))
                  <> inl Never)
    by (vm_compute; discriminate).
  split; [exact Hends|].
  exact (proj1 (proj2 (proj2 (proj2
           (cleanup_unconditional_idempotent_unguarded (reference_env healthy)
              (stored_file sample_mp4)
              (mkHState (mkWorld {[ "uploads/3f9a" := in_content sample_mp4 ]} [])
                 None None)
              eq_refl Hends)))) eq_refl eq_refl).
Defined.

(** C6 as stated fails: a refused removal is neither logged nor kept from
    the caller of the handler. Here the audio cannot be removed; the
    handler ends with that error, the error log is empty and the audio
    file is still there. *)
Lemma refused_unlink_escapes_unlogged :
  snd (post_transcribe (reference_env audio_locked) (Some sample_mp4) fresh)
  = inl (new_Error unlink_refused)
  /\ error_logs
       (trace (fst (post_transcribe (reference_env audio_locked)
                      (Some sample_mp4) fresh)))
     = []
  /\ files (fst (post_transcribe (reference_env audio_locked)
                   (Some sample_mp4) fresh)) !! "uploads/3f9a.wav"
     = Some "PCM".
Proof. repeat split; vm_compute; reflexivity. Qed.

(** ** Failed extraction *)

(** C9 (amended). When an accepted upload cannot be decoded, the request
    is answered once, with status 500 and the body
    [{ error: 'Failed to extract audio from video' }]; only the decoder was
    started and the server wrote no file. Provided neither removal is
    refused by the file system, the stored upload and the audio path are
    both gone afterwards. *)
Theorem extraction_failure_answered_and_cleaned env inc w fs1 (e : JsError) :
  accepted inc ->
  run_process env
    (ffmpeg_command (stored_path inc) (stored_path inc +:+ ".wav"))
    (<[stored_path inc := in_content inc]> (files w)) = (fs1, inl e) ->
  (exists evs,
      trace (fst (post_transcribe env (Some inc) w)) = trace w ++ evs
      /\ responses evs = [(500, JsonError "Failed to extract audio from video")]
      /\ commands evs
         = [ffmpeg_command (stored_path inc) (stored_path inc +:+ ".wav")]
      /\ written_paths evs = [])
  /\ (fs_fault env OpUnlink (stored_path inc) = None ->
      fs_fault env OpUnlink (stored_path inc +:+ ".wav") = None ->
      artifacts_removed (fst (post_transcribe env (Some inc) w)) (stored_path inc)
      /\ snd (post_transcribe env (Some inc) w) = inr tt).
Proof.
  intros Hacc Hrun. split.
  - rewrite (post_transcribe_accepted env inc w Hacc). cbn [fst].
    eapply (handler_extraction_fails env (stored_file inc)).
    rewrite extractAudio_run. cbn [path stored_file world push files].
    rewrite Hrun. reflexivity.
  - intros Fp Fa.
    apply (artifacts_removed_after_request_aux env inc w Hacc); [|exact Fp|exact Fa].
    rewrite (post_transcribe_accepted env inc w Hacc). cbn [snd].
    rewrite handler_run, handler_try_catch_run, extractAudio_run.
    cbn [path stored_file world push files]. rewrite Hrun.
    apply cleanup_settles.
Qed.

Lemma renamed_txt_accepted : accepted renamed_txt.
Proof. split; [reflexivity|]. vm_compute. intros H. discriminate H. Defined.

Lemma renamed_txt_not_decodable :
  run_process (reference_env healthy)
    (ffmpeg_command (stored_path renamed_txt) (stored_path renamed_txt +:+ ".wav"))
    (<[stored_path renamed_txt := in_content renamed_txt]> (files fresh))
  = (<[stored_path renamed_txt := in_content renamed_txt]> (files fresh),
     inl (command_failed
            (ffmpeg_command (stored_path renamed_txt)
               (stored_path renamed_txt +:+ ".wav"))
            "uploads/3f9a: Invalid data found when processing input")).
Proof. vm_compute. reflexivity. Defined.

Lemma extraction_failure_answered_and_cleaned_witness :
  accepted renamed_txt
  /\ snd (run_process (reference_env healthy)
            (ffmpeg_command (stored_path renamed_txt)
               (stored_path renamed_txt +:+ ".wav"))
            (<[stored_path renamed_txt := in_content renamed_txt]> (files fresh)))
     = inl (command_failed
              (ffmpeg_command (stored_path renamed_txt)
                 (stored_path renamed_txt +:+ ".wav"))
              "uploads/3f9a: Invalid data found when processing input")
  /\ (exists evs,
         trace (fst (post_transcribe (reference_env healthy) (Some renamed_txt) fresh))
         = trace fresh ++ evs
         /\ responses evs = [(500, JsonError "Failed to extract audio from video")]
         /\ commands evs
            = [ffmpeg_command (stored_path renamed_txt)
                 (stored_path renamed_txt +:+ ".wav")]
         /\ written_paths evs = [])
  /\ artifacts_removed
       (fst (post_transcribe (reference_env healthy) (Some renamed_txt) fresh))
       (stored_path renamed_txt)
  /\ snd (post_transcribe (reference_env healthy) (Some renamed_txt) fresh) = inr tt.
Proof.
  split; [exact renamed_txt_accepted|].
  split; [vm_compute; reflexivity|].
  destruct (extraction_failure_answered_and_cleaned (reference_env healthy)
              renamed_txt fresh _ _ renamed_txt_accepted renamed_txt_not_decodable)
    as [H1 H2].
  split; [exact H1|]. exact (H2 eq_refl eq_refl).
Defined.

(** C9 as stated fails in its last part: with the stored upload locked,
    the answer is the same status 500, but the upload is still on disk
    afterwards. *)
Lemma failed_extraction_leaves_locked_upload :
  accepted renamed_txt
  /\ responses
       (trace (fst (post_transcribe (reference_env upload_locked)
                      (Some renamed_txt) fresh)))
     = [(500, JsonError "Failed to extract audio from video")]
  /\ files (fst (post_transcribe (reference_env upload_locked)
                   (Some renamed_txt) fresh)) !! "uploads/3f9a"
     = Some "just some text".
Proof.
  split; [exact renamed_txt_accepted|]. split; vm_compute; reflexivity.
Qed.

(** ** The decoder command *)

Lemma append_nil t : EmptyString +:+ t = t.
Proof. reflexivity. Qed.

Lemma append_cons c s t : String c s +:+ t = String c (s +:+ t).
Proof. reflexivity. Qed.

Lemma append_empty_r s : s +:+ EmptyString = s.
Proof.
  induction s as [|c s IH]; [reflexivity|]. now rewrite append_cons, IH.
Qed.

Lemma append_assoc s t u : (s +:+ t) +:+ u = s +:+ (t +:+ u).
Proof.
  induction s as [|c s IH]; [reflexivity|]. now rewrite !append_cons, IH.
Qed.













(** ** The extraction error *)

(** C5 (amended). When the decoder command fails (non-zero exit, or no
    such program), the extractor writes the captured standard error of
    the command to the error log and throws a new error whose only
    content is the message [Failed to extract audio from video]; the
    captured output is not attached to the error that propagates. *)
Theorem extraction_error_logs_stderr env v a w fs (e : JsError) :
  run_process env (ffmpeg_command v a) (files w) = (fs, inl e) ->
  snd (extractAudio env v a w)
  = inl (mkError "Failed to extract audio from video" None)
  /\ error_logs (trace (fst (extractAudio env v a w)))
     = error_logs (trace w)
       ++ [("FFmpeg error:",
            match stderr e with
            | Some s => ArgString s
            | None => ArgUndefined
            end)]
  /\ files (fst (extractAudio env v a w)) = fs.
Proof.
  intros Hrun. rewrite extractAudio_run, Hrun. cbn [fst snd trace files].
  rewrite error_logs_app. now repeat split.
Qed.

Lemma text_file_not_decodable :
  run_process (reference_env healthy)
    (ffmpeg_command "uploads/3f9a" "uploads/3f9a.wav")
    (files (mkWorld {[ "uploads/3f9a" := "just some text" ]} []))
  = ({[ "uploads/3f9a" := "just some text" ]},
     inl (command_failed (ffmpeg_command "uploads/3f9a" "uploads/3f9a.wav")
            "uploads/3f9a: Invalid data found when processing input")).
Proof. vm_compute. reflexivity. Defined.

Lemma extraction_error_logs_stderr_witness :
  snd (run_process (reference_env healthy)
         (ffmpeg_command "uploads/3f9a" "uploads/3f9a.wav")
         (files (mkWorld {[ "uploads/3f9a" := "just some text" ]} [])))
  = inl (command_failed (ffmpeg_command "uploads/3f9a" "uploads/3f9a.wav")
           "uploads/3f9a: Invalid data found when processing input")
  /\ snd (extractAudio (reference_env healthy) "uploads/3f9a" "uploads/3f9a.wav"
            (mkWorld {[ "uploads/3f9a" := "just some text" ]} []))
     = inl (mkError "Failed to extract audio from video" None)
  /\ error_logs
       (trace (fst (extractAudio (reference_env healthy) "uploads/3f9a"
                      "uploads/3f9a.wav"
                      (mkWorld {[ "uploads/3f9a" := "just some text" ]} []))))
     = [("FFmpeg error:",
         ArgString "uploads/3f9a: Invalid data found when processing input")].
Proof.
  split; [vm_compute; reflexivity|].
  pose proof (extraction_error_logs_stderr (reference_env healthy)
                "uploads/3f9a" "uploads/3f9a.wav"
                (mkWorld {[ "uploads/3f9a" := "just some text" ]} [])
                _ _ text_file_not_decodable) as (H1 & H2 & _).
  split; [exact H1 | exact H2].
Defined.

(** C5 as stated fails: the decoder's standard error is known to the
    extractor, yet the error it throws carries none. *)
Lemma decoder_stderr_not_attached :
  stderr
    <$> (match snd (run_process (reference_env healthy)
                      (ffmpeg_command "uploads/3f9a" "uploads/3f9a.wav")
                      {[ "uploads/3f9a" := "just some text" ]}) with
         | inl (Thrown e) => Some e
         | _ => None
         end)
  = Some (Some "uploads/3f9a: Invalid data found when processing input")
  /\ stderr
       <$> (match snd (extractAudio (reference_env healthy) "uploads/3f9a"
                         "uploads/3f9a.wav"
                         (mkWorld {[ "uploads/3f9a" := "just some text" ]} [])) with
            | inl (Thrown e) => Some e
            | _ => None
            end)
     = Some None.
Proof. split; vm_compute; reflexivity. Qed.

(** ** Temporary paths of concurrent requests *)

(** Whatever the audio, the optimised engine puts its script at the one
    fixed path. *)
Lemma primary_always_writes_scriptPath env a w :
  In scriptPath
     (written_paths (trace (fst (transcribeWithFasterWhisper env a w)))).
Proof.
  destruct (transcribeWithFasterWhisper env a w) as [w' r] eqn:E.
  destruct (primary_run _ _ _ _ _ E) as (evs & T & _).
  cbn [fst]. rewrite T, written_paths_app. apply in_or_app. right. now left.
Qed.

(** C8. The claim is that the temporary files a request writes have
    paths of its own, derived from the generated name of its upload, so
    that two requests never write to the same path. The stored upload,
    the audio and the transcript of the command-line engine are named
    that way, but the script of the optimised engine is always written to
    [/tmp/transcribe.py]: two requests with different generated names
    both write it, and the second write replaces the script of the
    first. *)
Theorem script_path_shared_between_requests :
  in_generated_name sample_mp4 <> in_generated_name clip_mov
  /\ In scriptPath
       (written_paths
          (trace (fst (post_transcribe (reference_env healthy)
                         (Some sample_mp4) fresh))))
  /\ In scriptPath
       (written_paths
          (trace (fst (post_transcribe (reference_env healthy)
                         (Some clip_mov) fresh))))
  /\ files
       (fst (writeFileSync (reference_env healthy) scriptPath
               (pythonScript "uploads/77c1.wav")
               (fst (writeFileSync (reference_env healthy) scriptPath
                       (pythonScript "uploads/3f9a.wav") fresh))))
     !! scriptPath
     = Some (pythonScript "uploads/77c1.wav")
  /\ pythonScript "uploads/77c1.wav" <> pythonScript "uploads/3f9a.wav".
Proof.
  split; [intros H; discriminate H|].
  split; [vm_compute; now left|].
  split; [vm_compute; now left|].
  split; [vm_compute; reflexivity|].
  intros H. vm_compute in H. discriminate H.
Qed.

(** ** Primary engine first, fallback once *)

Lemma ffmpeg_not_whisper v a : ffmpeg_command v a <> whisper_command a.
Proof. intros H; discriminate H. Qed.

Lemma python_not_whisper a : "python3 " +:+ scriptPath <> whisper_command a.
Proof. intros H; discriminate H. Qed.

(** C2. Once the audio is extracted, the optimised engine is tried
    first. If it returns a text, that text is the answer and the
    command-line engine is never started. If it throws, whatever the
    error, the command-line engine is started exactly once, on the same
    audio path and after the attempt of the optimised engine; if it
    returns a text, the request is answered with status 200 and that
    text, and only if it throws too is an error (its own) sent. *)
Theorem fallback_tried_once_after_primary env f fs fs1 out :
  let p := path f in
  let a := path f +:+ ".wav" in
  run_process env (ffmpeg_command p a) fs = (fs1, inr out) ->
  let w1 :=
    mkWorld fs1
      [ConsoleLog ("Processing video: " +:+ originalname f);
       ConsoleLog "Extracting audio...";
       Exec (ffmpeg_command p a);
       ConsoleLog "Audio extracted successfully";
       ConsoleLog "Transcribing..."] in
  let primary := transcribeWithFasterWhisper env a w1 in
  let fallback :=
    transcribeWithWhisper env a
      (push (fst primary)
         [ConsoleLog
            "Faster-whisper not available, falling back to standard whisper"]) in
  let T :=
    trace (world (fst (transcribe_handler env (mkRequest (Some f))
                         (mkHState (mkWorld fs []) None None)))) in
  (forall t, snd primary = inr t ->
     responses T = [(200, JsonTranscript t)]
     /\ count_occ String.string_dec (commands T) (whisper_command a) = 0%nat)
  /\ (forall e : JsError, snd primary = inl e ->
        count_occ String.string_dec (commands T) (whisper_command a) = 1%nat
        /\ (exists pre post,
              T = pre ++ Exec (whisper_command a) :: post
              /\ In (FsWrite scriptPath (pythonScript a)) pre)
        /\ (forall t, snd fallback = inr t ->
              responses T = [(200, JsonTranscript t)])
        /\ (forall e' : JsError, snd fallback = inl e' ->
              responses T = [(500, JsonError (message_or_default e'))])).
Proof.
  intros p a Hrun w1 primary fallback T. subst p a.
  set (h := mkHState (mkWorld fs []) None None) in *.
  assert (E1 : extractAudio env (path f) (path f +:+ ".wav")
                 (push (world h)
                    [ConsoleLog ("Processing video: " +:+ originalname f);
                     ConsoleLog "Extracting audio..."])
               = (mkWorld fs1
                    [ConsoleLog ("Processing video: " +:+ originalname f);
                     ConsoleLog "Extracting audio...";
                     Exec (ffmpeg_command (path f) (path f +:+ ".wav"));
                     ConsoleLog "Audio extracted successfully"],
                  inr tt)).
  { rewrite extractAudio_run. subst h. cbn [world push files trace].
    rewrite Hrun. reflexivity. }
  destruct primary as [w2 [[e|]|t]] eqn:E2; cbn [fst snd] in *;
    [| split; [intros t Ht | intros e He]; discriminate |].
  - destruct fallback as [w3 r] eqn:E3.
    destruct (handler_primary_fails env f h _ _ _ _ _ E1 E2 E3)
      as (evs & HT & HR & _ & (cs & HC & Hcs) & (pre & post & Hpp & Hin)).
    subst T h. cbn [world trace app] in HT. rewrite HT.
    split; [intros t Ht; discriminate Ht|].
    intros e0 _. split; [|split; [|split]].
    + rewrite HC.
      rewrite count_occ_cons_neq by apply ffmpeg_not_whisper.
      rewrite count_occ_app, count_occ_cons_eq by reflexivity.
      destruct Hcs as [-> | ->]; [reflexivity|].
      rewrite count_occ_cons_neq by apply python_not_whisper.
      reflexivity.
    + exists pre, post. split; [exact Hpp | exact Hin].
    + intros t Ht. cbn [snd] in Ht. subst r. exact HR.
    + intros e' He. cbn [snd] in He. subst r. exact HR.
  - destruct (handler_primary_succeeds env f h _ _ _ E1 E2)
      as (evs & HT & HR & _ & _ & HC).
    subst T h. cbn [world trace app] in HT. rewrite HT.
    split; [|intros e He; discriminate He].
    intros t' [= <-]. split; [exact HR|].
    destruct HC as [-> | ->].
    + now rewrite count_occ_cons_neq by apply ffmpeg_not_whisper.
    + rewrite count_occ_cons_neq by apply ffmpeg_not_whisper.
      now rewrite count_occ_cons_neq by apply python_not_whisper.
Qed.

Lemma clip_mov_decodable :
  run_process (reference_env fallback_only)
    (ffmpeg_command (path (stored_file clip_mov))
       (path (stored_file clip_mov) +:+ ".wav"))
    {[ "uploads/77c1" := in_content clip_mov ]}
  = (<[ "uploads/77c1.wav" := "PCM" ]> {[ "uploads/77c1" := in_content clip_mov ]},
     inr (mkProcOutput EmptyString "video:0kB audio:1kB")).
Proof. vm_compute. reflexivity. Defined.

Lemma fallback_tried_once_after_primary_witness :
  run_process (reference_env fallback_only)
    (ffmpeg_command (path (stored_file clip_mov))
       (path (stored_file clip_mov) +:+ ".wav"))
    {[ "uploads/77c1" := in_content clip_mov ]}
  = (<[ "uploads/77c1.wav" := "PCM" ]> {[ "uploads/77c1" := in_content clip_mov ]},
     inr (mkProcOutput EmptyString "video:0kB audio:1kB"))
  /\ count_occ String.string_dec
       (commands
          (trace (world (fst (transcribe_handler (reference_env fallback_only)
                                (mkRequest (Some (stored_file clip_mov)))
                                (mkHState
                                   (mkWorld {[ "uploads/77c1" := in_content clip_mov ]} [])
                                   None None))))))
       (whisper_command "uploads/77c1.wav")
     = 1%nat
  /\ responses
       (trace (world (fst (transcribe_handler (reference_env fallback_only)
                             (mkRequest (Some (stored_file clip_mov)))
                             (mkHState
                                (mkWorld {[ "uploads/77c1" := in_content clip_mov ]} [])
                                None None)))))
     = [(200, JsonTranscript "fallback text")].
Proof.
  split; [exact clip_mov_decodable|].
  pose proof (fallback_tried_once_after_primary (reference_env fallback_only)
                (stored_file clip_mov) _ _ _ clip_mov_decodable) as [_ H].
  edestruct H as (Hcount & _ & Hok & _); [vm_compute; reflexivity|].
  split; [exact Hcount|].
  apply Hok. vm_compute. reflexivity.
Defined.

(** ** The transcript is trimmed *)

(** C10. Whichever engine produced it, a transcript sent to the client
    has no white space at its beginning or at its end (TAB, LF, VT, FF,
    CR, SPACE, NO-BREAK SPACE): both engines trim their text before they
    return it, and nothing else is ever sent as a transcript. *)
Theorem transcript_is_trimmed env inc fs code t :
  In (code, JsonTranscript t)
     (responses (trace (fst (post_transcribe env inc (mkWorld fs []))))) ->
  is_trimmed t = true.
Proof.
  assert (Hone : forall (x : Z * Body) (b : Body) (c : Z),
             In x [(c, b)] -> x = (c, b)).
  { intros x b c [H|[]]. now symmetry. }
  destruct inc as [inc|]; [|intros H; apply Hone in H; discriminate H].
  destruct (fileFilter (in_originalname inc)) as [e|[|]] eqn:Hf.
  - rewrite (rejected_upload_never_processed env inc _ e Hf).
    intros H. apply Hone in H. discriminate H.
  - destruct (fileSize_limit <? in_size inc) eqn:Hs.
    + unfold post_transcribe, upload_single. rewrite Hf, Hs.
      intros H. apply Hone in H. discriminate H.
    + assert (Hacc : accepted inc) by (split; [exact Hf | lia]).
      rewrite (post_transcribe_accepted env inc _ Hacc). cbn [fst files trace].
      set (h := mkHState _ None None). set (f := stored_file inc).
      destruct (extractAudio env (path f) (path f +:+ ".wav")
                  (push (world h)
                     [ConsoleLog ("Processing video: " +:+ originalname f);
                      ConsoleLog "Extracting audio..."]))
        as [w1 [[e|]|[]]] eqn:E1.
      * destruct (handler_extraction_fails env f h _ _ E1) as (evs & -> & R & _).
        subst h. cbn [world trace app]. rewrite R.
        intros H. apply Hone in H. discriminate H.
      * destruct (handler_extraction_never env f h _ E1) as (_ & evs & -> & R & _).
        subst h. cbn [world trace app]. rewrite R. intros [].
      * destruct (transcribeWithFasterWhisper env (path f +:+ ".wav")
                    (push w1 [ConsoleLog "Transcribing..."]))
          as [w2 [[e|]|t']] eqn:E2.
        -- destruct (transcribeWithWhisper env (path f +:+ ".wav")
                       (push w2
                          [ConsoleLog
                             "Faster-whisper not available, falling back to standard whisper"]))
             as [w3 r] eqn:E3.
           destruct (handler_primary_fails env f h _ _ _ _ _ E1 E2 E3)
             as (evs & -> & R & Ht & _).
           subst h. cbn [world trace app]. rewrite R.
           destruct r as [[e'|]|t']; [| intros [] |]; intros H; apply Hone in H.
           ++ discriminate H.
           ++ injection H as _ ->. exact Ht.
        -- destruct (handler_primary_never env f h _ _ E1 E2)
             as (_ & evs & -> & R & _).
           subst h. cbn [world trace app]. rewrite R. intros [].
        -- destruct (handler_primary_succeeds env f h _ _ _ E1 E2)
             as (evs & -> & R & Ht & _).
           subst h. cbn [world trace app]. rewrite R.
           intros H. apply Hone in H. injection H as _ ->. exact Ht.
  - unfold post_transcribe, upload_single. rewrite Hf.
    intros H. apply Hone in H. discriminate H.
Qed.

Lemma transcript_is_trimmed_witness :
  In (200, JsonTranscript "hello world")
     (responses
        (trace (fst (post_transcribe (reference_env healthy) (Some sample_mp4)
                       (mkWorld ∅ [])))))
  /\ is_trimmed "hello world" = true.
Proof.
  assert (H : In (200, JsonTranscript "hello world")
                (responses
                   (trace (fst (post_transcribe (reference_env healthy)
                                  (Some sample_mp4) (mkWorld ∅ [])))))).
  { vm_compute. left. reflexivity. }
  split; [exact H|].
  exact (transcript_is_trimmed (reference_env healthy) (Some sample_mp4) ∅ 200
           "hello world" H).
Defined.
(** * Further properties of the server *)

(** ** Every request is answered at most once *)

Lemma message_or_default_truthy e :
  JsString.truthy (message_or_default e) = true.
Proof.
  unfold message_or_default.
  destruct (JsString.truthy (message e)) eqn:H; [exact H | reflexivity].
Qed.

Section TryBlock.
Variable env : Env.

(** What the [try] block of the handler adds to the trace: the one
    answer with status 200 when it runs to its end, no answer when it
    throws or stops at a command that never exits. *)
Lemma handler_try_responses f h h1 r :
  handler_try env (mkRequest (Some f)) h = (h1, r) ->
  exists evs,
    trace (world h1) = trace (world h) ++ evs
    /\ match r with
       | inr _ => exists t, responses evs = [(200, JsonTranscript t)]
       | inl _ => responses evs = []
       end.
Proof.
  unfold handler_try, respond.
  unfold try_catch, bind, lift, set_videoPath, set_audioPath, console_log, emit.
  cbn [file world videoPath audioPath files trace].
  destruct (extractAudio _ _ _ _) as [w1 r1] eqn:E1.
  destruct (extractAudio_trace _ _ _ _ _ _ E1) as (e1 & T1 & R1 & _).
  cbn [trace] in T1. rewrite <- !app_assoc in T1. cbn [app] in T1.
  destruct r1 as [x|[]]; cbn [world videoPath audioPath files trace].
  { intros [= <- <-]. cbn [world]. rewrite T1. eexists. split; [reflexivity|].
    simpl. exact R1. }
  destruct (transcribeWithFasterWhisper _ _ _) as [w2 r2] eqn:E2.
  destruct (primary_run _ _ _ _ _ E2) as (e2 & T2 & R2 & _).
  cbn [trace] in T2. rewrite T1, <- !app_assoc in T2. cbn [app] in T2.
  destruct r2 as [[e|]|t]; cbn [world videoPath audioPath files trace].
  - destruct (transcribeWithWhisper _ _ _) as [w3 r3] eqn:E3.
    destruct (fallback_run _ _ _ _ _ E3) as (e3 & T3 & R3 & _).
    cbn [trace] in T3. rewrite T2, <- !app_assoc in T3. cbn [app] in T3.
    destruct r3 as [x|t]; cbn [world videoPath audioPath files trace];
      intros [= <- <-]; cbn [world trace]; rewrite T3, <- ?app_assoc;
      (eexists; split; [reflexivity|]);
      repeat (progress (simpl; rewrite ?responses_app));
      rewrite R1, R2, R3; [reflexivity | eexists; reflexivity].
  - intros [= <- <-]. cbn [world]. rewrite T2. eexists. split; [reflexivity|].
    repeat (progress (simpl; rewrite ?responses_app)). now rewrite R1, R2.
  - intros [= <- <-]. cbn [world trace]. rewrite T2, <- ?app_assoc.
    eexists. split; [reflexivity|].
    repeat (progress (simpl; rewrite ?responses_app)). rewrite R1, R2.
    eexists. reflexivity.
Qed.

(** The answers of a request with a file, by the outcome of its [try]
    block. *)
Lemma handler_responses f h :
  let out := transcribe_handler env (mkRequest (Some f)) h in
  match snd (handler_try env (mkRequest (Some f)) h) with
  | inr _ =>
      snd out <> inl Never
      /\ exists t,
           responses (trace (world (fst out)))
           = responses (trace (world h)) ++ [(200, JsonTranscript t)]
  | inl (Thrown e) =>
      snd out <> inl Never
      /\ responses (trace (world (fst out)))
         = responses (trace (world h)) ++ [(500, JsonError (message_or_default e))]
  | inl Never =>
      snd out = inl Never
      /\ responses (trace (world (fst out))) = responses (trace (world h))
  end.
Proof.
  cbv zeta. unfold transcribe_handler, try_finally, try_catch.
  destruct (handler_try env (mkRequest (Some f)) h) as [h1 r] eqn:Eb.
  destruct (handler_try_responses _ _ _ _ Eb) as (evs & T & R).
  cbn [snd]. destruct r as [[e|]|[]].
  - unfold handler_catch, respond, lift, bind, console_error, emit.
    cbn [world trace files fst snd].
    match goal with
    | |- context [cleanup env ?h2] =>
        pose proof (cleanup_settles env h2) as Hs;
        destruct (cleanup_trace env h2) as (ec & Tc & Rc & _);
        destruct (cleanup env h2) as [h3 [x|[]]]
    end; cbn [fst snd world trace] in *;
      (split; [first [exact Hs | discriminate]|]);
      rewrite Tc, T, <- ?app_assoc;
      repeat (progress (simpl; rewrite ?responses_app));
      now rewrite R, Rc.
  - cbn [fst snd]. split; [reflexivity|].
    now rewrite T, responses_app, R, app_nil_r.
  - destruct R as [t R].
    pose proof (cleanup_settles env h1) as Hs.
    destruct (cleanup_trace env h1) as (ec & Tc & Rc & _).
    destruct (cleanup env h1) as [h3 [x|[]]]; cbn [fst snd world trace] in *;
      (split; [first [exact Hs | discriminate]|]);
      exists t; rewrite Tc, T, !responses_app, R, Rc; now rewrite app_nil_r.
Qed.

End TryBlock.

(** X1. The route answers a request at most once: exactly once when the
    handler comes to an end, and never when it waits for a command that
    does not exit. Which answer is sent is fixed by the request: status
    400 for a request without a file part; the framework's status 500
    page, with the refusal's message, for a file the filter refuses or
    that is over the size limit; and for an upload that was let through,
    status 200 with a transcript when the [try] block of the handler ran
    to its end, status 500 with the non-empty message of the error when
    a step of it threw, and nothing when it never ended. *)
Theorem every_request_answered_once env inc fs :
  let r := post_transcribe env inc (mkWorld fs []) in
  let rs := responses (trace (fst r)) in
  (snd r = inl Never -> rs = [])
  /\ (snd r <> inl Never -> exists code body, rs = [(code, body)])
  /\ (inc = None -> rs = [(400, JsonError "No video file uploaded")])
  /\ (forall u e, inc = Some u -> fileFilter (in_originalname u) = inl e ->
        rs = [(500, ErrorPage (message e))])
  /\ (forall u, inc = Some u -> fileFilter (in_originalname u) = inr true ->
        fileSize_limit < in_size u ->
        rs = [(500, ErrorPage "File too large")])
  /\ (forall u, inc = Some u -> accepted u ->
        match snd (handler_try env (mkRequest (Some (stored_file u)))
                     (mkHState
                        (mkWorld (<[stored_path u := in_content u]> fs) [])
                        None None)) with
        | inr _ => exists t, rs = [(200, JsonTranscript t)]
        | inl (Thrown e) =>
            rs = [(500, JsonError (message_or_default e))]
            /\ JsString.truthy (message_or_default e) = true
        | inl Never => rs = [] /\ snd r = inl Never
        end).
Proof.
  cbv zeta. destruct inc as [u|].
  2: { cbn. repeat split; try discriminate; try reflexivity.
       intros _. do 2 eexists. reflexivity. }
  destruct (fileFilter (in_originalname u)) as [e|[|]] eqn:Hf.
  - rewrite (rejected_upload_never_processed env u _ e Hf). cbn [fst snd push trace].
    repeat split; try discriminate.
    + intros _. do 2 eexists. reflexivity.
    + intros u' e' [= <-] Hf'. rewrite Hf in Hf'. now injection Hf' as <-.
    + intros u' [= <-] Hf'. congruence.
    + intros u' [= <-] [Hf' _]. congruence.
  - destruct (Z.lt_ge_cases fileSize_limit (in_size u)) as [Hs|Hs].
    + assert (E : post_transcribe env (Some u) (mkWorld fs [])
                  = (push (mkWorld fs []) [Respond 500 (ErrorPage "File too large")],
                     inr tt)).
      { unfold post_transcribe, upload_single. rewrite Hf.
        now rewrite (proj2 (Z.ltb_lt _ _) Hs). }
      rewrite E. cbn [fst snd push trace].
      repeat split; try discriminate.
      * intros _. do 2 eexists. reflexivity.
      * intros u' e' [= <-] Hf'. congruence.
      * intros u' [= <-] [_ Hs']. lia.
    + rewrite (post_transcribe_accepted env u (mkWorld fs []) (conj Hf Hs)).
      cbn [fst snd files trace].
      pose proof (handler_responses env (stored_file u)
                    (mkHState
                       (mkWorld (<[stored_path u := in_content u]> fs) [])
                       None None)) as H.
      cbv zeta in H. cbn [world trace responses app] in H.
      repeat split; try discriminate.
      * intros Hn.
        destruct (snd (handler_try _ _ _)) as [[e|]|[]];
          destruct H as [H1 H2]; [contradiction | exact H2 | contradiction].
      * intros Hn.
        destruct (snd (handler_try _ _ _)) as [[e|]|[]]; destruct H as [H1 H2].
        -- rewrite H2. do 2 eexists. reflexivity.
        -- contradiction.
        -- destruct H2 as [t ->]. do 2 eexists. reflexivity.
      * intros u' e' [= <-] Hf'. congruence.
      * intros u' [= <-] _ Hs'. lia.
      * intros u' [= <-] _.
        destruct (snd (handler_try _ _ _)) as [[e|]|[]]; destruct H as [H1 H2].
        -- split; [exact H2 | apply message_or_default_truthy].
        -- now split.
        -- exact H2.
  - exfalso. unfold fileFilter in Hf.
    destruct (RegExp_test _ _); discriminate Hf.
Qed.

(** ** Order of the external commands *)

Section EngineCommands.
Variable env : Env.

(** The optimised engine starts its interpreter unless writing the
    script raised, and starts nothing else. *)
Lemma primary_commands a w :
  commands (trace (fst (transcribeWithFasterWhisper env a w)))
  = commands (trace w)
    ++ match fs_fault env OpWrite scriptPath with
       | Some _ => []
       | None => ["python3 " +:+ scriptPath]
       end.
Proof.
  unfold transcribeWithFasterWhisper. unfold_effects.
  case_env; simpl; rewrite <- ?app_assoc; simpl;
    repeat (progress (simpl; rewrite ?commands_app)); reflexivity.
Qed.

End EngineCommands.

(** X2. The commands a request starts follow the pipeline. An upload
    that is refused starts none. An upload that is let through starts
    the decoder first; when the decoder fails or never exits, nothing
    else is started; when it succeeds, the interpreter of the optimised
    engine follows unless writing its script raised, and the
    command-line engine follows exactly when the helper of the optimised
    engine threw. No command is started twice. *)
Theorem commands_follow_pipeline_order env inc fs :
  let p := stored_path inc in
  let a := stored_path inc +:+ ".wav" in
  let cs := commands (trace (fst (post_transcribe env (Some inc) (mkWorld fs [])))) in
  (~ accepted inc -> cs = [])
  /\ (accepted inc ->
      match run_process env (ffmpeg_command p a) (<[p := in_content inc]> fs) with
      | (_, inl _) => cs = [ffmpeg_command p a]
      | (fs1, inr _) =>
          let w1 :=
            mkWorld fs1
              [ConsoleLog ("Processing video: " +:+ in_originalname inc);
               ConsoleLog "Extracting audio...";
               Exec (ffmpeg_command p a);
               ConsoleLog "Audio extracted successfully";
               ConsoleLog "Transcribing..."] in
          cs = ffmpeg_command p a
               :: match fs_fault env OpWrite scriptPath with
                  | Some _ => []
                  | None => ["python3 " +:+ scriptPath]
                  end
               ++ match snd (transcribeWithFasterWhisper env a w1) with
                  | inl (Thrown _) => [whisper_command a]
                  | _ => []
                  end
      end).
Proof.
  intros p a cs. subst p a cs. split.
  - intros Hna.
    destruct (fileFilter (in_originalname inc)) as [e|[|]] eqn:Hf.
    + now rewrite (rejected_upload_never_processed env inc _ e Hf).
    + destruct (Z.lt_ge_cases fileSize_limit (in_size inc)) as [Hs|Hs].
      * unfold post_transcribe, upload_single. rewrite Hf.
        now rewrite (proj2 (Z.ltb_lt _ _) Hs).
      * exfalso. apply Hna. now split.
    + unfold post_transcribe, upload_single. now rewrite Hf.
  - intros Hacc.
    rewrite (post_transcribe_accepted env inc _ Hacc). cbn [fst files trace].
    rewrite handler_run, handler_try_catch_run, extractAudio_run.
    cbn [path originalname stored_file world push files trace app].
    destruct (run_process env _ _) as [fs1 [[e|]|out]]; cbv iota beta zeta.
    + with_cleanup_trace ec Rc Cc Wc. cbn [world push trace].
      repeat (progress (simpl; rewrite ?commands_app)). now rewrite Cc.
    + reflexivity.
    + cbn [push files trace app].
      pose proof (primary_commands env (stored_path inc +:+ ".wav")
                    (mkWorld fs1
                       [ConsoleLog ("Processing video: " +:+ in_originalname inc);
                        ConsoleLog "Extracting audio...";
                        Exec (ffmpeg_command (stored_path inc)
                                (stored_path inc +:+ ".wav"));
                        ConsoleLog "Audio extracted successfully";
                        ConsoleLog "Transcribing..."])) as C2.
      destruct (transcribeWithFasterWhisper env _ _) as [w2 [[e|]|t]] eqn:E2;
        cbn [fst snd] in *.
      * destruct (transcribeWithWhisper env _ _) as [w3 r3] eqn:E3.
        destruct (fallback_run _ _ _ _ _ E3) as (e3 & T3 & _ & _ & C3 & _).
        cbn [push trace] in T3.
        destruct r3 as [[e'|]|t]; try with_cleanup_trace ec Rc Cc Wc;
          cbn [world push trace fst]; rewrite T3;
          repeat (progress (simpl; rewrite ?commands_app));
          rewrite C2, C3, ?Cc; simpl; now rewrite <- ?app_assoc, ?app_nil_r.
      * cbn [world fst]. rewrite C2. simpl. now rewrite app_nil_r.
      * with_cleanup_trace ec Rc Cc Wc. cbn [world push trace fst].
        repeat (progress (simpl; rewrite ?commands_app)).
        rewrite C2, Cc. simpl. now rewrite ?app_nil_r.
Qed.

(** ** A command that never exits *)

(** X23. When the decoder started for an accepted upload never exits,
    the request is never answered and the handler never comes to its
    [finally] block: nothing is removed, and the file system stays as
    the decoder left it, stored upload included. *)
Theorem hung_decoder_blocks_request env inc w fs1 :
  accepted inc ->
  run_process env
    (ffmpeg_command (stored_path inc) (stored_path inc +:+ ".wav"))
    (<[stored_path inc := in_content inc]> (files w)) = (fs1, inl Never) ->
  snd (post_transcribe env (Some inc) w) = inl Never
  /\ responses (trace (fst (post_transcribe env (Some inc) w)))
     = responses (trace w)
  /\ unlinked_paths (trace (fst (post_transcribe env (Some inc) w)))
     = unlinked_paths (trace w)
  /\ commands (trace (fst (post_transcribe env (Some inc) w)))
     = commands (trace w)
       ++ [ffmpeg_command (stored_path inc) (stored_path inc +:+ ".wav")]
  /\ files (fst (post_transcribe env (Some inc) w)) = fs1.
Proof.
  intros Hacc Hrun. rewrite (post_transcribe_accepted env inc w Hacc).
  cbn [fst snd]. rewrite handler_run, handler_try_catch_run, extractAudio_run.
  cbn [path originalname stored_file world push files trace]. rewrite Hrun.
  cbn [fst snd world files trace].
  rewrite <- !app_assoc, responses_app, unlinked_paths_app, commands_app.
  cbn. rewrite !app_nil_r. now repeat split.
Qed.

Lemma stale_audio_blocks_decoder :
  run_process (reference_env healthy)
    (ffmpeg_command (stored_path sample_mp4) (stored_path sample_mp4 +:+ ".wav"))
    (<[stored_path sample_mp4 := in_content sample_mp4]>
       (files (mkWorld {[ "uploads/3f9a.wav" := "an older recording" ]} [])))
  = (<[stored_path sample_mp4 := in_content sample_mp4]>
       {[ "uploads/3f9a.wav" := "an older recording" ]},
     inl Never).
Proof. vm_compute. reflexivity. Defined.

Lemma hung_decoder_blocks_request_witness :
  accepted sample_mp4
  /\ snd (post_transcribe (reference_env healthy) (Some sample_mp4)
            (mkWorld {[ "uploads/3f9a.wav" := "an older recording" ]} []))
     = inl Never
  /\ responses
       (trace (fst (post_transcribe (reference_env healthy) (Some sample_mp4)
                      (mkWorld {[ "uploads/3f9a.wav" := "an older recording" ]} []))))
     = []
  /\ files (fst (post_transcribe (reference_env healthy) (Some sample_mp4)
                   (mkWorld {[ "uploads/3f9a.wav" := "an older recording" ]} [])))
     !! "uploads/3f9a"
     = Some "VIDEO: two seconds of speech".
Proof.
  split; [exact sample_mp4_accepted|].
  destruct (hung_decoder_blocks_request (reference_env healthy) sample_mp4
              (mkWorld {[ "uploads/3f9a.wav" := "an older recording" ]} []) _
              sample_mp4_accepted stale_audio_blocks_decoder)
    as (H1 & H2 & _ & _ & H5).
  split; [exact H1|]. split; [exact H2|]. rewrite H5. reflexivity.
Defined.

(** ** The two engines, case by case *)

Section Engines.
Variable env : Env.

(** X3. When the command-line engine ends normally but left no
    transcript file at the expected place, the helper reads nothing,
    removes nothing and fails with the message [Transcription failed:
    Transcript file not generated]. *)
Theorem whisper_without_transcript_file a w fs out :
  run_process env (whisper_command a) (files w) = (fs, inr out) ->
  fs !! transcriptPath a = None ->
  snd (transcribeWithWhisper env a w)
  = inl (new_Error "Transcription failed: Transcript file not generated")
  /\ files (fst (transcribeWithWhisper env a w)) = fs
  /\ trace (fst (transcribeWithWhisper env a w))
     = trace w
       ++ [ConsoleLog "Running Whisper transcription...";
           Exec (whisper_command a);
           ConsoleError "Whisper error:"
             (ArgError (new_Error "Transcript file not generated"))].
Proof.
  intros Hrun Hnone. unfold transcribeWithWhisper. unfold_effects.
  cbn [files trace]. rewrite Hrun. cbn [files trace]. rewrite Hnone.
  rewrite bool_decide_eq_false_2 by (intros [? ?]; discriminate).
  cbn [fst snd files trace]. rewrite <- !app_assoc. now repeat split.
Qed.

(** X4. When the command-line engine ends normally and its transcript
    file exists, the helper returns the trimmed contents of that file,
    whatever the command printed, and removes the file; nothing else
    in the file system changes. *)
Theorem whisper_reads_then_removes_transcript a w fs out c :
  run_process env (whisper_command a) (files w) = (fs, inr out) ->
  fs !! transcriptPath a = Some c ->
  fs_fault env OpRead (transcriptPath a) = None ->
  fs_fault env OpUnlink (transcriptPath a) = None ->
  snd (transcribeWithWhisper env a w) = inr (JsString.trim c)
  /\ files (fst (transcribeWithWhisper env a w)) = delete (transcriptPath a) fs
  /\ error_logs (trace (fst (transcribeWithWhisper env a w))) = error_logs (trace w).
Proof.
  intros Hrun Hsome Hr Hu. unfold transcribeWithWhisper. unfold_effects.
  cbn [files trace]. rewrite Hrun. cbn [files trace]. rewrite Hsome.
  rewrite bool_decide_eq_true_2 by eauto.
  rewrite Hr. cbn [files trace]. rewrite Hsome, Hu. cbn [files trace].
  rewrite Hsome. cbn [fst snd files trace].
  rewrite !error_logs_app. cbn. rewrite !app_nil_r. now repeat split.
Qed.

(** When the command-line engine command fails, the helper fails with
    [Transcription failed: ] followed by the message of that failure,
    and touches no file by itself. *)
Lemma whisper_command_failure a w fs (e : JsError) :
  run_process env (whisper_command a) (files w) = (fs, inl e) ->
  snd (transcribeWithWhisper env a w)
  = inl (new_Error ("Transcription failed: " +:+ message e))
  /\ files (fst (transcribeWithWhisper env a w)) = fs
  /\ unlinked_paths (trace (fst (transcribeWithWhisper env a w)))
     = unlinked_paths (trace w).
Proof.
  intros Hrun. unfold transcribeWithWhisper. unfold_effects.
  cbn [files trace]. rewrite Hrun. cbn [fst snd files trace].
  rewrite !unlinked_paths_app. cbn. rewrite !app_nil_r. now repeat split.
Qed.

(** X5. When the interpreter of the optimised engine ends normally,
    what the helper returns depends on the removal of its script. If
    the script is still at [/tmp/transcribe.py] and its removal is not
    refused, the helper returns the trimmed standard output of the
    interpreter, and the file system is what the interpreter left,
    without the script. If the script is no longer there (the path is
    shared by all requests) or its removal is refused, the helper
    throws [Transcription failed: ] followed by the message of the
    removal error, the file system is as the interpreter left it, and
    the text the interpreter printed is lost. *)
Theorem faster_whisper_success_removes_script a w fs out :
  fs_fault env OpWrite scriptPath = None ->
  run_process env ("python3 " +:+ scriptPath)
    (<[scriptPath := pythonScript a]> (files w)) = (fs, inr out) ->
  (is_Some (fs !! scriptPath) -> fs_fault env OpUnlink scriptPath = None ->
   snd (transcribeWithFasterWhisper env a w) = inr (JsString.trim (stdout out))
   /\ files (fst (transcribeWithFasterWhisper env a w)) = delete scriptPath fs
   /\ files (fst (transcribeWithFasterWhisper env a w)) !! scriptPath = None)
  /\ (fs !! scriptPath = None -> fs_fault env OpUnlink scriptPath = None ->
      snd (transcribeWithFasterWhisper env a w)
      = inl (new_Error
               "Transcription failed: ENOENT: no such file or directory, unlink '/tmp/transcribe.py'")
      /\ files (fst (transcribeWithFasterWhisper env a w)) = fs)
  /\ (forall m, fs_fault env OpUnlink scriptPath = Some m ->
      snd (transcribeWithFasterWhisper env a w)
      = inl (new_Error ("Transcription failed: " +:+ m))
      /\ files (fst (transcribeWithFasterWhisper env a w)) = fs).
Proof.
  intros Hw Hrun. unfold transcribeWithFasterWhisper. unfold_effects.
  cbn [files trace]. rewrite Hw. cbn [files trace]. rewrite Hrun.
  cbn [files trace]. split; [|split].
  - intros [c Hc] Hu. rewrite Hu. cbn [files trace]. rewrite Hc.
    cbn [fst snd files trace]. split; [reflexivity|]. split; [reflexivity|].
    apply lookup_delete_eq.
  - intros Hc Hu. rewrite Hu. cbn [files trace]. rewrite Hc.
    cbn [fst snd files trace message]. now split.
  - intros m Hu. rewrite Hu. cbn [fst snd files trace message]. now split.
Qed.

(** X6. When the interpreter of the optimised engine fails, the helper
    fails with [Transcription failed: ] followed by the message of that
    failure and does not remove its script: no removal is attempted,
    and the file system is left as the interpreter left it. *)
Theorem faster_whisper_failure_keeps_script a w fs (e : JsError) :
  fs_fault env OpWrite scriptPath = None ->
  run_process env ("python3 " +:+ scriptPath)
    (<[scriptPath := pythonScript a]> (files w)) = (fs, inl e) ->
  snd (transcribeWithFasterWhisper env a w)
  = inl (new_Error ("Transcription failed: " +:+ message e))
  /\ files (fst (transcribeWithFasterWhisper env a w)) = fs
  /\ unlinked_paths (trace (fst (transcribeWithFasterWhisper env a w)))
     = unlinked_paths (trace w).
Proof.
  intros Hw Hrun. unfold transcribeWithFasterWhisper. unfold_effects.
  cbn [files trace]. rewrite Hw. cbn [files trace]. rewrite Hrun.
  cbn [fst snd files trace].
  rewrite !unlinked_paths_app. cbn. rewrite !app_nil_r. now repeat split.
Qed.

End Engines.

(** ** Both engines fail *)

(** X7. When the audio was extracted, the optimised engine threw and the
    command of the command-line engine failed too, the request is
    answered once, with status 500 and the text [Transcription failed: ]
    followed by the message of the second failure. The error of the
    optimised engine does not reach the client. *)
Theorem both_engines_fail_reports_fallback env f fs fs1 out (e1 : JsError) fs3
    (e2 : JsError) :
  let p := path f in
  let a := path f +:+ ".wav" in
  run_process env (ffmpeg_command p a) fs = (fs1, inr out) ->
  let w1 :=
    mkWorld fs1
      [ConsoleLog ("Processing video: " +:+ originalname f);
       ConsoleLog "Extracting audio...";
       Exec (ffmpeg_command p a);
       ConsoleLog "Audio extracted successfully";
       ConsoleLog "Transcribing..."] in
  snd (transcribeWithFasterWhisper env a w1) = inl e1 ->
  run_process env (whisper_command a)
    (files (fst (transcribeWithFasterWhisper env a w1))) = (fs3, inl e2) ->
  responses
    (trace (world (fst (transcribe_handler env (mkRequest (Some f))
                          (mkHState (mkWorld fs []) None None)))))
  = [(500, JsonError ("Transcription failed: " +:+ message e2))].
Proof.
  intros p a Hrun w1 H1 H2. subst p a.
  set (h := mkHState (mkWorld fs []) None None) in *.
  assert (E1 : extractAudio env (path f) (path f +:+ ".wav")
                 (push (world h)
                    [ConsoleLog ("Processing video: " +:+ originalname f);
                     ConsoleLog "Extracting audio..."])
               = (mkWorld fs1
                    [ConsoleLog ("Processing video: " +:+ originalname f);
                     ConsoleLog "Extracting audio...";
                     Exec (ffmpeg_command (path f) (path f +:+ ".wav"));
                     ConsoleLog "Audio extracted successfully"],
                  inr tt)).
  { rewrite extractAudio_run. subst h. cbn [world push files trace].
    rewrite Hrun. reflexivity. }
  destruct (transcribeWithFasterWhisper env (path f +:+ ".wav") w1)
    as [w2 r1] eqn:E2.
  cbn [fst snd] in H1, H2. subst r1.
  destruct (transcribeWithWhisper env (path f +:+ ".wav")
              (push w2
                 [ConsoleLog
                    "Faster-whisper not available, falling back to standard whisper"]))
    as [w3 r] eqn:E3.
  assert (Hr : r = inl (new_Error ("Transcription failed: " +:+ message e2))).
  { destruct (whisper_command_failure env (path f +:+ ".wav")
                (push w2
                   [ConsoleLog
                      "Faster-whisper not available, falling back to standard whisper"])
                fs3 e2 H2) as (Hs & _).
    rewrite E3 in Hs. exact Hs. }
  destruct (handler_primary_fails env f h _ _ _ _ _ E1 E2 E3)
    as (evs & HT & HR & _).
  subst h r. cbn [world trace app] in HT. rewrite HT, HR. reflexivity.
Qed.

Lemma clip_mov_decodable_no_engine :
  run_process (reference_env (mkSetup false false []))
    (ffmpeg_command (path (stored_file clip_mov))
       (path (stored_file clip_mov) +:+ ".wav"))
    {[ "uploads/77c1" := in_content clip_mov ]}
  = (<[ "uploads/77c1.wav" := "PCM" ]> {[ "uploads/77c1" := in_content clip_mov ]},
     inr (mkProcOutput EmptyString "video:0kB audio:1kB")).
Proof. vm_compute. reflexivity. Defined.

Lemma both_engines_fail_reports_fallback_witness :
  responses
    (trace (world (fst (transcribe_handler (reference_env (mkSetup false false []))
                          (mkRequest (Some (stored_file clip_mov)))
                          (mkHState
                             (mkWorld {[ "uploads/77c1" := in_content clip_mov ]} [])
                             None None)))))
  = [(500,
      JsonError
        ("Transcription failed: "
         +:+ message
               (command_failed (whisper_command "uploads/77c1.wav")
                  "/bin/sh: 1: whisper: not found")))].
Proof.
  eapply (both_engines_fail_reports_fallback (reference_env (mkSetup false false []))
            (stored_file clip_mov) _ _ _ _ _ _ clip_mov_decodable_no_engine);
    vm_compute; reflexivity.
Defined.

Lemma whisper_without_transcript_file_witness :
  snd (transcribeWithWhisper silent_env "uploads/77c1.wav" fresh)
  = inl (new_Error "Transcription failed: Transcript file not generated")
  /\ files (fst (transcribeWithWhisper silent_env "uploads/77c1.wav" fresh)) = ∅.
Proof.
  destruct (whisper_without_transcript_file silent_env "uploads/77c1.wav" fresh
              ∅ (mkProcOutput EmptyString EmptyString) eq_refl eq_refl)
    as (H1 & H2 & _).
  split; [exact H1 | exact H2].
Defined.

Lemma whisper_ran_in_reference :
  run_process (reference_env healthy) (whisper_command "uploads/77c1.wav")
    (files fresh)
  = ({[ "/tmp/77c1.txt" := "fallback text" +:+ NL ]},
     inr (mkProcOutput EmptyString EmptyString)).
Proof. vm_compute. reflexivity. Defined.

Lemma whisper_reads_then_removes_transcript_witness :
  snd (transcribeWithWhisper (reference_env healthy) "uploads/77c1.wav" fresh)
  = inr (JsString.trim ("fallback text" +:+ NL))
  /\ files (fst (transcribeWithWhisper (reference_env healthy) "uploads/77c1.wav"
                   fresh))
     = delete (transcriptPath "uploads/77c1.wav")
         {[ "/tmp/77c1.txt" := "fallback text" +:+ NL ]}.
Proof.
  destruct (whisper_reads_then_removes_transcript (reference_env healthy)
              "uploads/77c1.wav" fresh _ _ ("fallback text" +:+ NL)
              whisper_ran_in_reference eq_refl eq_refl eq_refl)
    as (H1 & H2 & _).
  split; [exact H1 | exact H2].
Defined.

Lemma python_ran_in_reference :
  run_process (reference_env healthy) ("python3 " +:+ scriptPath)
    (<[scriptPath := pythonScript "uploads/3f9a.wav"]> (files fresh))
  = ({[ scriptPath := pythonScript "uploads/3f9a.wav" ]},
     inr (mkProcOutput (" hello world" +:+ NL) EmptyString)).
Proof. vm_compute. reflexivity. Defined.

Lemma faster_whisper_success_removes_script_witness :
  snd (transcribeWithFasterWhisper (reference_env healthy) "uploads/3f9a.wav" fresh)
  = inr (JsString.trim (" hello world" +:+ NL))
  /\ files (fst (transcribeWithFasterWhisper (reference_env healthy)
                   "uploads/3f9a.wav" fresh)) !! scriptPath
     = None.
Proof.
  destruct (proj1 (faster_whisper_success_removes_script (reference_env healthy)
                     "uploads/3f9a.wav" fresh _ _ eq_refl python_ran_in_reference)
              (ex_intro _ (pythonScript "uploads/3f9a.wav") eq_refl) eq_refl)
    as (H1 & _ & H3).
  split; [exact H1 | exact H3].
Defined.

Lemma python_missing_in_reference :
  run_process (reference_env fallback_only) ("python3 " +:+ scriptPath)
    (<[scriptPath := pythonScript "uploads/3f9a.wav"]> (files fresh))
  = ({[ scriptPath := pythonScript "uploads/3f9a.wav" ]},
     inl (command_failed ("python3 " +:+ scriptPath)
            "ModuleNotFoundError: No module named faster_whisper")).
Proof. vm_compute. reflexivity. Defined.

Lemma faster_whisper_failure_keeps_script_witness :
  files (fst (transcribeWithFasterWhisper (reference_env fallback_only)
                "uploads/3f9a.wav" fresh))
  = {[ scriptPath := pythonScript "uploads/3f9a.wav" ]}
  /\ unlinked_paths
       (trace (fst (transcribeWithFasterWhisper (reference_env fallback_only)
                      "uploads/3f9a.wav" fresh)))
     = unlinked_paths (trace fresh).
Proof.
  destruct (faster_whisper_failure_keeps_script (reference_env fallback_only)
              "uploads/3f9a.wav" fresh _ _ eq_refl python_missing_in_reference)
    as (_ & H2 & H3).
  split; [exact H2 | exact H3].
Defined.

(** ** The upload filter and letter case *)

Section FilterCase.
Import JsString NodePath.

Lemma lower_char_slash_dot c :
  Ascii.eqb (lower_char c) SLASH = Ascii.eqb c SLASH
  /\ Ascii.eqb (lower_char c) DOT = Ascii.eqb c DOT.
Proof. destruct c as [[] [] [] [] [] [] [] []]; split; reflexivity. Qed.

Lemma lower_char_idempotent c : lower_char (lower_char c) = lower_char c.
Proof. destruct c as [[] [] [] [] [] [] [] []]; reflexivity. Qed.

Lemma toLowerCase_idempotent s : toLowerCase (toLowerCase s) = toLowerCase s.
Proof.
  induction s as [|c s IH]; simpl; [reflexivity|].
  now rewrite lower_char_idempotent, IH.
Qed.

Lemma toLowerCase_length s : String.length (toLowerCase s) = String.length s.
Proof. induction s as [|c s IH]; simpl; [reflexivity | now rewrite IH]. Qed.

Lemma toLowerCase_get s k :
  String.get k (toLowerCase s) = lower_char <$> String.get k s.
Proof.
  revert k. induction s as [|c s IH]; intros k; simpl; [reflexivity|].
  destruct k as [|k]; [reflexivity | apply IH].
Qed.

Lemma toLowerCase_substring s n m :
  String.substring n m (toLowerCase s) = toLowerCase (String.substring n m s).
Proof.
  revert n m. induction s as [|c s IH]; intros n m; simpl.
  - destruct n, m; reflexivity.
  - destruct n as [|n], m as [|m]; simpl; try reflexivity; now rewrite IH.
Qed.

Lemma ext_step_lower st i c : ext_step st i (lower_char c) = ext_step st i c.
Proof.
  unfold ext_step. destruct (lower_char_slash_dot c) as [-> ->]. reflexivity.
Qed.

Lemma scan_ext_lower s n st :
  scan_down ext_step (toLowerCase s) n st = scan_down ext_step s n st.
Proof.
  revert st. induction n as [|n IH]; intros st; simpl; [reflexivity|].
  rewrite toLowerCase_get.
  destruct (String.get n s) as [c|]; simpl; [|apply IH].
  now rewrite ext_step_lower, IH.
Qed.

(** Lowering the case of a path lowers the case of its extension and
    nothing else. *)
Lemma extname_toLowerCase s :
  extname (toLowerCase s) = toLowerCase (extname s).
Proof.
  unfold extname. rewrite toLowerCase_length, scan_ext_lower.
  destruct (_ || _); [reflexivity|].
  unfold slice. destruct (_ <=? _); [reflexivity|].
  apply toLowerCase_substring.
Qed.

End FilterCase.

(** X8. The filter does not look at letter case: a file name and its
    lower-case form are accepted or refused alike. *)
Theorem fileFilter_ignores_case name :
  fileFilter (JsString.toLowerCase name) = fileFilter name.
Proof.
  unfold fileFilter, upload_ext.
  now rewrite extname_toLowerCase, toLowerCase_idempotent.
Qed.

(** ** Names without an extension *)

Section NoDot.
Import JsString NodePath.

Lemma includes_dot_get s :
  includes s "." = false -> forall k, String.get k s <> Some DOT.
Proof.
  induction s as [|c s IH]; intros H k; [destruct k; discriminate|].
  cbn [includes] in H. apply orb_false_elim in H as [Hp Hi].
  destruct k as [|k]; simpl.
  - intros [= ->]. unfold DOT in Hp. cbn in Hp. destruct s; discriminate Hp.
  - now apply IH.
Qed.

Lemma scan_ext_no_dot s n st :
  (forall k, String.get k s <> Some DOT) ->
  startDot st = -1 ->
  startDot (scan_down ext_step s n st) = -1.
Proof.
  intros Hs. revert st. induction n as [|n IH]; intros st Hst; simpl;
    [exact Hst|].
  destruct (String.get n s) as [c|] eqn:Hc; [|now apply IH].
  apply IH. unfold ext_step.
  assert (Hdot : Ascii.eqb c DOT = false).
  { destruct (Ascii.eqb_spec c DOT) as [->|]; [|reflexivity].
    now destruct (Hs n). }
  rewrite Hdot. destruct st as [sd sp ei ms pd stp].
  cbn [startDot stopped matchedSlash endIdx] in *. subst sd.
  destruct stp; [reflexivity|].
  destruct (Ascii.eqb c SLASH); [destruct (negb ms); reflexivity|].
  destruct (ei =? -1); reflexivity.
Qed.

Lemma extname_no_dot s : includes s "." = false -> extname s = EmptyString.
Proof.
  intros H. unfold extname.
  rewrite (scan_ext_no_dot s _ ext_init (includes_dot_get s H) eq_refl).
  reflexivity.
Qed.

End NoDot.

(** X9. A file name that contains no dot has no extension and is
    refused, whatever its spelling. *)
Theorem fileFilter_rejects_dotless name :
  JsString.includes name "." = false ->
  fileFilter name
  = inl (new_Error "Invalid file type. Only video files are allowed.").
Proof.
  intros H. apply fileFilter_rejects_missing_extension.
  unfold upload_ext. now rewrite extname_no_dot.
Qed.

Lemma fileFilter_rejects_dotless_witness :
  JsString.includes "mp4" "." = false
  /\ fileFilter "mp4"
     = inl (new_Error "Invalid file type. Only video files are allowed.").
Proof.
  split; [reflexivity|]. exact (fileFilter_rejects_dotless "mp4" eq_refl).
Defined.

(** ** What the server itself writes and removes *)

Section Footprint.
Variable env : Env.

Lemma within_weaken wr rm wr' rm' ev :
  incl wr wr' -> incl rm rm' -> within wr rm ev -> within wr' rm' ev.
Proof. intros Hw Hr. destruct ev; simpl; auto. Qed.

Lemma extractAudio_footprint v a w :
  exists evs,
    trace (fst (extractAudio env v a w)) = trace w ++ evs
    /\ Forall (within [] []) evs.
Proof.
  rewrite extractAudio_run.
  destruct (run_process env (ffmpeg_command v a) (files w)) as [fs [[e|]|o]];
    cbn [fst trace]; eexists; (split; [reflexivity|]);
    repeat constructor.
Qed.

Lemma primary_footprint a w :
  exists evs,
    trace (fst (transcribeWithFasterWhisper env a w)) = trace w ++ evs
    /\ Forall (within [scriptPath] [scriptPath]) evs.
Proof.
  unfold transcribeWithFasterWhisper. unfold_effects.
  case_env; simpl; rewrite <- ?app_assoc; simpl;
    eexists; (split; [reflexivity|]);
    repeat constructor; simpl; auto.
Qed.

Lemma fallback_footprint a w :
  exists evs,
    trace (fst (transcribeWithWhisper env a w)) = trace w ++ evs
    /\ Forall (within [] [transcriptPath a]) evs.
Proof.
  unfold transcribeWithWhisper. unfold_effects.
  case_env; simpl; rewrite <- ?app_assoc; simpl;
    eexists; (split; [reflexivity|]);
    repeat constructor; simpl; auto.
Qed.

Lemma remove_if_present_footprint p w :
  exists evs,
    trace (fst (remove_if_present env (Some p) w)) = trace w ++ evs
    /\ Forall (within [] [p]) evs.
Proof.
  destruct (JsString.truthy p) eqn:Hp.
  - rewrite remove_if_present_run by exact Hp.
    destruct (files w !! p); [destruct (fs_fault env OpUnlink p)|];
      cbn [fst trace push].
    + exists [FsUnlink p]. split; [reflexivity|]. repeat constructor.
    + exists [FsUnlink p]. split; [reflexivity|]. repeat constructor.
    + exists []. now rewrite app_nil_r.
  - unfold remove_if_present. rewrite Hp. exists []. cbn.
    now rewrite app_nil_r.
Qed.

Lemma cleanup_footprint h p a :
  videoPath h = Some p -> audioPath h = Some a ->
  exists evs,
    trace (world (fst (cleanup env h))) = trace (world h) ++ evs
    /\ Forall (within [] [p; a]) evs.
Proof.
  intros Hv Ha. rewrite cleanup_run, Hv, Ha.
  destruct (remove_if_present_footprint p (world h)) as (e1 & T1 & F1).
  destruct (remove_if_present env (Some p) (world h)) as [w1 [e|[]]];
    cbn [fst world] in *.
  - exists e1. split; [exact T1|].
    eapply List.Forall_impl; [|exact F1].
    intros ev. apply within_weaken; intros x Hx; simpl in *; tauto.
  - destruct (remove_if_present_footprint a w1) as (e2 & T2 & F2).
    destruct (remove_if_present env (Some a) w1) as [w2 r];
      cbn [fst world] in *.
    exists (e1 ++ e2). rewrite T2, T1, <- app_assoc. split; [reflexivity|].
    apply List.Forall_app. split; (eapply List.Forall_impl; [|eassumption]);
      intros ev; apply within_weaken; intros x Hx; simpl in *; tauto.
Qed.

(** X10. By its own file-system calls a request writes no file but the
    script of the optimised engine and removes no file but the stored
    upload, the audio derived from it, that script and the transcript
    file of the command-line engine. Anything else that changes on
    disk is the work of the commands it started. *)
Theorem server_touches_only_its_artifacts f fs :
  let p := path f in
  let a := path f +:+ ".wav" in
  let T :=
    trace (world (fst (transcribe_handler env (mkRequest (Some f))
                         (mkHState (mkWorld fs []) None None)))) in
  (forall q c, In (FsWrite q c) T -> q = scriptPath)
  /\ (forall q, In (FsUnlink q) T ->
        q = p \/ q = a \/ q = scriptPath \/ q = transcriptPath a).
Proof.
  intros p a T.
  assert (HF : Forall (within [scriptPath] [p; a; scriptPath; transcriptPath a]) T).
  { subst T p a.
    set (h := mkHState (mkWorld fs []) None None).
    set (bounds := within [scriptPath]
                     [path f; path f +:+ ".wav"; scriptPath;
                      transcriptPath (path f +:+ ".wav")]).
    assert (Hbody : Forall bounds
                      (trace (world (fst (try_catch
                                            (handler_try env (mkRequest (Some f)))
                                            handler_catch h))))).
    { rewrite handler_try_catch_run. subst bounds.
      set (a := path f +:+ ".wav"). set (p := path f).
      set (w0 := push (world h) _).
      destruct (extractAudio_footprint p a w0) as (e1 & T1 & F1).
      assert (F0 : Forall (within [scriptPath]
                             [p; a; scriptPath; transcriptPath a]) (trace w0)).
      { subst w0 h. cbn. repeat constructor. }
      assert (W : forall wr rm evs,
                 incl wr [scriptPath] ->
                 incl rm [p; a; scriptPath; transcriptPath a] ->
                 Forall (within wr rm) evs ->
                 Forall (within [scriptPath]
                           [p; a; scriptPath; transcriptPath a]) evs).
      { intros wr rm evs Hw Hr HFa. eapply List.Forall_impl; [|exact HFa].
        intros ev. now apply within_weaken. }
      assert (I0 : incl [] [scriptPath]) by (intros x []).
      assert (I1 : incl [] [p; a; scriptPath; transcriptPath a]) by (intros x []).
      assert (I2 : incl [scriptPath] [p; a; scriptPath; transcriptPath a])
        by (intros x [<-|[]]; simpl; tauto).
      assert (I3 : incl [transcriptPath a] [p; a; scriptPath; transcriptPath a])
        by (intros x [<-|[]]; simpl; tauto).
      destruct (extractAudio env p a w0) as [w1 [[e|]|[]]]; cbn [fst] in T1.
      - cbn [fst world push trace]. rewrite T1. rewrite !List.Forall_app.
        repeat split; eauto using incl_refl. repeat constructor.
      - cbn [fst world]. rewrite T1. rewrite !List.Forall_app.
        repeat split; eauto using incl_refl.
      - set (w1' := push w1 _).
        destruct (primary_footprint a w1') as (e2 & T2 & F2).
        destruct (transcribeWithFasterWhisper env a w1') as [w2 [[e|]|t]];
          cbn [fst] in T2.
        + set (w2' := push w2 _).
          destruct (fallback_footprint a w2') as (e3 & T3 & F3).
          destruct (transcribeWithWhisper env a w2') as [w3 [[e'|]|t]];
            cbn [fst] in T3; cbn [fst world push trace]; rewrite T3;
            subst w2'; cbn [push trace]; rewrite T2;
            subst w1'; cbn [push trace]; rewrite T1;
            rewrite !List.Forall_app;
            repeat split; eauto using incl_refl; repeat constructor.
        + cbn [fst world]. rewrite T2. subst w1'. cbn [push trace]. rewrite T1.
          rewrite !List.Forall_app.
          repeat split; eauto using incl_refl; repeat constructor.
        + cbn [fst world push trace]. rewrite T2. subst w1'.
          cbn [push trace]. rewrite T1. rewrite !List.Forall_app.
          repeat split; eauto using incl_refl; repeat constructor. }
    destruct (handler_try_catch_outcome env f h) as ([Hok|Hnever] & Hv & Ha).
    - rewrite handler_run_settled by (rewrite Hok; discriminate).
      destruct (cleanup_footprint _ _ _ Hv Ha) as (ec & -> & Fc).
      apply List.Forall_app. split; [exact Hbody|].
      eapply List.Forall_impl; [|exact Fc].
      intros ev. apply within_weaken; intros x Hx; simpl in *; tauto.
    - rewrite handler_run_never by exact Hnever. exact Hbody. }
  rewrite List.Forall_forall in HF. split.
  - intros q c Hin. apply HF in Hin. simpl in Hin.
    destruct Hin as [<-|[]]. reflexivity.
  - intros q Hin. apply HF in Hin. simpl in Hin.
    destruct Hin as [<-|[<-|[<-|[<-|[]]]]]; auto.
Qed.

End Footprint.

(** * Properties of the page script *)

Section FrontendFacts.
Import Frontend.

(** Run a handler as far as the state of the page decides it. *)
Ltac run_page :=
lazy beta iota zeta delta
  [onTranscribeClick onYoutubeClick ensure_model loadTranscriber
   runTranscription extractAndResampleAudio await_pipeline await_fetch
   new_Float32Array await loaded
   Frontend.when Frontend.try_finally Frontend.try_catch Frontend.bind
   Frontend.ret Frontend.throw Frontend.get Frontend.console_error
   Frontend.alert Frontend.emit set_transcriber set_isModelLoading
   set_transcribeBtn_disabled set_transcribeBtn_ready set_youtubeBtn_disabled
   set_transcriptOutput_value updateStatus
   transcriber isModelLoading status_message status_processing
   transcribeBtn_disabled transcribeBtn_ready youtubeBtn_disabled
   transcriptOutput_value youtubeLinkInput_value log
   fst snd negb orb andb JsString.truthy].

Ltac run_page_in E :=
lazy beta iota zeta delta
  [onTranscribeClick onYoutubeClick ensure_model loadTranscriber
   runTranscription extractAndResampleAudio await_pipeline await_fetch
   new_Float32Array await loaded
   Frontend.when Frontend.try_finally Frontend.try_catch Frontend.bind
   Frontend.ret Frontend.throw Frontend.get Frontend.console_error
   Frontend.alert Frontend.emit set_transcriber set_isModelLoading
   set_transcribeBtn_disabled set_transcribeBtn_ready set_youtubeBtn_disabled
   set_transcriptOutput_value updateStatus
   transcriber isModelLoading status_message status_processing
   transcribeBtn_disabled transcribeBtn_ready youtubeBtn_disabled
   transcriptOutput_value youtubeLinkInput_value log
   fst snd negb orb andb JsString.truthy] in E.

(** Split on what the browser answers, at each point where the run [E]
  of a handler depends on it. *)
Ltac use_known b E :=
match goal with
| H : pipeline b = _ |- _ => progress rewrite H in E
| H : fetch b _ _ = _ |- _ => progress rewrite H in E
| H : ok _ = _ |- _ => progress rewrite H in E
| H : json _ = _ |- _ => progress rewrite H in E
| H : Float32Array_of b _ = _ |- _ => progress rewrite H in E
| H : run_model b _ _ = _ |- _ => progress rewrite H in E
| H : pe_is_TypeError _ = _ |- _ => progress rewrite H in E
end.

Ltac case_browser b E :=
repeat
  (run_page_in E;
   try use_known b E;
   match type of E with
   | context [pipeline b] => destruct (pipeline b) as [[?|]|?] eqn:?
   | context [has_duration b] => destruct (has_duration b) eqn:?
   | context [metadata b] => destruct (metadata b) as [[?|]|[]] eqn:?
   | context [audio_graph b] => destruct (audio_graph b) eqn:?
   | context [play b] => destruct (play b) as [[?|]|[]] eqn:?
   | context [startRendering b] =>
       destruct (startRendering b) as [[?|]|?] eqn:?
   | context [run_model b ?m ?a] =>
       destruct (run_model b m a) as [[?|]|?] eqn:?
   | context [fetch b ?e ?u] => destruct (fetch b e u) as [[?|]|?] eqn:?
   | context [ok ?r] => destruct (ok r) eqn:?
   | context [json ?r] => destruct (json r) as [[?|]|?] eqn:?
   | context [Float32Array_of b ?d] =>
       destruct (Float32Array_of b d) eqn:?
   | context [pe_is_TypeError ?e] => destruct (pe_is_TypeError e) eqn:?
   end);
run_page_in E.

(** Name the run of a handler, split it, and put the result back. *)
Ltac run_cases b R E :=
match goal with
| |- context [onTranscribeClick b ?s] =>
    remember (onTranscribeClick b s) as R eqn:E
| |- context [onYoutubeClick b ?s] =>
    remember (onYoutubeClick b s) as R eqn:E
| |- context [loadTranscriber b ?s] =>
    remember (loadTranscriber b s) as R eqn:E
end;
case_browser b E; subst R; run_page.

Lemma downloads_app l r : downloads (l ++ r) = (downloads l + downloads r)%nat.
Proof.
induction l as [|e l IH]; simpl; [reflexivity|].
destruct e; simpl; now rewrite ?IH.
Qed.

Lemma renders_app l r : renders (l ++ r) = (renders l + renders r)%nat.
Proof.
induction l as [|e l IH]; simpl; [reflexivity|].
destruct e; simpl; now rewrite ?IH.
Qed.

Lemma fetches_app l r : fetches (l ++ r) = fetches l ++ fetches r.
Proof.
induction l as [|e l IH]; simpl; [reflexivity|].
destruct e; simpl; now rewrite ?IH.
Qed.

Lemma model_runs_app l r : model_runs (l ++ r) = model_runs l ++ model_runs r.
Proof.
induction l as [|e l IH]; simpl; [reflexivity|].
destruct e; simpl; now rewrite ?IH.
Qed.

Lemma alerts_app l r : alerts (l ++ r) = alerts l ++ alerts r.
Proof.
induction l as [|e l IH]; simpl; [reflexivity|].
destruct e; simpl; now rewrite ?IH.
Qed.

Lemma body_reads_app l r : body_reads (l ++ r) = (body_reads l + body_reads r)%nat.
Proof.
induction l as [|e l IH]; simpl; [reflexivity|].
destruct e; simpl; now rewrite ?IH.
Qed.

Lemma page_errors_app l r : page_errors (l ++ r) = page_errors l ++ page_errors r.
Proof.
induction l as [|e l IH]; simpl; [reflexivity|].
destruct e; simpl; now rewrite ?IH.
Qed.

(** Bring the views of a log into shape. *)
Ltac normalize_log :=
repeat (rewrite downloads_app || rewrite renders_app || rewrite fetches_app
        || rewrite model_runs_app || rewrite alerts_app
        || rewrite body_reads_app || rewrite page_errors_app);
simpl; rewrite ?app_nil_r; try lia; try reflexivity.

Ltac close_leaf :=
repeat split; try reflexivity; try (intros; discriminate);
try (intros; congruence);
try (left; reflexivity); try (right; reflexivity);
try (intros [[? [=]] | [=]]; fail);
try (match goal with H : is_Some None |- _ => destruct H as [? [=]] end);
try (right; split; [reflexivity | eexists; reflexivity]);
intros; normalize_log; try congruence.

(** X11. [loadTranscriber] never throws. When a model is already
  there, or another load is under way, it returns at once, changes
  nothing and starts no download. Otherwise it starts exactly one
  download. When the download succeeds, the model is stored, the
  status line says so and the loading flag is lowered again. When it
  fails, the error is written to the console, the status line shows
  [Error: Could not load model. Please refresh the page.] and the flag
  is lowered again. When it never settles, the function never returns:
  the flag stays raised and the status line keeps the loading message
  and its spinner. *)
Theorem loadTranscriber_outcomes b s :
(snd (loadTranscriber b s) = inr tt \/ snd (loadTranscriber b s) = inl Never)
/\ (is_Some (transcriber s) \/ isModelLoading s = true ->
    loadTranscriber b s = (s, inr tt))
/\ (transcriber s = None -> isModelLoading s = false ->
    let s' := fst (loadTranscriber b s) in
    downloads (log s') = S (downloads (log s))
    /\ match pipeline b with
       | inr m =>
           snd (loadTranscriber b s) = inr tt
           /\ transcriber s' = Some m
           /\ isModelLoading s' = false
           /\ status_message s' = "Model loaded. Ready to transcribe."
           /\ status_processing s' = false
           /\ page_errors (log s') = page_errors (log s)
       | inl (Thrown e) =>
           snd (loadTranscriber b s) = inr tt
           /\ transcriber s' = None
           /\ isModelLoading s' = false
           /\ status_message s'
              = "Error: Could not load model. Please refresh the page."
           /\ status_processing s' = false
           /\ page_errors (log s')
              = page_errors (log s) ++ [("Model loading failed:", e)]
       | inl Never =>
           snd (loadTranscriber b s) = inl Never
           /\ transcriber s' = None
           /\ isModelLoading s' = true
           /\ status_message s'
              = "Loading transcription model... (this may take a moment)"
           /\ status_processing s' = true
       end).
Proof.
destruct s as [t l msg pr d r y o u lg].
destruct t as [m|], l; run_cases b R E; close_leaf.
Qed.

(** X12. The model is downloaded once: after a load that succeeded,
  another call of [loadTranscriber] changes nothing and starts no
  download. *)
Theorem model_downloaded_once b s m :
pipeline b = inr m ->
loadTranscriber b (fst (loadTranscriber b s)) = (fst (loadTranscriber b s), inr tt)
/\ (downloads (log (fst (loadTranscriber b s))) <= S (downloads (log s)))%nat.
Proof.
intros Hp. destruct s as [t l msg pr d r y o u lg].
destruct t as [m'|], l; repeat (progress (run_page; rewrite ?Hp));
  (split; [reflexivity|]); normalize_log.
Qed.

Lemma model_downloaded_once_witness :
loadTranscriber working_browser (fst (loadTranscriber working_browser opened))
= (fst (loadTranscriber working_browser opened), inr tt)
/\ downloads (log (fst (loadTranscriber working_browser opened))) = 1%nat.
Proof.
split; [|reflexivity].
exact (proj1 (model_downloaded_once working_browser opened 1%nat eq_refl)).
Defined.

(** X13. A click on the transcribe button never throws, and the
  button loses its [ready] mark. The handler comes to an end whenever
  the promises it awaits settle (the model download, the audio
  extraction, the run of the model): the button is then enabled
  again, the spinner is off, and the status line shows either the
  completion message or [Error: ] followed by a message; in the second
  case the transcript box keeps what it held before. When one of the
  promises never settles the handler never comes back: the button
  stays disabled, the spinner stays on and the transcript box is
  untouched. This is what happens, with a model at hand, when the
  audio extraction waits for metadata that never arrives. *)
Theorem transcribe_click_outcomes b s :
let s' := fst (onTranscribeClick b s) in
(snd (onTranscribeClick b s) = inr tt \/ snd (onTranscribeClick b s) = inl Never)
/\ transcribeBtn_ready s' = false
/\ (pipeline b <> inl Never -> render b <> inl Never ->
    (forall m a, run_model b m a <> inl Never) ->
    snd (onTranscribeClick b s) = inr tt)
/\ (snd (onTranscribeClick b s) = inr tt ->
    transcribeBtn_disabled s' = false
    /\ status_processing s' = false
    /\ isModelLoading s' = isModelLoading s
    /\ (status_message s' = "File transcription complete!"
        \/ (transcriptOutput_value s' = transcriptOutput_value s
            /\ exists m, status_message s' = "Error: " +:+ m)))
/\ (snd (onTranscribeClick b s) = inl Never ->
    transcribeBtn_disabled s' = true
    /\ status_processing s' = true
    /\ transcriptOutput_value s' = transcriptOutput_value s)
/\ (is_Some (transcriber s) -> has_duration b = false ->
    metadata b = inl Never ->
    snd (onTranscribeClick b s) = inl Never
    /\ status_message s' = "Processing audio from video file...").
Proof.
destruct s as [t l msg pr d r y o u lg]. unfold render. cbv zeta.
destruct t as [m|], l; run_cases b R E; close_leaf;
  try (exfalso; match goal with
                | H : forall m a, run_model b m a <> inl Never |- _ =>
                    eapply H; eassumption
                end).
Qed.

Lemma transcribe_click_outcomes_witness :
snd (onTranscribeClick stale_video_browser ready_with_link) = inl Never
/\ transcribeBtn_disabled (fst (onTranscribeClick stale_video_browser ready_with_link))
   = true
/\ status_message (fst (onTranscribeClick stale_video_browser ready_with_link))
   = "Processing audio from video file..."
/\ snd (onTranscribeClick working_browser ready_with_link) = inr tt.
Proof.
pose proof (transcribe_click_outcomes stale_video_browser ready_with_link)
  as (_ & _ & _ & _ & Hstuck & Hmeta).
destruct (Hmeta (ex_intro _ 1%nat eq_refl) eq_refl eq_refl) as [Hn Hmsg].
split; [exact Hn|]. split; [exact (proj1 (Hstuck Hn))|]. split; [exact Hmsg|].
reflexivity.
Defined.

(** X14. A click while no model is there and none can be had (a load is
  still under way, or the download fails) ends with the status
  [Error: Model not available.]: the audio is not rendered, the model is
  not run and the transcript box is left alone. *)
Theorem transcribe_click_without_model b s :
transcriber s = None ->
isModelLoading s = true \/ (exists e : PageError, pipeline b = inl e) ->
let s' := fst (onTranscribeClick b s) in
status_message s' = "Error: Model not available."
/\ transcriber s' = None
/\ renders (log s') = renders (log s)
/\ model_runs (log s') = model_runs (log s)
/\ transcriptOutput_value s' = transcriptOutput_value s.
Proof.
intros Ht Hwhy. destruct s as [t l msg pr d r y o u lg].
cbn [transcriber isModelLoading] in Ht, Hwhy. subst t. cbv zeta.
destruct l.
- run_page. close_leaf.
- destruct Hwhy as [[=] | [e He]]. run_page. rewrite He. run_page. close_leaf.
Qed.

Lemma transcribe_click_without_model_witness :
status_message (fst (onTranscribeClick offline_browser opened))
= "Error: Model not available."
/\ renders (log (fst (onTranscribeClick offline_browser opened))) = 0%nat.
Proof.
destruct (transcribe_click_without_model offline_browser opened eq_refl
            (or_intror (ex_intro _ (mkPageError "Failed to fetch" true) eq_refl)))
  as (H1 & _ & H3 & _).
split; [exact H1 | exact H3].
Defined.

(** X15. A click with a model at hand whose audio cannot be rendered ends
  with the status [Error: Could not extract audio. Please try a
  different file.]: rendering was tried once, the model is not run and
  the transcript box is left alone. *)
Theorem transcribe_click_without_audio b s m (e : PageError) :
transcriber s = Some m ->
render b = inl e ->
let s' := fst (onTranscribeClick b s) in
status_message s'
= "Error: Could not extract audio. Please try a different file."
/\ renders (log s') = S (renders (log s))
/\ model_runs (log s') = model_runs (log s)
/\ downloads (log s') = downloads (log s)
/\ transcriptOutput_value s' = transcriptOutput_value s.
Proof.
intros Ht Hr. destruct s as [t l msg pr d r y o u lg].
cbn [transcriber] in Ht. subst t. unfold render in Hr. cbv zeta.
run_cases b R E; try discriminate Hr; close_leaf.
Qed.

Lemma transcribe_click_without_audio_witness :
status_message (fst (onTranscribeClick missing_backend_browser ready_with_link))
= "Error: Could not extract audio. Please try a different file."
/\ transcriptOutput_value
     (fst (onTranscribeClick missing_backend_browser ready_with_link))
   = "earlier text".
Proof.
destruct (transcribe_click_without_audio missing_backend_browser ready_with_link
            1%nat (new_Error "NotSupportedError") eq_refl eq_refl)
  as (H1 & _ & _ & _ & H5).
split; [exact H1 | exact H5].
Defined.

(** X16. A click that finds or gets a model, renders the audio and runs
  the model to the end puts the text of the model's output into the
  transcript box and shows the completion message; the model is run
  exactly once, on the rendered audio. *)
Theorem transcribe_click_shows_text b s m a out :
transcriber s = Some m
\/ (transcriber s = None /\ isModelLoading s = false /\ pipeline b = inr m) ->
render b = inr a ->
run_model b m a = inr out ->
let s' := fst (onTranscribeClick b s) in
transcriptOutput_value s' = text out
/\ status_message s' = "File transcription complete!"
/\ transcriber s' = Some m
/\ model_runs (log s') = model_runs (log s) ++ [(m, a)].
Proof.
intros Hm Hr Hrun. destruct s as [t l msg pr d r y o u lg].
cbn [transcriber isModelLoading] in Hm. unfold render in Hr. cbv zeta.
destruct Hm as [-> | (-> & -> & Hp)]; run_cases b R E;
  try discriminate; try discriminate Hr;
  repeat match goal with
         | H : inr _ = inr _ |- _ => injection H as ?; subst
         end;
  try congruence; close_leaf.
Qed.

Lemma transcribe_click_shows_text_witness :
transcriptOutput_value (fst (onTranscribeClick working_browser opened))
= "hello world"
/\ status_message (fst (onTranscribeClick working_browser opened))
   = "File transcription complete!".
Proof.
destruct (transcribe_click_shows_text working_browser opened 1%nat [0; 1; 0]
            (mkOutput "hello world")
            (or_intror (conj eq_refl (conj eq_refl eq_refl))) eq_refl eq_refl)
  as (H1 & H2 & _).
split; [exact H1 | exact H2].
Defined.

(** X17. With an empty link field the YouTube button only shows an
  alert: no request is sent, the button is not disabled and the status
  line, the model and the transcript box are left as they were. *)
Theorem youtube_click_empty_link b s :
youtubeLinkInput_value s = EmptyString ->
onYoutubeClick b s
= (mkPage (transcriber s) (isModelLoading s) (status_message s)
     (status_processing s) (transcribeBtn_disabled s) (transcribeBtn_ready s)
     (youtubeBtn_disabled s) (transcriptOutput_value s)
     (youtubeLinkInput_value s)
     (log s ++ [Alert "Please paste a YouTube link first."]),
   inr tt).
Proof.
intros Hu. destruct s as [t l msg pr d r y o u lg].
cbn [youtubeLinkInput_value] in Hu. subst u. reflexivity.
Qed.

Lemma youtube_click_empty_link_witness :
fetches (log (fst (onYoutubeClick working_browser opened))) = []
/\ alerts (log (fst (onYoutubeClick working_browser opened)))
   = ["Please paste a YouTube link first."].
Proof.
rewrite (youtube_click_empty_link working_browser opened eq_refl).
split; reflexivity.
Defined.

(** X18. With a link typed in, a click on the YouTube button never
  throws. It sends one request, to [/api/transcribe-youtube] with the
  link as typed, when a model is there or could be loaded, and none
  otherwise. The handler comes to an end whenever the promises it
  awaits settle (the model download, [fetch], the reading of the body,
  the run of the model): the button is then enabled again and the
  spinner is off. When one of them never settles the handler never
  comes back: the button stays disabled and the transcript box is
  untouched. *)
Theorem youtube_click_outcomes b s :
JsString.truthy (youtubeLinkInput_value s) = true ->
let s' := fst (onYoutubeClick b s) in
(snd (onYoutubeClick b s) = inr tt \/ snd (onYoutubeClick b s) = inl Never)
/\ fetches (log s')
   = fetches (log s)
     ++ (if loaded (transcriber s')
         then [("/api/transcribe-youtube", youtubeLinkInput_value s)]
         else [])
/\ (pipeline b <> inl Never ->
    (forall r,
        fetch b "/api/transcribe-youtube" (youtubeLinkInput_value s) = inr r ->
        json r <> inl Never) ->
    fetch b "/api/transcribe-youtube" (youtubeLinkInput_value s) <> inl Never ->
    (forall m a, run_model b m a <> inl Never) ->
    snd (onYoutubeClick b s) = inr tt)
/\ (snd (onYoutubeClick b s) = inr tt ->
    youtubeBtn_disabled s' = false /\ status_processing s' = false)
/\ (snd (onYoutubeClick b s) = inl Never ->
    youtubeBtn_disabled s' = true
    /\ transcriptOutput_value s' = transcriptOutput_value s).
Proof.
intros Hu. destruct s as [t l msg pr d r y o u lg].
cbn [youtubeLinkInput_value] in Hu. destruct u as [|c u]; [discriminate Hu|].
cbv zeta. cbn [youtubeLinkInput_value].
destruct t as [m|], l; run_cases b R E; close_leaf;
  try (exfalso; match goal with
                | H : forall m a, run_model b m a <> inl Never |- _ =>
                    eapply H; eassumption
                end);
  try (exfalso; match goal with
                | H : forall r, _ = inr r -> json r <> inl Never |- _ =>
                    eapply H; [reflexivity | eassumption]
                end).
Qed.

Lemma youtube_click_outcomes_witness :
snd (onYoutubeClick working_browser ready_with_link) = inr tt
/\ youtubeBtn_disabled (fst (onYoutubeClick working_browser ready_with_link))
   = false
/\ fetches (log (fst (onYoutubeClick working_browser ready_with_link)))
   = [("/api/transcribe-youtube", "https://youtu.be/abc")]
/\ snd (onYoutubeClick stalled_download_browser ready_with_link) = inl Never
/\ youtubeBtn_disabled
     (fst (onYoutubeClick stalled_download_browser ready_with_link))
   = true.
Proof.
assert (Hok : snd (onYoutubeClick working_browser ready_with_link) = inr tt)
  by (vm_compute; reflexivity).
assert (Hn : snd (onYoutubeClick stalled_download_browser ready_with_link)
             = inl Never)
  by (vm_compute; reflexivity).
pose proof (youtube_click_outcomes working_browser ready_with_link eq_refl)
  as (_ & H2 & _ & H4 & _).
pose proof (youtube_click_outcomes stalled_download_browser ready_with_link
              eq_refl) as (_ & _ & _ & _ & H5).
split; [exact Hok|]. split; [exact (proj1 (H4 Hok))|]. split; [exact H2|].
split; [exact Hn | exact (proj1 (H5 Hn))].
Defined.

(** X19. When a model is there, or is loaded by this click, and the
  request to the back end is rejected with a [TypeError] (the network
  error of [fetch]), the user gets the alert that the back end is
  missing and the status [YouTube support is not yet enabled. Please
  use file upload.]; the model is not run and the transcript box is
  left alone. *)
Theorem youtube_click_fetch_rejected b s m (e : PageError) :
JsString.truthy (youtubeLinkInput_value s) = true ->
transcriber s = Some m
\/ (transcriber s = None /\ isModelLoading s = false /\ pipeline b = inr m) ->
fetch b "/api/transcribe-youtube" (youtubeLinkInput_value s) = inl e ->
pe_is_TypeError e = true ->
let s' := fst (onYoutubeClick b s) in
status_message s' = "YouTube support is not yet enabled. Please use file upload."
/\ alerts (log s')
   = alerts (log s)
     ++ ["YouTube transcription requires a backend setup. This feature is not yet live. Please use file upload instead."]
/\ model_runs (log s') = model_runs (log s)
/\ transcriptOutput_value s' = transcriptOutput_value s.
Proof.
intros Hu Hm Hf He. destruct s as [t l msg pr d r y o u lg].
cbn [youtubeLinkInput_value transcriber isModelLoading] in Hu, Hm, Hf.
destruct u as [|c u]; [discriminate Hu|]. cbv zeta.
destruct Hm as [-> | (-> & -> & Hp)]; run_cases b R E;
  try discriminate; try congruence;
  repeat match goal with
         | H : inl _ = inl _ |- _ => injection H as ?; subst
         end;
  try congruence; close_leaf.
Qed.

Lemma youtube_click_fetch_rejected_witness :
status_message (fst (onYoutubeClick offline_browser ready_with_link))
= "YouTube support is not yet enabled. Please use file upload."
/\ model_runs (log (fst (onYoutubeClick offline_browser ready_with_link))) = [].
Proof.
destruct (youtube_click_fetch_rejected offline_browser ready_with_link 1%nat
            (mkPageError "Failed to fetch" true) eq_refl
            (or_introl eq_refl) eq_refl eq_refl)
  as (H1 & _ & H3 & _).
split; [exact H1 | exact H3].
Defined.

(** X20. The same alert and status appear when the back end did answer
  and it is the model, run on the [Float32Array] made from the body,
  that throws a [TypeError]: the handler tells the two apart by the
  class of the error only. A model is there, or is loaded by this
  click. *)
Theorem youtube_click_model_type_error b s m r data a (e : PageError) :
JsString.truthy (youtubeLinkInput_value s) = true ->
transcriber s = Some m
\/ (transcriber s = None /\ isModelLoading s = false /\ pipeline b = inr m) ->
fetch b "/api/transcribe-youtube" (youtubeLinkInput_value s) = inr r ->
ok r = true ->
json r = inr data ->
Float32Array_of b data = inr a ->
run_model b m a = inl e ->
pe_is_TypeError e = true ->
let s' := fst (onYoutubeClick b s) in
status_message s' = "YouTube support is not yet enabled. Please use file upload."
/\ alerts (log s')
   = alerts (log s)
     ++ ["YouTube transcription requires a backend setup. This feature is not yet live. Please use file upload instead."]
/\ fetches (log s')
   = fetches (log s) ++ [("/api/transcribe-youtube", youtubeLinkInput_value s)]
/\ model_runs (log s') = model_runs (log s) ++ [(m, a)].
Proof.
intros Hu Hm Hf Hok Hj Ha Hrun He. destruct s as [t l msg pr d rd y o u lg].
cbn [youtubeLinkInput_value transcriber isModelLoading] in Hu, Hm, Hf.
destruct u as [|c u]; [discriminate Hu|]. cbv zeta.
destruct Hm as [-> | (-> & -> & Hp)]; run_cases b R E;
  try discriminate; try congruence;
  repeat match goal with
         | H : inl _ = inl _ |- _ => injection H as ?; subst
         | H : inr _ = inr _ |- _ => injection H as ?; subst
         end;
  try congruence; close_leaf.
Qed.

Lemma youtube_click_model_type_error_witness :
status_message (fst (onYoutubeClick faulty_model_browser ready_with_link))
= "YouTube support is not yet enabled. Please use file upload."
/\ fetches (log (fst (onYoutubeClick faulty_model_browser ready_with_link)))
   = [("/api/transcribe-youtube", "https://youtu.be/abc")].
Proof.
destruct (youtube_click_model_type_error faulty_model_browser ready_with_link
            1%nat (mkFetchResponse true "OK" (inr sample_body)) sample_body
            [0; 1; 0]
            (mkPageError "Cannot read properties of undefined" true)
            eq_refl (or_introl eq_refl) eq_refl eq_refl eq_refl eq_refl eq_refl
            eq_refl)
  as (H1 & _ & H3 & _).
split; [exact H1 | exact H3].
Defined.

(** X21. When a model is there, or is loaded by this click, and the
  back end answers with an error status, the status line shows
  [Error: Backend error: ] followed by the status text of the
  response; the body of the response is not read, the model is not
  run and no alert is shown. *)
Theorem youtube_click_backend_error b s m r :
JsString.truthy (youtubeLinkInput_value s) = true ->
transcriber s = Some m
\/ (transcriber s = None /\ isModelLoading s = false /\ pipeline b = inr m) ->
fetch b "/api/transcribe-youtube" (youtubeLinkInput_value s) = inr r ->
ok r = false ->
let s' := fst (onYoutubeClick b s) in
status_message s' = "Error: " +:+ "Backend error: " +:+ statusText r
/\ body_reads (log s') = body_reads (log s)
/\ alerts (log s') = alerts (log s)
/\ model_runs (log s') = model_runs (log s)
/\ transcriptOutput_value s' = transcriptOutput_value s.
Proof.
intros Hu Hm Hf Hok. destruct s as [t l msg pr d rd y o u lg].
cbn [youtubeLinkInput_value transcriber isModelLoading] in Hu, Hm, Hf.
destruct u as [|c u]; [discriminate Hu|]. cbv zeta.
destruct Hm as [-> | (-> & -> & Hp)]; run_cases b R E;
  try discriminate; try congruence;
  repeat match goal with
         | H : inr _ = inr _ |- _ => injection H as ?; subst
         end;
  try congruence; close_leaf.
Qed.

Lemma youtube_click_backend_error_witness :
status_message (fst (onYoutubeClick missing_backend_browser ready_with_link))
= "Error: Backend error: Not Found"
/\ transcriptOutput_value
     (fst (onYoutubeClick missing_backend_browser ready_with_link))
   = "earlier text".
Proof.
destruct (youtube_click_backend_error missing_backend_browser ready_with_link
            1%nat (mkFetchResponse false "Not Found" (inr (mkJson "{}")))
            eq_refl (or_introl eq_refl) eq_refl eq_refl)
  as (H1 & _ & _ & _ & H5).
split; [exact H1 | exact H5].
Defined.

End FrontendFacts.

(** ** The transcript path of an upload *)

Section TranscriptPath.
Import JsString NodePath.

Lemma scan_down_agree {S} (step : S -> Z -> ascii -> S) s s' n st :
  (forall k, (k < n)%nat -> String.get k s = String.get k s') ->
  scan_down step s n st = scan_down step s' n st.
Proof.
  revert st. induction n as [|n IH]; intros st H; [reflexivity|].
  cbn [scan_down]. rewrite <- (H n) by lia.
  destruct (String.get n s); apply IH; intros k Hk; apply H; lia.
Qed.

(** Scanning a concatenation from its end: first the second part, with
    its indices shifted, then the first part. *)
Lemma scan_down_append {S} (step : S -> Z -> ascii -> S) s1 s2 k st :
  scan_down step (s1 +:+ s2) (String.length s1 + k) st
  = scan_down step s1 (String.length s1)
      (scan_down (fun st i c => step st (Z.of_nat (String.length s1) + i) c)
         s2 k st).
Proof.
  revert st. induction k as [|k IH]; intros st.
  - rewrite Nat.add_0_r. cbn [scan_down]. apply scan_down_agree.
    intros j Hj. symmetry. now apply append_correct1.
  - rewrite Nat.add_succ_r. cbn [scan_down].
    rewrite (Nat.add_comm (String.length s1) k), <- append_correct2.
    rewrite (Nat.add_comm k).
    replace (Z.of_nat (String.length s1 + k))
      with (Z.of_nat (String.length s1) + Z.of_nat k) by lia.
    destruct (String.get k s2); apply IH.
Qed.

Lemma plain_name_get s k c :
  plain_name s = true -> String.get k s = Some c ->
  Ascii.eqb c DOT = false /\ Ascii.eqb c SLASH = false.
Proof.
  revert k. induction s as [|d s IH]; intros k Hs Hk; [destruct k; discriminate|].
  cbn [plain_name] in Hs. apply andb_prop in Hs as [Hd Hs].
  apply andb_prop in Hd as [Hdot Hsl].
  destruct k as [|k]; cbn in Hk.
  - injection Hk as <-. split; now apply negb_true_iff.
  - now apply (IH k).
Qed.

(** The steps of the [extname] scan. *)

Lemma ext_step_first i c :
  Ascii.eqb c DOT = false -> Ascii.eqb c SLASH = false ->
  ext_step ext_init i c = mkExtScan (-1) 0 (i + 1) false 0 false.
Proof. intros Hd Hs. unfold ext_step, ext_init. cbn. now rewrite Hs, Hd. Qed.

Lemma ext_step_before_dot i c sp e pd :
  Ascii.eqb c DOT = false -> Ascii.eqb c SLASH = false -> e <> -1 ->
  ext_step (mkExtScan (-1) sp e false pd false) i c
  = mkExtScan (-1) sp e false pd false.
Proof.
  intros Hd Hs He. unfold ext_step. cbn. rewrite Hs, Hd.
  now rewrite (proj2 (Z.eqb_neq _ _) He).
Qed.

Lemma ext_step_dot i sp e ms pd :
  e <> -1 ->
  ext_step (mkExtScan (-1) sp e ms pd false) i DOT = mkExtScan i sp e ms pd false.
Proof.
  intros He. unfold ext_step. cbn. now rewrite (proj2 (Z.eqb_neq _ _) He).
Qed.

Lemma ext_step_after_dot i c sd sp e ms pd :
  Ascii.eqb c DOT = false -> Ascii.eqb c SLASH = false ->
  sd <> -1 -> e <> -1 ->
  ext_step (mkExtScan sd sp e ms pd false) i c = mkExtScan sd sp e ms (-1) false.
Proof.
  intros Hd Hs Hsd He. unfold ext_step. cbn. rewrite Hs, Hd.
  rewrite (proj2 (Z.eqb_neq _ _) He). cbn.
  now rewrite (proj2 (Z.eqb_neq _ _) Hsd).
Qed.

Lemma ext_step_slash i sd sp e pd :
  ext_step (mkExtScan sd sp e false pd false) i SLASH
  = mkExtScan sd (i + 1) e false pd true.
Proof. reflexivity. Qed.

Lemma ext_step_stopped i c sd sp e ms pd :
  ext_step (mkExtScan sd sp e ms pd true) i c = mkExtScan sd sp e ms pd true.
Proof. reflexivity. Qed.

Lemma ext_scan_wav o :
  0 <= o ->
  scan_down (fun st i c => ext_step st (o + i) c) ".wav" 4 ext_init
  = mkExtScan (o + 0) 0 (o + 3 + 1) false 0 false.
Proof.
  intros Ho. cbn [scan_down String.get].
  rewrite ext_step_first by reflexivity.
  rewrite !ext_step_before_dot by (reflexivity || lia).
  change "."%char with DOT. rewrite ext_step_dot by lia. reflexivity.
Qed.

Lemma get_some_lt (s : string) k c :
  String.get k s = Some c -> (k < String.length s)%nat.
Proof.
  revert k. induction s as [|d s IH]; intros k H; [now destruct k|].
  destruct k as [|k]; simpl in *; [lia|]. apply IH in H. lia.
Qed.

Lemma get_none_ge (s : string) k :
  String.get k s = None -> (String.length s <= k)%nat.
Proof.
  revert k. induction s as [|d s IH]; intros k H; simpl in *; [lia|].
  destruct k as [|k]; [discriminate|]. apply IH in H. lia.
Qed.

Lemma ext_scan_name o n k sd sp e pd :
  plain_name n = true -> sd <> -1 -> e <> -1 ->
  scan_down (fun st i c => ext_step st (o + i) c) n k
    (mkExtScan sd sp e false pd false)
  = mkExtScan sd sp e false
      (if Nat.ltb 0 (Nat.min k (String.length n)) then -1 else pd) false.
Proof.
  intros Hn Hsd He. revert pd.
  induction k as [|k IH]; intros pd; [reflexivity|].
  cbn [scan_down]. destruct (String.get k n) as [c|] eqn:Hc.
  - destruct (plain_name_get n k c Hn Hc) as [Hd Hs].
    rewrite ext_step_after_dot by assumption. rewrite IH.
    pose proof (get_some_lt _ _ _ Hc) as Hlt.
    replace (Nat.ltb 0 (Nat.min (S k) (String.length n))) with true
      by (symmetry; apply Nat.ltb_lt; lia).
    now destruct (Nat.ltb 0 (Nat.min k (String.length n))).
  - rewrite IH. pose proof (get_none_ge _ _ Hc) as Hge.
    now rewrite !Nat.min_r by lia.
Qed.

Lemma ext_scan_stopped (step_off : Z -> Z) d k sd sp e ms pd :
  scan_down (fun st i c => ext_step st (step_off i) c) d k
    (mkExtScan sd sp e ms pd true)
  = mkExtScan sd sp e ms pd true.
Proof.
  induction k as [|k IH]; [reflexivity|].
  cbn [scan_down]. destruct (String.get k d); [|exact IH].
  rewrite ext_step_stopped. exact IH.
Qed.

(** The steps of the [basename] scan with the suffix [".wav"]. *)

Lemma base_step_first suffix i c bs be ms ei :
  Ascii.eqb c SLASH = false -> 0 < ei ->
  JsString.charAt suffix ei = Some c ->
  base_step suffix (mkBaseScan bs be ms ei (-1) false) i c
  = mkBaseScan bs be false (ei - 1) (i + 1) false.
Proof.
  intros Hs Hei Hc. unfold base_step.
  cbn [bstopped bstart bend bmatchedSlash extIdx firstNonSlashEnd].
  rewrite Hs. change (-1 =? -1) with true.
  cbn [bstopped bstart bend bmatchedSlash extIdx firstNonSlashEnd].
  rewrite (proj2 (Z.leb_le 0 ei)) by lia.
  rewrite bool_decide_eq_true_2 by exact Hc.
  now rewrite (proj2 (Z.eqb_neq (ei - 1) (-1))) by lia.
Qed.

Lemma base_step_match suffix i c bs be ms ei fe :
  Ascii.eqb c SLASH = false -> 0 < ei -> fe <> -1 ->
  JsString.charAt suffix ei = Some c ->
  base_step suffix (mkBaseScan bs be ms ei fe false) i c
  = mkBaseScan bs be ms (ei - 1) fe false.
Proof.
  intros Hs Hei Hfe Hc. unfold base_step.
  cbn [bstopped bstart bend bmatchedSlash extIdx firstNonSlashEnd].
  rewrite Hs, (proj2 (Z.eqb_neq fe (-1))) by exact Hfe.
  cbn [bstopped bstart bend bmatchedSlash extIdx firstNonSlashEnd].
  rewrite (proj2 (Z.leb_le 0 ei)) by lia.
  rewrite bool_decide_eq_true_2 by exact Hc.
  now rewrite (proj2 (Z.eqb_neq (ei - 1) (-1))) by lia.
Qed.

Lemma base_step_last suffix i c bs be ms fe :
  Ascii.eqb c SLASH = false -> fe <> -1 ->
  JsString.charAt suffix 0 = Some c ->
  base_step suffix (mkBaseScan bs be ms 0 fe false) i c
  = mkBaseScan bs i ms (-1) fe false.
Proof.
  intros Hs Hfe Hc. unfold base_step.
  cbn [bstopped bstart bend bmatchedSlash extIdx firstNonSlashEnd].
  rewrite Hs, (proj2 (Z.eqb_neq fe (-1))) by exact Hfe.
  cbn [bstopped bstart bend bmatchedSlash extIdx firstNonSlashEnd].
  change (0 <=? 0) with true. cbv iota.
  now rewrite bool_decide_eq_true_2 by exact Hc.
Qed.

Lemma base_scan_wav o :
  0 <= o ->
  scan_down (fun st i c => base_step ".wav" st (o + i) c) ".wav" 4
    (mkBaseScan 0 (-1) true 3 (-1) false)
  = mkBaseScan 0 (o + 0) false (-1) (o + 3 + 1) false.
Proof.
  intros Ho. cbn [scan_down String.get].
  rewrite base_step_first by (reflexivity || lia).
  rewrite (base_step_match _ _ _ _ _ _ (3 - 1)) by (reflexivity || lia).
  rewrite (base_step_match _ _ _ _ _ _ (3 - 1 - 1)) by (reflexivity || lia).
  change (3 - 1 - 1 - 1) with 0.
  now rewrite base_step_last by (reflexivity || lia).
Qed.

Lemma base_step_after_suffix suffix i c bs be fe :
  Ascii.eqb c SLASH = false -> fe <> -1 ->
  base_step suffix (mkBaseScan bs be false (-1) fe false) i c
  = mkBaseScan bs be false (-1) fe false.
Proof.
  intros Hs Hfe. unfold base_step. cbn. rewrite Hs.
  now rewrite (proj2 (Z.eqb_neq _ _) Hfe).
Qed.

Lemma base_step_slash suffix i bs be ei fe :
  base_step suffix (mkBaseScan bs be false ei fe false) i SLASH
  = mkBaseScan (i + 1) be false ei fe true.
Proof. reflexivity. Qed.

Lemma base_scan_name suffix o n k bs be fe :
  plain_name n = true -> fe <> -1 ->
  scan_down (fun st i c => base_step suffix st (o + i) c) n k
    (mkBaseScan bs be false (-1) fe false)
  = mkBaseScan bs be false (-1) fe false.
Proof.
  intros Hn Hfe. induction k as [|k IH]; [reflexivity|].
  cbn [scan_down]. destruct (String.get k n) as [c|] eqn:Hc; [|exact IH].
  destruct (plain_name_get n k c Hn Hc) as [_ Hs].
  rewrite base_step_after_suffix by assumption. exact IH.
Qed.

Lemma base_scan_stopped suffix (step_off : Z -> Z) d k bs be ms ei fe :
  scan_down (fun st i c => base_step suffix st (step_off i) c) d k
    (mkBaseScan bs be ms ei fe true)
  = mkBaseScan bs be ms ei fe true.
Proof.
  induction k as [|k IH]; [reflexivity|].
  cbn [scan_down]. destruct (String.get k d); exact IH.
Qed.

Lemma substring_append_middle a n b :
  String.substring (String.length a) (String.length n) (a +:+ n +:+ b) = n.
Proof.
  induction a as [|c a IH].
  - rewrite append_nil. cbn [String.length].
    induction n as [|c n IHn]; [now destruct b|].
    rewrite append_cons. cbn. now rewrite IHn.
  - rewrite append_cons. cbn. exact IH.
Qed.

Lemma scan_same {S} (step : S -> Z -> ascii -> S) s n st :
  scan_down step s n st = scan_down (fun st i c => step st (0 + i) c) s n st.
Proof.
  revert st. induction n as [|n IH]; intros st; [reflexivity|].
  cbn [scan_down]. destruct (String.get n s); apply IH.
Qed.

Lemma scan_down_whole {S} (step : S -> Z -> ascii -> S) s1 s2 st :
  scan_down step (s1 +:+ s2) (String.length (s1 +:+ s2)) st
  = scan_down step s1 (String.length s1)
      (scan_down (fun st i c => step st (Z.of_nat (String.length s1) + i) c)
         s2 (String.length s2) st).
Proof. rewrite length_append. apply scan_down_append. Qed.

Section Upload.
Variables (d n : string).
Hypothesis Hplain : plain_name n = true.
Hypothesis Hne : n <> EmptyString.

Let dir := d +:+ "/".
Let stem := dir +:+ n.
Let audio := d +:+ "/" +:+ n +:+ ".wav".

Lemma audio_split : audio = stem +:+ ".wav".
Proof. unfold audio, stem, dir. now rewrite !append_assoc. Qed.

Lemma n_length : (0 < String.length n)%nat.
Proof. destruct n; [congruence | simpl; lia]. Qed.

Lemma audio_length :
  String.length audio = (String.length stem + 4)%nat.
Proof. rewrite audio_split, length_append. reflexivity. Qed.

Lemma stem_length :
  String.length stem = (String.length d + 1 + String.length n)%nat.
Proof. unfold stem, dir. rewrite !length_append. reflexivity. Qed.

Lemma ext_scan_audio :
  scan_down ext_step audio (String.length audio) ext_init
  = mkExtScan (Z.of_nat (String.length stem) + 0)
              (Z.of_nat (String.length d) + 0 + 1)
              (Z.of_nat (String.length stem) + 3 + 1) false (-1) true.
Proof.
  rewrite audio_split, scan_down_whole.
  change (String.length ".wav") with 4%nat.
  rewrite ext_scan_wav by lia.
  set (sd := Z.of_nat (String.length stem) + 0).
  set (e := Z.of_nat (String.length stem) + 3 + 1).
  assert (Hsd : sd <> -1) by (subst sd; lia).
  assert (He : e <> -1) by (subst e; lia).
  clearbody sd e. unfold stem. rewrite scan_down_whole.
  rewrite ext_scan_name by (assumption || lia).
  rewrite Nat.min_id.
  replace (Nat.ltb 0 (String.length n)) with true
    by (symmetry; apply Nat.ltb_lt, n_length).
  unfold dir. rewrite scan_down_whole.
  cbn [scan_down String.get String.length]. change "/"%char with SLASH.
  rewrite ext_step_slash.
  rewrite (scan_same ext_step). apply ext_scan_stopped.
Qed.

Lemma base_scan_audio :
  scan_down (base_step ".wav") audio (String.length audio)
    (mkBaseScan 0 (-1) true 3 (-1) false)
  = mkBaseScan (Z.of_nat (String.length d) + 0 + 1)
               (Z.of_nat (String.length stem) + 0) false (-1)
               (Z.of_nat (String.length stem) + 3 + 1) true.
Proof.
  rewrite audio_split, scan_down_whole.
  change (String.length ".wav") with 4%nat.
  rewrite base_scan_wav by lia.
  set (be := Z.of_nat (String.length stem) + 0).
  set (fe := Z.of_nat (String.length stem) + 3 + 1).
  assert (Hfe : fe <> -1) by (subst fe; lia).
  clearbody be fe. unfold stem. rewrite scan_down_whole.
  rewrite base_scan_name by (assumption || lia).
  unfold dir. rewrite scan_down_whole.
  cbn [scan_down String.get String.length]. change "/"%char with SLASH.
  rewrite base_step_slash.
  rewrite (scan_same (base_step ".wav")). apply base_scan_stopped.
Qed.

Lemma audio_not_suffix : String.eqb ".wav" audio = false.
Proof.
  apply String.eqb_neq. intros H.
  apply (f_equal String.length) in H.
  rewrite audio_length, stem_length in H. cbn in H. lia.
Qed.

Lemma extname_audio : extname audio = ".wav".
Proof.
  unfold extname. rewrite ext_scan_audio.
  cbn [startDot startPart endIdx matchedSlash preDotState stopped].
  rewrite (proj2 (Z.eqb_neq _ (-1))) by lia.
  rewrite (proj2 (Z.eqb_neq _ (-1))) by lia.
  change (-1 =? 0) with false. change (-1 =? 1) with false.
  cbn [orb andb]. unfold slice.
  rewrite (proj2 (Z.leb_gt _ _)) by lia.
  replace (Z.to_nat (Z.of_nat (String.length stem) + 0))
    with (String.length stem) by lia.
  replace (Z.to_nat (Z.of_nat (String.length stem) + 3 + 1
                     - (Z.of_nat (String.length stem) + 0)))
    with (String.length ".wav") by (cbn; lia).
  rewrite audio_split.
  rewrite <- (append_empty_r ".wav") at 2.
  apply substring_append_middle.
Qed.

Lemma basename_audio : basename audio ".wav" = n.
Proof.
  unfold basename, JsString.length.
  change (0 <? Z.of_nat (String.length ".wav")) with true.
  rewrite (proj2 (Z.leb_le _ _))
    by (rewrite audio_length; cbn [String.length]; lia).
  cbn [andb]. rewrite audio_not_suffix.
  change (Z.of_nat (String.length ".wav") - 1) with 3.
  rewrite base_scan_audio.
  cbn [bstart bend bmatchedSlash extIdx firstNonSlashEnd bstopped].
  pose proof n_length as Hlen. pose proof stem_length as Hstem.
  rewrite (proj2 (Z.eqb_neq _ _)) by lia.
  rewrite (proj2 (Z.eqb_neq _ (-1))) by lia.
  unfold slice. rewrite (proj2 (Z.leb_gt _ _)) by lia.
  replace (Z.to_nat (Z.of_nat (String.length d) + 0 + 1))
    with (String.length dir) by (unfold dir; rewrite length_append; cbn; lia).
  replace (Z.to_nat (Z.of_nat (String.length stem) + 0
                     - (Z.of_nat (String.length d) + 0 + 1)))
    with (String.length n) by lia.
  unfold audio. rewrite <- append_assoc. fold dir.
  apply substring_append_middle.
Qed.

End Upload.

End TranscriptPath.

(** X22. For an audio file [<dir>/<name>.wav] whose name has no dot and no
    slash and is not empty (the upload names the server generates are of
    this kind), [transcribeWithWhisper] looks for the transcript at
    [/tmp/<name>.txt]: the directory and the [.wav] suffix are dropped. *)
Theorem transcriptPath_drops_dir_and_suffix (d n : string) :
  plain_name n = true -> n <> EmptyString ->
  transcriptPath (d +:+ "/" +:+ n +:+ ".wav") = "/tmp/" +:+ n +:+ ".txt".
Proof.
  intros Hplain Hne. unfold transcriptPath.
  rewrite (extname_audio d n Hplain Hne).
  now rewrite (basename_audio d n Hplain Hne).
Qed.

Lemma transcriptPath_drops_dir_and_suffix_witness :
  transcriptPath "uploads/3f9a.wav" = "/tmp/3f9a.txt".
Proof.
  exact (transcriptPath_drops_dir_and_suffix "uploads" "3f9a" eq_refl
           ltac:(discriminate)).
Defined.
